(** * calcium-converter: a shallow embedding of [calcium_converter.py]

    The development follows the source file top to bottom: the Python
    values the program manipulates, its exceptions, the metrics engine
    ([calculate_peak], [calculate_base], [calculate_area],
    [ratio_to_calcium_concentration]) and the region segmenter
    ([search_for_data_bounds], [search_for_treatment_labels],
    [get_raw_data] with its local [append_values]).

    Numbers.  A Python [float] is modelled by an exact rational ([Q]) and a
    Python [int] by [Z]; arithmetic that mixes both is carried out in [Q].
    The exceptions Python raises (division by zero, operations on [None] or
    on text, missing attributes, indices out of range, failed assertions)
    are kept: every function that can raise returns a [result]. *)

From Stdlib Require Import ZArith QArith List String Ascii Lia Bool.
From Stdlib Require Import DecimalString Lqa.
Import ListNotations.

Open Scope Q_scope.

(* ================================================================== *)
(** * Python values, exceptions and the output stream                  *)
(* ================================================================== *)

(** The exceptions the modelled code can raise.  [SystemExit] is
    [sys.exit(1)]. *)
Inductive exn : Type :=
| TypeError
| ZeroDivisionError
| AttributeError
| IndexError
| AssertionError
| StatisticsError
| ValueError
| SystemExit.

Inductive result (A : Type) : Type :=
| Ok (a : A)
| Raise (e : exn).

Arguments Ok {A} a.
Arguments Raise {A} e.

Definition rbind {A B : Type} (r : result A) (f : A -> result B) : result B :=
  match r with
  | Ok a => f a
  | Raise e => Raise e
  end.

Declare Scope result_scope.
Delimit Scope result_scope with result.
Notation "x <- r ;; k" := (rbind r (fun x => k))
  (at level 61, r at next level, right associativity) : result_scope.
Open Scope result_scope.

(** The scalar values a worksheet cell can hold. *)
Inductive pyval : Type :=
| PyNone
| PyInt (z : Z)
| PyFloat (q : Q)
| PyStr (s : string)
| PyBool (b : bool).

(** [type(v) is int or type(v) is float]: [bool] is a subclass of [int],
    so its [type] is neither. *)
Definition is_int_or_float (v : pyval) : bool :=
  match v with
  | PyInt _ | PyFloat _ => true
  | _ => false
  end.

(** The number held by a value that passed [is_int_or_float]. *)
Definition number_of (v : pyval) : Q :=
  match v with
  | PyInt z => inject_Z z
  | PyFloat q => q
  | _ => 0
  end.

(** Python's [a > b] on numbers. *)
Definition Qgtb (a b : Q) : bool := negb (Qle_bool a b).

(** Python's float division: a zero divisor raises. *)
Definition pydiv (a b : Q) : result Q :=
  if Qeq_bool b 0 then Raise ZeroDivisionError else Ok (a / b).

(** [needle in haystack] on text. *)
Fixpoint str_contains (needle haystack : string) : bool :=
  if String.prefix needle haystack then true
  else match haystack with
       | EmptyString => false
       | String _ rest => str_contains needle rest
       end.

(* ================================================================== *)
(** * The data model                                                   *)
(* ================================================================== *)

Record TimeValuePair : Type := mkTimeValuePair {
  time : Q;
  value : Q
}.

(** [prior_wash_data] is assigned [prior_std_data] in [get_raw_data], which
    is [None] until a bath segment has been seen: [None] here is Python's
    [None], [Some l] a list. *)
Record TreatmentData : Type := mkTreatmentData {
  treatment_name : string;
  prior_wash_data : option (list TimeValuePair);
  treatment_data : list TimeValuePair;
  anterior_wash_data : list TimeValuePair
}.

Record StandardBathData : Type := mkStandardBathData {
  std_bath_data : list TimeValuePair
}.

Record LabelIndexPair : Type := mkLabelIndexPair {
  label : string;
  index : Z
}.

(** An element of a region's segment list:
    [Union[TreatmentData, StandardBathData]]. *)
Inductive segment : Type :=
| Treatment (t : TreatmentData)
| Bath (b : StandardBathData).

Module PeakValues.
Definition PEAK_HIGHEST_VALUE : Z := 1.
Definition PEAK_AVERAGE_OF_THREE : Z := 2.
End PeakValues.

Module SheetParseValues.
Definition HEADER_ROW : Z := 1.
Definition START_DATA_ROW : Z := 2.
End SheetParseValues.

Definition is_valid_treatment (potential_treatment : string) : bool :=
  negb (String.eqb "Standard Bath" potential_treatment) &&
  negb (String.eqb "STD" potential_treatment).

(* ================================================================== *)
(** * Metrics engine                                                   *)
(* ================================================================== *)

(** ** [statistics.mean] and [statistics.stdev] *)

Definition Qsum (l : list Q) : Q := fold_left Qplus l 0.

Definition mean (l : list Q) : result Q :=
  match l with
  | [] => Raise StatisticsError
  | _ => Ok (Qsum l / inject_Z (Z.of_nat (List.length l)))
  end.

(** Sample variance: sum of squared deviations over [n - 1]. *)
Definition sample_variance (l : list Q) : Q :=
  let m := Qsum l / inject_Z (Z.of_nat (List.length l)) in
  Qsum (map (fun x => (x - m) * (x - m)) l)
  / inject_Z (Z.of_nat (List.length l) - 1).

(** ** [calculate_peak] *)

(** The [for value in anterior_wash_data] loop of [calculate_peak]: [i] is
    incremented first, then the time is tested and the loop may [break]. *)
Fixpoint peak_scan (anterior : list TimeValuePair) (limit : Q) (i : nat) : nat :=
  match anterior with
  | [] => i
  | v :: rest =>
      let i := S i in
      if Qgtb (time v) limit then i else peak_scan rest limit i
  end.

(** [sorted(..., reverse=True, key=lambda x: x.value)]: descending by value,
    stable (samples of equal value keep their order). *)
Fixpoint insert_desc (x : TimeValuePair) (l : list TimeValuePair)
  : list TimeValuePair :=
  match l with
  | [] => [x]
  | y :: rest =>
      if Qgtb (value y) (value x) then y :: insert_desc x rest
      else x :: y :: rest
  end.

Definition sorted_desc (l : list TimeValuePair) : list TimeValuePair :=
  fold_right insert_desc [] l.

(** [treatment_data.treatment_data[-1]] *)
Definition last_sample (l : list TimeValuePair) : result TimeValuePair :=
  match rev l with
  | [] => Raise IndexError
  | x :: _ => Ok x
  end.

(** The list [data_to_search] before it is sorted. *)
Definition data_to_search (td : TreatmentData) (post_std_time_to_search : Q)
  : result (list TimeValuePair) :=
  lst <- last_sample (treatment_data td) ;;
  let end_treatment_value_time := time lst in
  let i := peak_scan (anterior_wash_data td)
             (end_treatment_value_time + post_std_time_to_search) 0 in
  Ok (treatment_data td ++
      firstn (Nat.min (List.length (anterior_wash_data td)) i) (anterior_wash_data td)).

(** What the second component of [calculate_peak]'s result can be: a time,
    or (through [max] applied to samples) a [TimeValuePair] object. *)
Inductive peak_time_val : Type :=
| PeakTime (t : Q)
| PeakObject (p : TimeValuePair).

(** The builtin [max] on a list of [TimeValuePair] objects.  The class
    defines no ordering: comparing two instances raises [TypeError]; a
    single element is returned without any comparison. *)
Definition max_of_objects (l : list TimeValuePair) : result TimeValuePair :=
  match l with
  | [] => Raise ValueError
  | [x] => Ok x
  | _ :: _ :: _ => Raise TypeError
  end.

Definition calculate_peak (td : TreatmentData) (peak_type : Z)
  (post_std_time_to_search : Q) : result (Q * peak_time_val) :=
  pool <- data_to_search td post_std_time_to_search ;;
  let data_to_search := sorted_desc pool in
  if (peak_type =? PeakValues.PEAK_HIGHEST_VALUE)%Z then
    match data_to_search with
    | [] => Raise IndexError
    | top :: _ => Ok (value top, PeakTime (time top))
    end
  else
    m <- mean (map value (firstn 2 data_to_search)) ;;
    t <- max_of_objects (firstn 2 data_to_search) ;;
    Ok (m, PeakObject t).

(** ** [calculate_base] *)

(** [l[start:]] *)
Definition slice_from {A : Type} (start : Z) (l : list A) : list A :=
  let n := Z.of_nat (List.length l) in
  let s := if (start <? 0)%Z then Z.max (n + start) 0 else Z.min start n in
  skipn (Z.to_nat s) l.

(** [base_values] of [calculate_base]: the values of
    [prior_wash_data[-base:]]. *)
Definition base_values (td : TreatmentData) (base : Z) : result (list Q) :=
  match prior_wash_data td with
  | None => Raise TypeError
  | Some prior => Ok (map value (slice_from (- base)%Z prior))
  end.

Section Base.

(** The square root [statistics.stdev] takes of the sample variance. *)
Variable sqrt : Q -> Q.

Definition stdev (l : list Q) : result Q :=
  if (List.length l <? 2)%nat then Raise StatisticsError
  else Ok (sqrt (sample_variance l)).

Definition calculate_base (td : TreatmentData) (base : Z) : result (Q * Q) :=
  vs <- base_values td base ;;
  m <- mean vs ;;
  s <- stdev vs ;;
  Ok (m, s).

End Base.

(** ** [calculate_area] *)

Definition DEFAULT_DT : Q := 6.
Definition NUM_CONSECUTIVE_VALUES_BEFORE_DONE : nat := 15.

Section Area.

Variables base base_std base_peak_time : Q.

(** [base_peak_time] is the number the signature announces
    ([base_peak_time: float]).

    The [for value in values_to_consider] loop, with its three mutable
    variables as arguments; the early [break] returns [auc] as it is. *)
Fixpoint area_loop (values_to_consider : list TimeValuePair)
  (previous_time : option Q) (auc : Q) (consec_values_at_base : nat) : Q :=
  match values_to_consider with
  | [] => auc
  | v :: rest =>
      let dt := match previous_time with
                | None => DEFAULT_DT
                | Some p => time v - p
                end in
      let previous_time := Some (time v) in
      if Qgtb (value v) (base + base_std) then
        area_loop rest previous_time (auc + (value v - base) * dt)
          consec_values_at_base
      else if Qgtb (time v) base_peak_time then
        let consec_values_at_base := S consec_values_at_base in
        if (NUM_CONSECUTIVE_VALUES_BEFORE_DONE <=? consec_values_at_base)%nat
        then auc
        else area_loop rest previous_time auc consec_values_at_base
      else area_loop rest previous_time auc consec_values_at_base
  end.

Definition calculate_area (td : TreatmentData) : Q :=
  area_loop (treatment_data td ++ anterior_wash_data td) None 0 0.

End Area.

Definition calculate_delta (peak base : Q) : Q := peak - base.

(** ** [ratio_to_calcium_concentration] *)

(** The arithmetic of the [return] line on a number. *)
Definition concentration_of_number (ratio : Q) : result pyval :=
  x <- pydiv (ratio - 0.132) (6.274 - ratio) ;;
  Ok (PyFloat (146 * (25813.79 / 1674.68) * x)).

Definition ratio_to_calcium_concentration (ratio : pyval) : result pyval :=
  match ratio with
  | PyNone => Ok PyNone
  | PyInt z => concentration_of_number (inject_Z z)
  | PyFloat q => concentration_of_number q
  | PyBool b => concentration_of_number (if b then 1 else 0)
  | PyStr _ => Raise TypeError
  end.

(* ================================================================== *)
(** * Region segmenter                                                 *)
(* ================================================================== *)

(** ** Worksheets and the output stream *)

(** An openpyxl worksheet as the program reads it: the value of the cell
    at (row, column), both 1-indexed, and the sheet's extent.  A cell that
    was never written holds [None]. *)
Record Worksheet : Type := mkWorksheet {
  cell_value : Z -> Z -> pyval;
  max_row : Z;
  max_column : Z
}.

(** [insheet.cell(row, column).value].  openpyxl tests
    [row < 1 or column < 1] and raises [ValueError]; a column that is
    [None] makes that comparison raise [TypeError]. *)
Definition sheet_cell (insheet : Worksheet) (row : Z) (column : option Z)
  : result pyval :=
  match column with
  | None => if (row <? 1)%Z then Raise ValueError else Raise TypeError
  | Some c =>
      if ((row <? 1) || (c <? 1))%Z then Raise ValueError
      else Ok (cell_value insheet row c)
  end.

(** What the segmenter prints. *)
Inductive output : Type :=
| InvalidTimeRatio (time_value ratio_value : pyval) (row : Z)
| MultipleLabelsColumns
| NoLabelsColumn.

(** Computations that may raise and that print: the lines printed so far
    are threaded through. *)
Definition M (A : Type) : Type := list output -> result (A * list output).

Definition ret {A : Type} (a : A) : M A := fun out => Ok (a, out).

Definition bind {A B : Type} (m : M A) (f : A -> M B) : M B :=
  fun out =>
    match m out with
    | Ok (a, out') => f a out'
    | Raise e => Raise e
    end.

Definition lift {A : Type} (r : result A) : M A :=
  fun out =>
    match r with
    | Ok a => Ok (a, out)
    | Raise e => Raise e
    end.

Definition print (line : output) : M unit :=
  fun out => Ok (tt, out ++ [line]).

Notation "x <-- m ;; k" := (bind m (fun x => k))
  (at level 61, m at next level, right associativity) : result_scope.

(** [needle in v] where [v] is a cell value that is not [None]: only text
    is iterable. *)
Definition contained_in (needle : string) (v : pyval) : result bool :=
  match v with
  | PyStr s => Ok (str_contains needle s)
  | _ => Raise TypeError
  end.

Definition is_valid_ratio_data_header (potential_header : pyval) : result bool :=
  contained_in "Ratio" potential_header.

(** ** [find_number] and [generate_region_label] *)

Definition isdigit (c : ascii) : bool :=
  ((48 <=? nat_of_ascii c) && (nat_of_ascii c <=? 57))%nat.

(** The [for c in label] loop of [find_number]; returns [int_str]. *)
Fixpoint find_number_loop (label : string) (int_found : bool) (int_str : string)
  : string :=
  match label with
  | EmptyString => int_str
  | String c rest =>
      if int_found && negb (isdigit c) then int_str
      else if isdigit c
           then find_number_loop rest true (int_str ++ String c EmptyString)
           else find_number_loop rest int_found int_str
  end.

(** [int(int_str)] on a string of decimal digits. *)
Fixpoint int_of_digits (s : string) (acc : Z) : Z :=
  match s with
  | EmptyString => acc
  | String c rest =>
      int_of_digits rest (10 * acc + (Z.of_nat (nat_of_ascii c) - 48))%Z
  end.

Definition find_number (label : pyval) : result Z :=
  match label with
  | PyStr s =>
      let int_str := find_number_loop s false EmptyString in
      if (String.length int_str =? 0)%nat then Ok (-1)%Z
      else Ok (int_of_digits int_str 0)
  | _ => Raise TypeError
  end.

(** [f'{n}'] for an integer. *)
Definition format_int (n : Z) : string :=
  NilZero.string_of_int (Z.to_int n).

Definition generate_region_label (old_label : pyval) (region_idx : Z)
  (run_label : string) : result string :=
  number <- find_number old_label ;;
  if (number =? -1)%Z then Ok (run_label ++ format_int region_idx)%string
  else Ok (run_label ++ format_int number)%string.

(** ** [search_for_data_bounds] *)

(** One iteration of the loop over [insheet.columns]; the state is
    [(time_column_idx, start_region_idx, end_region_idx)]. *)
Definition bounds_step (insheet : Worksheet) (col : Z)
  (st : option Z * option Z * option Z)
  : result (option Z * option Z * option Z) :=
  let '(time_column_idx, start_region_idx, end_region_idx) := st in
  match cell_value insheet 1 col with
  | PyNone => Ok st
  | header =>
      time_column_idx <-
        match time_column_idx with
        | None =>
            b <- contained_in "Time" header ;;
            Ok (if b then Some col else None)
        | Some _ => Ok time_column_idx
        end ;;
      start_region_idx <-
        match start_region_idx with
        | None =>
            b <- is_valid_ratio_data_header header ;;
            Ok (if b then Some col else None)
        | Some _ => Ok start_region_idx
        end ;;
      end_region_idx <-
        match end_region_idx, start_region_idx with
        | None, Some _ =>
            b <- is_valid_ratio_data_header header ;;
            Ok (if negb b then Some (col - 1)%Z else None)
        | _, _ => Ok end_region_idx
        end ;;
      Ok (time_column_idx, start_region_idx, end_region_idx)
  end.

Fixpoint bounds_loop (insheet : Worksheet) (ncols : nat) (col : Z)
  (st : option Z * option Z * option Z)
  : result (option Z * option Z * option Z) :=
  match ncols with
  | O => Ok st
  | S n =>
      st <- bounds_step insheet col st ;;
      bounds_loop insheet n (col + 1)%Z st
  end.

(** Returns [(start_of_data_row, time_column_idx, start_region_idx,
    end_region_idx)]; the first two region bounds may be [None]. *)
Definition search_for_data_bounds (insheet : Worksheet)
  : result (Z * option Z * option Z * Z) :=
  st <- bounds_loop insheet (Z.to_nat (max_column insheet)) 1
          (None, None, None) ;;
  let '(time_column_idx, start_region_idx, end_region_idx) := st in
  let end_region_idx :=
    match end_region_idx with
    | None => max_column insheet
    | Some e => e
    end in
  Ok (SheetParseValues.START_DATA_ROW, time_column_idx, start_region_idx,
      end_region_idx).

(** ** [search_for_treatment_labels] *)

(** The loop that looks for the column headed "Labels": the last match
    wins, and a second match prints a warning. *)
Fixpoint labels_column_loop (insheet : Worksheet) (ncols : nat) (col : Z)
  (treatment_label_col : option Z) : M (option Z) :=
  match ncols with
  | O => ret treatment_label_col
  | S n =>
      match cell_value insheet 1 col with
      | PyNone => labels_column_loop insheet n (col + 1)%Z treatment_label_col
      | header =>
          b <-- lift (contained_in "Labels" header) ;;
          if b : bool then
            _ <-- match treatment_label_col with
                  | Some _ => print MultipleLabelsColumns
                  | None => ret tt
                  end ;;
            labels_column_loop insheet n (col + 1)%Z (Some col)
          else labels_column_loop insheet n (col + 1)%Z treatment_label_col
      end
  end.

(** The loop over the cells of the labels column, top to bottom. *)
Fixpoint collect_labels (insheet : Worksheet) (col : Z) (nrows : nat) (row : Z)
  (treatment_labels : list LabelIndexPair) : result (list LabelIndexPair) :=
  match nrows with
  | O => Ok treatment_labels
  | S n =>
      let item := cell_value insheet row col in
      if negb (row =? 1)%Z then
        match item with
        | PyNone => collect_labels insheet col n (row + 1)%Z treatment_labels
        | PyStr s =>
            if negb (str_contains "/60" s)
            then collect_labels insheet col n (row + 1)%Z
                   (treatment_labels ++ [mkLabelIndexPair s row])
            else collect_labels insheet col n (row + 1)%Z treatment_labels
        | _ => Raise TypeError
        end
      else collect_labels insheet col n (row + 1)%Z treatment_labels
  end.

Definition search_for_treatment_labels (insheet : Worksheet)
  : M (list LabelIndexPair) :=
  treatment_label_col <--
    labels_column_loop insheet (Z.to_nat (max_column insheet)) 1 None ;;
  match treatment_label_col with
  | None => _ <-- print NoLabelsColumn ;; lift (Raise SystemExit)
  | Some col =>
      lift (collect_labels insheet col (Z.to_nat (max_row insheet)) 1 [])
  end.

(** ** [get_raw_data] *)

(** The elements of [treatment_labels] while [get_raw_data] runs: the
    [LabelIndexPair] objects found in the sheet, and the plain tuple
    [('STD', start_of_data_row)] that [treatment_labels.insert] puts in
    front of them. *)
Inductive label_entry : Type :=
| LabelObject (p : LabelIndexPair)
| LabelTuple (s : string) (i : Z).

(** [entry.label]: a tuple has no such attribute. *)
Definition attr_label (e : label_entry) : result string :=
  match e with
  | LabelObject p => Ok (label p)
  | LabelTuple _ _ => Raise AttributeError
  end.

(** [entry.index]: the row of a [LabelIndexPair]; on a tuple, the bound
    method [tuple.index]. *)
Inductive index_attr : Type :=
| IndexInt (z : Z)
| IndexMethod.

Definition attr_index (e : label_entry) : index_attr :=
  match e with
  | LabelObject p => IndexInt (index p)
  | LabelTuple _ _ => IndexMethod
  end.

(** Using [entry.index] in arithmetic or in a comparison with an [int]. *)
Definition int_of_index (i : index_attr) : result Z :=
  match i with
  | IndexInt z => Ok z
  | IndexMethod => Raise TypeError
  end.

Section Region.

Variable insheet : Worksheet.
Variable time_column_idx : option Z.
(** The column of the region being segmented. *)
Variable region : Z.

(** The body of [append_values]'s loop for [k], [k+1], ..., with [n]
    iterations left. *)
Fixpoint append_values_loop (n : nat) (k : Z) (start : Z)
  (lst : list TimeValuePair) : M (list TimeValuePair) :=
  match n with
  | O => ret lst
  | S n' =>
      raw <-- lift (sheet_cell insheet (k + start) (Some region)) ;;
      ratio_value <-- lift (ratio_to_calcium_concentration raw) ;;
      time_value <-- lift (sheet_cell insheet (k + start) time_column_idx) ;;
      if is_int_or_float ratio_value && is_int_or_float time_value then
        append_values_loop n' (k + 1)%Z start
          (lst ++ [mkTimeValuePair (number_of time_value) (number_of ratio_value)])
      else
        _ <-- print (InvalidTimeRatio time_value ratio_value (k + start)) ;;
        append_values_loop n' (k + 1)%Z start (lst ++ [mkTimeValuePair 0 0])
  end.

(** [append_values(list, start, end)]; [range(end - start)] is empty when
    [end <= start]. *)
Definition append_values (lst : list TimeValuePair) (start end_ : index_attr)
  : M (list TimeValuePair) :=
  e <-- lift (int_of_index end_) ;;
  s <-- lift (int_of_index start) ;;
  append_values_loop (Z.to_nat (e - s)) 0 s lst.

(** The labels list is not modified while one region is walked. *)
Variable treatment_labels : list label_entry.

(** [prior_std_data] after the loop over the segments built so far. *)
Definition prior_std_data (segments : list segment)
  : option (list TimeValuePair) :=
  fold_left
    (fun prior data =>
       match data with
       | Bath b => Some (std_bath_data b)
       | Treatment _ => prior
       end)
    segments None.

(** [treatment_labels[j].index if j < len(treatment_labels) else
    insheet.max_row + 1] *)
Definition index_or_end (j : nat) : index_attr :=
  match nth_error treatment_labels j with
  | Some e => attr_index e
  | None => IndexInt (max_row insheet + 1)
  end.

(** The body of [for j, label_index_pair in enumerate(treatment_labels)]:
    the segment appended to the region's list. *)
Definition build_segment (j : nat) (label_index_pair : label_entry)
  (segments : list segment) : M segment :=
  let treatment_end_idx := index_or_end (j + 1) in
  lbl <-- lift (attr_label label_index_pair) ;;
  if is_valid_treatment lbl then
    treatment_data <--
      append_values [] (attr_index label_index_pair) treatment_end_idx ;;
    _ <-- lift (if (0 <? j)%nat then Ok tt else Raise AssertionError) ;;
    let prior := prior_std_data segments in
    next <-- lift (match nth_error treatment_labels (j + 1) with
                   | Some e => Ok e
                   | None => Raise IndexError
                   end) ;;
    next_label <-- lift (attr_label next) ;;
    anterior_wash_data <--
      (if negb (is_valid_treatment next_label) then
         let anterior_std_treatment_end := index_or_end (j + 2) in
         t <-- lift (int_of_index treatment_end_idx) ;;
         append_values [] (IndexInt (t + 1)) anterior_std_treatment_end
       else ret []) ;;
    ret (Treatment (mkTreatmentData lbl prior treatment_data anterior_wash_data))
  else
    std_bath_data <--
      append_values [] (attr_index label_index_pair) treatment_end_idx ;;
    ret (Bath (mkStandardBathData std_bath_data)).

(** The loop over the labels still to visit, [j] being the position of
    the first of them. *)
Fixpoint walk_labels (todo : list label_entry) (j : nat)
  (segments : list segment) : M (list segment) :=
  match todo with
  | [] => ret segments
  | label_index_pair :: rest =>
      seg <-- build_segment j label_index_pair segments ;;
      walk_labels rest (S j) (segments ++ [seg])
  end.

End Region.

(** [ratio_data]: a dict keeps its keys in insertion order, and assigning
    to a key that is present keeps the key's position. *)
Definition ratio_dict : Type := list (string * list segment).

Fixpoint dict_set (k : string) (v : list segment) (d : ratio_dict) : ratio_dict :=
  match d with
  | [] => [(k, v)]
  | (k', v') :: rest =>
      if String.eqb k k' then (k', v) :: rest else (k', v') :: dict_set k v rest
  end.

(** [if treatment_labels[0].index > start_of_data_row:
       treatment_labels.insert(0, ('STD', start_of_data_row))] *)
Definition insert_leading_std (start_of_data_row : Z)
  (treatment_labels : list label_entry) : result (list label_entry) :=
  match treatment_labels with
  | [] => Raise IndexError
  | first :: _ =>
      i <- int_of_index (attr_index first) ;;
      if (start_of_data_row <? i)%Z
      then Ok (LabelTuple "STD" start_of_data_row :: treatment_labels)
      else Ok treatment_labels
  end.

Section Regions.

Variable insheet : Worksheet.
Variable run_label : string.
Variable start_of_data_row : Z.
Variable time_column_idx : option Z.
Variable start_region_idx : Z.

(** One iteration of [for region in range(...)]: the region's key and
    segment list, and the labels list as the iteration leaves it. *)
Definition segment_region (region : Z) (treatment_labels : list label_entry)
  : M (string * list segment * list label_entry) :=
  old_sheet_label <-- lift (sheet_cell insheet 1 (Some region)) ;;
  region_label <--
    lift (generate_region_label old_sheet_label
            (region - start_region_idx)%Z run_label) ;;
  treatment_labels <--
    lift (insert_leading_std start_of_data_row treatment_labels) ;;
  segments <--
    walk_labels insheet time_column_idx region treatment_labels
      treatment_labels 0 [] ;;
  ret (region_label, segments, treatment_labels).

Fixpoint regions_loop (nregions : nat) (region : Z) (ratio_data : ratio_dict)
  (treatment_labels : list label_entry)
  : M (ratio_dict * list label_entry) :=
  match nregions with
  | O => ret (ratio_data, treatment_labels)
  | S n =>
      r <-- segment_region region treatment_labels ;;
      let '(region_label, segments, treatment_labels) := r in
      regions_loop n (region + 1)%Z
        (dict_set region_label segments ratio_data) treatment_labels
  end.

End Regions.

Definition get_raw_data (insheet : Worksheet) (run_label : string)
  : M (ratio_dict * list label_entry) :=
  bounds <-- lift (search_for_data_bounds insheet) ;;
  let '(start_of_data_row, time_column_idx, start_region_idx, end_region_idx) :=
    bounds in
  treatment_labels <-- search_for_treatment_labels insheet ;;
  match start_region_idx with
  | None => lift (Raise TypeError)
  | Some start_region_idx =>
      regions_loop insheet run_label start_of_data_row time_column_idx
        start_region_idx
        (Z.to_nat (end_region_idx + 1 - start_region_idx)) start_region_idx
        [] (map LabelObject treatment_labels)
  end.

(* ================================================================== *)
(** * Worksheets given by their rows                                   *)
(* ================================================================== *)

(** The worksheet whose rows are [rows] (row 1 first, column 1 first);
    cells beyond a row's end hold [None]. *)
Definition sheet_of_rows (rows : list (list pyval)) : Worksheet :=
  {| cell_value := fun r c =>
       nth (Z.to_nat (c - 1)) (nth (Z.to_nat (r - 1)) rows []) PyNone;
     max_row := Z.of_nat (List.length rows);
     max_column :=
       Z.of_nat (fold_right (fun row m => Nat.max (List.length row) m) O rows) |}.

(** A bath, a treatment and a wash, two rows each, then one more wash
    row. *)
Definition sheet_bath_treatment_wash : Worksheet :=
  sheet_of_rows
    [ [PyStr "Time (sec)"; PyStr "Ratio 1"; PyStr "Labels"];
      [PyInt 0;  PyFloat 1;   PyStr "STD"];
      [PyInt 6;  PyFloat 1;   PyNone];
      [PyInt 12; PyFloat 2;   PyStr "CCK"];
      [PyInt 18; PyFloat 3;   PyNone];
      [PyInt 24; PyFloat 2;   PyStr "Standard Bath"];
      [PyInt 30; PyFloat 1.5; PyNone];
      [PyInt 36; PyFloat 1;   PyNone] ].

(* ================================================================== *)
(** * The area computation, stated over positions                      *)
(* ================================================================== *)

Definition sample0 : TimeValuePair := mkTimeValuePair 0 0.

Section AreaSpec.

Variables base base_std base_peak_time : Q.

(** A sample's value exceeds [base + base_std]. *)
Definition exceeds_threshold (v : TimeValuePair) : bool :=
  Qgtb (value v) (base + base_std).

(** A sample that does not exceed the threshold and whose time is past
    the peak time: the samples the counter counts. *)
Definition below_after_peak (v : TimeValuePair) : bool :=
  negb (exceeds_threshold v) && Qgtb (time v) base_peak_time.

Definition count_below (l : list TimeValuePair) : nat :=
  List.length (filter below_after_peak l).

(** The time step of the sample at position [i]: 6 for the first sample,
    the difference to the previous sample's time afterwards. *)
Definition dt_at (vals : list TimeValuePair) (i : nat) : Q :=
  match i with
  | O => 6
  | S j => time (nth i vals sample0) - time (nth j vals sample0)
  end.

(** The sum, over the positions [i < k] whose sample exceeds the
    threshold, of [(value - base) * dt], added in the order of the
    positions. *)
Definition area_of_first (vals : list TimeValuePair) (k : nat) : Q :=
  Qsum (map (fun i => (value (nth i vals sample0) - base) * dt_at vals i)
          (filter (fun i => exceeds_threshold (nth i vals sample0))
             (seq 0 k))).

(** The contributions of a run of samples, the previous sample's time
    being [previous_time]. *)
Fixpoint area_terms (previous_time : option Q) (l : list TimeValuePair)
  : list Q :=
  match l with
  | [] => []
  | v :: rest =>
      let dt := match previous_time with
                | None => DEFAULT_DT
                | Some p => time v - p
                end in
      if exceeds_threshold v
      then (value v - base) * dt :: area_terms (Some (time v)) rest
      else area_terms (Some (time v)) rest
  end.

(** The time of the sample before position [length l1] in [l1 ++ _]. *)
Definition previous_of (l1 : list TimeValuePair) : option Q :=
  match rev l1 with
  | [] => None
  | v :: _ => Some (time v)
  end.

End AreaSpec.

(** Sample times never go back along the list. *)
Fixpoint times_nondecreasing (previous_time : option Q)
  (l : list TimeValuePair) : Prop :=
  match l with
  | [] => True
  | v :: rest =>
      match previous_time with
      | None => True
      | Some p => p <= time v
      end /\ times_nondecreasing (Some (time v)) rest
  end.

(** Two samples with a positive value, the second earlier than the
    first. *)
Definition td_times_go_back : TreatmentData :=
  mkTreatmentData "CCK" None
    [mkTimeValuePair 10 5; mkTimeValuePair 0 5] [].

(** Fourteen samples at the base after the peak time (times 1 to 14), one
    sample above the threshold (time 15), a fifteenth sample at the base
    (time 16), and a last sample far above the threshold (time 17). *)
Definition td_counter : TreatmentData :=
  mkTreatmentData "CCK" None
    (map (fun n => mkTimeValuePair (inject_Z (Z.of_nat n)) 0) (seq 1 14) ++
     [mkTimeValuePair 15 1; mkTimeValuePair 16 0; mkTimeValuePair 17 100])
    [].

(** A treatment whose samples rise in time order. *)
Definition td_rising : TreatmentData :=
  mkTreatmentData "CCK" None
    [mkTimeValuePair 0 1; mkTimeValuePair 6 2] [mkTimeValuePair 12 1].

(* ================================================================== *)
(** * Peak and base, as the specification words them                   *)
(* ================================================================== *)

(** The candidate pool in the specification's words: every treatment
    sample, and the anterior-wash samples whose time does not exceed the
    last treatment sample's time plus the search window. *)
Definition peak_pool_spec (td : TreatmentData) (post_std_time_to_search : Q)
  : result (list TimeValuePair) :=
  lst <- last_sample (treatment_data td) ;;
  Ok (treatment_data td ++
      filter (fun v => negb (Qgtb (time v) (time lst + post_std_time_to_search)))
        (anterior_wash_data td)).

(** The peak of the mode "average-of-three" in the specification's words:
    the mean of the values of the top two candidates and the later of
    their times. *)
Definition peak_average_spec (pool : list TimeValuePair) : result (Q * Q) :=
  let top_two := firstn 2 (sorted_desc pool) in
  m <- mean (map value top_two) ;;
  match map time top_two with
  | [] => Raise ValueError
  | t :: ts => Ok (m, fold_left (fun a b => if Qgtb b a then b else a) ts t)
  end.

(** The anterior-wash samples [calculate_peak] keeps: the list up to and
    including the first sample whose time exceeds [limit]. *)
Fixpoint through_first_late (limit : Q) (l : list TimeValuePair)
  : list TimeValuePair :=
  match l with
  | [] => []
  | v :: rest =>
      if Qgtb (time v) limit then [v] else v :: through_first_late limit rest
  end.

(** The values of the last [n] samples, all of them when there are fewer. *)
Definition last_values (n : nat) (prior : list TimeValuePair) : list Q :=
  map value (skipn (List.length prior - n) prior).

(** One treatment sample, and one wash sample long after the window. *)
Definition td_late_wash : TreatmentData :=
  mkTreatmentData "CCK" None
    [mkTimeValuePair 0 1] [mkTimeValuePair 1000 99].

(** Two treatment samples. *)
Definition td_two_samples : TreatmentData :=
  mkTreatmentData "CCK" None
    [mkTimeValuePair 0 1; mkTimeValuePair 6 2] [].

(** A single treatment sample. *)
Definition td_one_sample : TreatmentData :=
  mkTreatmentData "CCK" None [mkTimeValuePair 0 1] [].

(** Three prior-wash samples. *)
Definition td_three_prior : TreatmentData :=
  mkTreatmentData "CCK"
    (Some [mkTimeValuePair 0 1; mkTimeValuePair 6 2; mkTimeValuePair 12 3])
    [mkTimeValuePair 18 5] [].

(** The conversion formula over the rationals. *)
Definition concentration_formula (ratio : Q) : Q :=
  146 * (25813.79 / 1674.68) * ((ratio - 0.132) / (6.274 - ratio)).

(* ================================================================== *)
(** * Sample collection, row by row                                    *)
(* ================================================================== *)

Section Rows.

Variable insheet : Worksheet.
Variable time_column_idx : option Z.
Variable region : Z.

(** What [append_values] makes of one row: the sample appended and the
    lines printed. *)
Definition row_sample (row : Z) : result (TimeValuePair * list output) :=
  raw <- sheet_cell insheet row (Some region) ;;
  ratio_value <- ratio_to_calcium_concentration raw ;;
  time_value <- sheet_cell insheet row time_column_idx ;;
  if is_int_or_float ratio_value && is_int_or_float time_value
  then Ok (mkTimeValuePair (number_of time_value) (number_of ratio_value), [])
  else Ok (mkTimeValuePair 0 0, [InvalidTimeRatio time_value ratio_value row]).

(** The samples and the lines of the [n] rows from [k + start] on. *)
Fixpoint collect_rows (n : nat) (k : Z) (start : Z)
  : result (list TimeValuePair * list output) :=
  match n with
  | O => Ok ([], [])
  | S n' =>
      r <- row_sample (k + start) ;;
      rs <- collect_rows n' (k + 1)%Z start ;;
      Ok (fst r :: fst rs, snd r ++ snd rs)
  end.

End Rows.

(** The label an entry stands for: the text of a [LabelIndexPair], the
    first component of a tuple. *)
Definition entry_label (e : label_entry) : string :=
  match e with
  | LabelObject p => label p
  | LabelTuple s _ => s
  end.

(** A bath of three rows whose middle ratio cell holds text. *)
Definition sheet_text_ratio : Worksheet :=
  sheet_of_rows
    [ [PyStr "Time (sec)"; PyStr "Ratio 1"; PyStr "Labels"];
      [PyInt 0;  PyFloat 1;   PyStr "STD"];
      [PyInt 6;  PyStr "n/a"; PyNone];
      [PyInt 12; PyFloat 1;   PyNone] ].

(** A bath of three rows whose middle ratio cell is empty and whose last
    time cell holds text. *)
Definition sheet_empty_ratio : Worksheet :=
  sheet_of_rows
    [ [PyStr "Time (sec)"; PyStr "Ratio 1"; PyStr "Labels"];
      [PyInt 0;      PyFloat 1; PyStr "STD"];
      [PyInt 6;      PyNone;    PyNone];
      [PyStr "late"; PyFloat 1; PyNone] ].

(** Two unlabelled rows, then a treatment and a wash. *)
Definition sheet_unlabelled_start : Worksheet :=
  sheet_of_rows
    [ [PyStr "Time (sec)"; PyStr "Ratio 1"; PyStr "Labels"];
      [PyInt 0;  PyFloat 1; PyNone];
      [PyInt 6;  PyFloat 1; PyNone];
      [PyInt 12; PyFloat 2; PyStr "CCK"];
      [PyInt 18; PyFloat 3; PyNone];
      [PyInt 24; PyFloat 1; PyStr "Standard Bath"] ].

(** A treatment labelled on the first data row, then a wash. *)
Definition sheet_treatment_first : Worksheet :=
  sheet_of_rows
    [ [PyStr "Time (sec)"; PyStr "Ratio 1"; PyStr "Labels"];
      [PyInt 0;  PyFloat 2; PyStr "CCK"];
      [PyInt 6;  PyFloat 3; PyNone];
      [PyInt 12; PyFloat 1; PyStr "Standard Bath"] ].

(** Every treatment of [l] carries the samples of the last bath segment
    before it, [pre] being the segments in front of [l]. *)
Fixpoint prior_wash_ok (pre l : list segment) : Prop :=
  match l with
  | [] => True
  | s :: rest =>
      match s with
      | Treatment t =>
          prior_wash_data t = prior_std_data pre /\ prior_wash_data t <> None
      | Bath _ => True
      end /\ prior_wash_ok (pre ++ [s]) rest
  end.

(** A segment list is empty or begins with a bath segment. *)
Definition bath_first (l : list segment) : Prop :=
  match l with
  | [] => True
  | Bath _ :: _ => True
  | Treatment _ :: _ => False
  end.

(* ================================================================== *)
(** * Further inputs and notions for the metrics engine                *)
(* ================================================================== *)



(** [td] with more samples at the end of its anterior wash. *)
Definition extend_anterior (td : TreatmentData) (more : list TimeValuePair)
  : TreatmentData :=
  mkTreatmentData (treatment_name td) (prior_wash_data td)
    (treatment_data td) (anterior_wash_data td ++ more).

(** A treatment of two samples followed by a wash of three samples at
    times 12, 18 and 400. *)
Definition td_with_wash : TreatmentData :=
  mkTreatmentData "CCK"
    (Some [mkTimeValuePair 0 1; mkTimeValuePair 6 2; mkTimeValuePair 12 3])
    [mkTimeValuePair 0 4; mkTimeValuePair 6 7]
    [mkTimeValuePair 12 7; mkTimeValuePair 18 3; mkTimeValuePair 400 9].

(* ================================================================== *)
(** * Further notions for the region segmenter                         *)
(* ================================================================== *)

(** Every character of [s] satisfies [p]. *)
Fixpoint string_forall (p : ascii -> bool) (s : string) : bool :=
  match s with
  | EmptyString => true
  | String c rest => p c && string_forall p rest
  end.


(** The header cell of a column. *)
Definition header (insheet : Worksheet) (col : Z) : pyval :=
  cell_value insheet 1 col.

(** A header cell that is text containing [needle]. *)
Definition header_has (needle : string) (insheet : Worksheet) (col : Z) : Prop :=
  contained_in needle (header insheet col) = Ok true.

(** A header cell that is empty, or text that does not contain [needle]. *)
Definition header_lacks (needle : string) (insheet : Worksheet) (col : Z) : Prop :=
  header insheet col = PyNone \/
  contained_in needle (header insheet col) = Ok false.

(** The samples a segment contributes to the region's series:
    [std_bath_data] or [treatment_data]. *)
Definition segment_samples (s : segment) : list TimeValuePair :=
  match s with
  | Bath b => std_bath_data b
  | Treatment t => treatment_data t
  end.

(** A region's series: the samples of its segments, in order. *)
Definition flatten_segments (segments : list segment) : list TimeValuePair :=
  flat_map segment_samples segments.

(** The kind and the name of a segment agree with a label. *)
Definition segment_matches (e : label_entry) (s : segment) : Prop :=
  match s with
  | Treatment t =>
      is_valid_treatment (entry_label e) = true /\
      treatment_name t = entry_label e
  | Bath _ => is_valid_treatment (entry_label e) = false
  end.

(** The rows of the labels, top to bottom, never go back. *)
Fixpoint label_rows_ordered (previous : Z) (l : list LabelIndexPair) : Prop :=
  match l with
  | [] => True
  | p :: rest => (previous < index p)%Z /\ label_rows_ordered (index p) rest
  end.

(** A sheet with a time column, two regions headed "Ratio 3" and "Ratio",
    and a labels column: a bath, a treatment and a wash. *)
Definition sheet_two_regions : Worksheet :=
  sheet_of_rows
    [ [PyStr "Time (sec)"; PyStr "Ratio 3"; PyStr "Ratio"; PyStr "Labels"];
      [PyInt 0;  PyFloat 1; PyFloat 1;   PyStr "STD"];
      [PyInt 6;  PyFloat 1; PyFloat 1.5; PyStr "6/60"];
      [PyInt 12; PyFloat 2; PyFloat 2;   PyStr "CCK"];
      [PyInt 18; PyFloat 3; PyFloat 2.5; PyNone];
      [PyInt 24; PyFloat 2; PyFloat 2;   PyStr "Standard Bath"];
      [PyInt 30; PyFloat 1; PyFloat 1;   PyNone] ].

(** The same rows without a column headed "Time". *)
Definition sheet_no_time : Worksheet :=
  sheet_of_rows
    [ [PyStr "Seconds"; PyStr "Ratio 1"; PyStr "Labels"];
      [PyInt 0;  PyFloat 1; PyStr "STD"];
      [PyInt 6;  PyFloat 1; PyNone] ].

(** What the scan of the headers has established when it reaches column
    [col], its state being [(time_column_idx, start_region_idx,
    end_region_idx)]. *)
Definition bounds_inv (insheet : Worksheet) (col : Z)
  (st : option Z * option Z * option Z) : Prop :=
  let '(time_column_idx, start_region_idx, end_region_idx) := st in
  match time_column_idx with
  | Some t =>
      (1 <= t < col)%Z /\ header_has "Time" insheet t /\
      forall c, (1 <= c < t)%Z -> header_lacks "Time" insheet c
  | None => forall c, (1 <= c < col)%Z -> header_lacks "Time" insheet c
  end /\
  match start_region_idx with
  | Some s =>
      (1 <= s < col)%Z /\ header_has "Ratio" insheet s /\
      forall c, (1 <= c < s)%Z -> header_lacks "Ratio" insheet c
  | None => forall c, (1 <= c < col)%Z -> header_lacks "Ratio" insheet c
  end /\
  match end_region_idx, start_region_idx with
  | Some e, Some s =>
      (s <= e)%Z /\ (e + 1 < col)%Z /\
      (forall c, (s <= c <= e)%Z ->
                 header insheet c = PyNone \/ header_has "Ratio" insheet c) /\
      contained_in "Ratio" (header insheet (e + 1)) = Ok false
  | Some _, None => False
  | None, Some s =>
      forall c, (s <= c < col)%Z ->
                header insheet c = PyNone \/ header_has "Ratio" insheet c
  | None, None => True
  end.

(** A label found in column [col]: on a row from 2 to the sheet's last,
    the text of its cell, without "/60". *)
Definition label_of_sheet (insheet : Worksheet) (col : Z) (p : LabelIndexPair)
  : Prop :=
  (2 <= index p <= max_row insheet)%Z /\
  cell_value insheet (index p) col = PyStr (label p) /\
  str_contains "/60" (label p) = false.

(** The key [get_raw_data] gives the region of column [reg]. *)
Definition region_label_of (insheet : Worksheet) (run_label : string)
  (start_region_idx reg : Z) : result string :=
  old_sheet_label <- sheet_cell insheet 1 (Some reg) ;;
  generate_region_label old_sheet_label (reg - start_region_idx)%Z run_label.

(** An entry of [ratio_data] once the columns from [lo] to [hi - 1] have
    been segmented: its key is the label of one of these columns, its
    value the segments this column's walk built, and no later column among
    them has the same label. *)
Definition region_entry (insheet : Worksheet) (run_label : string)
  (time_column_idx : option Z) (start_region_idx : Z)
  (labels : list label_entry) (lo hi : Z) (kv : string * list segment) : Prop :=
  exists (reg : Z) (o o' : list output),
    (lo <= reg < hi)%Z /\
    region_label_of insheet run_label start_region_idx reg = Ok (fst kv) /\
    walk_labels insheet time_column_idx reg labels labels 0 [] o
      = Ok (snd kv, o') /\
    forall reg', (reg < reg' < hi)%Z ->
      region_label_of insheet run_label start_region_idx reg' <> Ok (fst kv).

Definition dict_inv (insheet : Worksheet) (run_label : string)
  (time_column_idx : option Z) (start_region_idx : Z)
  (labels : list label_entry) (lo hi : Z) (d : ratio_dict) : Prop :=
  NoDup (map fst d) /\
  Forall (region_entry insheet run_label time_column_idx start_region_idx
            labels lo hi) d /\
  forall reg, (lo <= reg < hi)%Z ->
    exists k, region_label_of insheet run_label start_region_idx reg = Ok k /\
              In k (map fst d).

(** The row after the last row of the segment of label [i]: the row of the
    next label, or the row after the sheet's last. *)
Definition row_end (insheet : Worksheet) (found : list LabelIndexPair)
  (i : nat) : Z :=
  match nth_error found (S i) with
  | Some q => index q
  | None => (max_row insheet + 1)%Z
  end.

(** The dictionary and the labels [get_raw_data] returns for
    [sheet_two_regions] with the run label "A". *)
Definition two_regions_data : ratio_dict :=
  Eval vm_compute in
    match get_raw_data sheet_two_regions "A" [] with
    | Ok (d, _, _) => d
    | Raise _ => []
    end.

Definition two_regions_labels : list label_entry :=
  [LabelObject (mkLabelIndexPair "STD" 2);
   LabelObject (mkLabelIndexPair "CCK" 4);
   LabelObject (mkLabelIndexPair "Standard Bath" 6)].

(* ================================================================== *)
(** * The output sheet and [convert_calcium_file]                      *)
(* ================================================================== *)

(** What the program writes into a cell of the output sheet: text or a
    number. *)
Inductive outval : Type :=
| OutText (s : string)
| OutNumber (q : Q).

(** The output sheet: the value of each cell written so far. *)
Definition OutSheet : Type := Z -> Z -> option outval.

(** The sheet [out_wb.create_sheet] returns. *)
Definition new_sheet : OutSheet := fun _ _ => None.

(** [outsheet.cell(row, column).value = v] *)
Definition set_cell (outsheet : OutSheet) (row column : Z) (v : outval)
  : result OutSheet :=
  if ((row <? 1) || (column <? 1))%Z then Raise ValueError
  else Ok (fun r c =>
             if ((r =? row) && (c =? column))%Z then Some v else outsheet r c).

(** [SheetParseValues.CALCULATIONS_START_ROW],
    [SheetParseValues.CALCULATIONS_START_COL] and
    [SheetParseValues.TREATMENT_LABEL_COLUMN]. *)
Definition CALCULATIONS_START_ROW : Z := 3.
Definition CALCULATIONS_START_COL : Z := 4.
Definition TREATMENT_LABEL_COLUMN : Z := 2.

(** [for i, v in enumerate(vals): outsheet.cell(row_of(i), col).value = v],
    from index [i] on. *)
Fixpoint write_enumerated (outsheet : OutSheet) (row_of : Z -> Z) (col : Z)
  (vals : list outval) (i : Z) : result OutSheet :=
  match vals with
  | [] => Ok outsheet
  | v :: rest =>
      outsheet <- set_cell outsheet (row_of i) col v ;;
      write_enumerated outsheet row_of col rest (i + 1)%Z
  end.

Definition write_calculations_header (outsheet : OutSheet)
  (num_regions treatment_idx : Z) (treatment_label : string)
  : result OutSheet :=
  let calculation_labels :=
    [OutText treatment_label; OutText "peak"; OutText "base"; OutText "std";
     OutText "area"; OutText "delta"] in
  write_enumerated outsheet
    (fun i => CALCULATIONS_START_ROW
              + treatment_idx * (Z.of_nat (List.length calculation_labels) + 1)
              + i)%Z
    (CALCULATIONS_START_COL + num_regions)%Z calculation_labels 0.

(** The loop of [write_treatment_labels]: the right-hand side
    [label.label] is evaluated first, then the cell is looked up with
    [label.index] as its row. *)
Fixpoint write_treatment_labels (outsheet : OutSheet)
  (treatment_labels : list label_entry) : result OutSheet :=
  match treatment_labels with
  | [] => Ok outsheet
  | lbl :: rest =>
      text <- attr_label lbl ;;
      row <- int_of_index (attr_index lbl) ;;
      outsheet <- set_cell outsheet row TREATMENT_LABEL_COLUMN (OutText text) ;;
      write_treatment_labels outsheet rest
  end.

Definition write_calculations_to_outsheet (outsheet : OutSheet)
  (peak base std area delta : Q) (num_regions curr_region_idx : Z)
  (treatment_name : string) (treatment_idx : Z) : result OutSheet :=
  let calculations :=
    [OutText treatment_name; OutNumber peak; OutNumber base; OutNumber std;
     OutNumber area; OutNumber delta] in
  write_enumerated outsheet
    (fun calculation_idx =>
       CALCULATIONS_START_ROW + calculation_idx
       + treatment_idx * (Z.of_nat (List.length calculations) + 1))%Z
    (CALCULATIONS_START_COL + num_regions + curr_region_idx + 1)%Z
    calculations 0.

(** The innermost loop of [write_data_to_outsheet], [for value in data];
    returns the sheet and the row counter [j]. *)
Fixpoint write_samples (outsheet : OutSheet) (col : Z)
  (data : list TimeValuePair) (j : Z) : result (OutSheet * Z) :=
  match data with
  | [] => Ok (outsheet, j)
  | v :: rest =>
      outsheet <- set_cell outsheet j 1 (OutNumber (time v)) ;;
      outsheet <- set_cell outsheet j col (OutNumber (value v)) ;;
      write_samples outsheet col rest (j + 1)%Z
  end.

(** [for data in concentrations] *)
Fixpoint write_concentrations (outsheet : OutSheet) (col : Z)
  (concentrations : list segment) (j : Z) : result (OutSheet * Z) :=
  match concentrations with
  | [] => Ok (outsheet, j)
  | data :: rest =>
      let data :=
        match data with
        | Bath b => std_bath_data b
        | Treatment t => treatment_data t
        end in
      r <- write_samples outsheet col data j ;;
      write_concentrations (fst r) col rest (snd r)
  end.

(** [for i, (region_name, concentrations) in enumerate(...items())], from
    index [i] on. *)
Fixpoint write_regions (outsheet : OutSheet) (items : ratio_dict) (i : Z)
  : result OutSheet :=
  match items with
  | [] => Ok outsheet
  | (region_name, concentrations) :: rest =>
      let TIME_COLUMN_OFFSET := 3%Z in
      outsheet <-
        set_cell outsheet 1 (i + TIME_COLUMN_OFFSET) (OutText region_name) ;;
      r <- write_concentrations outsheet (i + TIME_COLUMN_OFFSET)
             concentrations SheetParseValues.START_DATA_ROW ;;
      write_regions (fst r) rest (i + 1)%Z
  end.

Definition write_data_to_outsheet (outsheet : OutSheet)
  (concentration_data : ratio_dict) : result OutSheet :=
  outsheet <- set_cell outsheet 1 1 (OutText "Time (sec)") ;;
  write_regions outsheet concentration_data 0.

(** [calculate_area] as [convert_calcium_file] calls it, with the second
    component of [calculate_peak]'s result.  When this is a
    [TimeValuePair] object, the comparison [value.time > base_peak_time],
    reached by the first sample that does not exceed the threshold,
    raises [TypeError]. *)
Fixpoint area_loop_object (base base_std : Q)
  (values_to_consider : list TimeValuePair) (previous_time : option Q)
  (auc : Q) : result Q :=
  match values_to_consider with
  | [] => Ok auc
  | v :: rest =>
      let dt := match previous_time with
                | None => DEFAULT_DT
                | Some p => time v - p
                end in
      if Qgtb (value v) (base + base_std) then
        area_loop_object base base_std rest (Some (time v))
          (auc + (value v - base) * dt)
      else Raise TypeError
  end.

Definition calculate_area_with (td : TreatmentData) (base base_std : Q)
  (base_peak_time : peak_time_val) : result Q :=
  match base_peak_time with
  | PeakTime t => Ok (calculate_area base base_std t td)
  | PeakObject _ =>
      area_loop_object base base_std
        (treatment_data td ++ anterior_wash_data td) None 0
  end.

Section Convert.

Variable sqrt : Q -> Q.
Variable base_elements : Z.
Variable peak_type : Z.
Variable post_std_time_to_search : Q.

(** The body of [if type(treatment_data) is TreatmentData:]. *)
Definition write_treatment (out_sheet : OutSheet)
  (num_regions region_idx : Z) (region_name : string) (treatment_idx : Z)
  (treatment_data : TreatmentData) : result OutSheet :=
  out_sheet <- write_calculations_header out_sheet num_regions treatment_idx
                 (treatment_name treatment_data) ;;
  pk <- calculate_peak treatment_data peak_type post_std_time_to_search ;;
  let '(peak, peak_time) := pk in
  bs <- calculate_base sqrt treatment_data base_elements ;;
  let '(base, std) := bs in
  area <- calculate_area_with treatment_data base std peak_time ;;
  let delta := calculate_delta peak base in
  write_calculations_to_outsheet out_sheet peak base std area delta
    num_regions region_idx region_name treatment_idx.

(** [for treatment_data in region_data], [treatment_idx] counting the
    treatments met. *)
Fixpoint write_region_treatments (out_sheet : OutSheet)
  (num_regions region_idx : Z) (region_name : string)
  (region_data : list segment) (treatment_idx : Z) : result OutSheet :=
  match region_data with
  | [] => Ok out_sheet
  | Treatment t :: rest =>
      out_sheet <- write_treatment out_sheet num_regions region_idx
                     region_name treatment_idx t ;;
      write_region_treatments out_sheet num_regions region_idx region_name
        rest (treatment_idx + 1)%Z
  | Bath _ :: rest =>
      write_region_treatments out_sheet num_regions region_idx region_name
        rest treatment_idx
  end.

(** [for region_idx, (region_name, region_data) in enumerate(...)], from
    [region_idx] on. *)
Fixpoint write_all_treatments (out_sheet : OutSheet) (num_regions : Z)
  (items : ratio_dict) (region_idx : Z) : result OutSheet :=
  match items with
  | [] => Ok out_sheet
  | (region_name, region_data) :: rest =>
      out_sheet <- write_region_treatments out_sheet num_regions region_idx
                     region_name region_data 0 ;;
      write_all_treatments out_sheet num_regions rest (region_idx + 1)%Z
  end.

(** [convert_calcium_file] between the loading of the input workbook and
    the saving of the output workbook: from the input sheet to the sheet
    that is saved.  The workbook input and output and the closing message
    are not part of the model. *)
Definition convert_calcium_file (in_sheet : Worksheet) (run_label : string)
  : M OutSheet :=
  r <-- get_raw_data in_sheet run_label ;;
  let '(calcium_data, treatment_labels) := r in
  let num_regions := Z.of_nat (List.length calcium_data) in
  lift (out_sheet <- write_treatment_labels new_sheet treatment_labels ;;
        out_sheet <- write_data_to_outsheet out_sheet calcium_data ;;
        write_all_treatments out_sheet num_regions calcium_data 0).

End Convert.

(** The number of treatment segments of a list. *)
Fixpoint count_treatments (segments : list segment) : Z :=
  match segments with
  | [] => 0
  | Treatment _ :: rest => (1 + count_treatments rest)%Z
  | Bath _ :: rest => count_treatments rest
  end.

(** The five constant labels of block [k] of the header column. *)
Definition header_written (s : OutSheet) (num_regions k : Z) : Prop :=
  let col := (CALCULATIONS_START_COL + num_regions)%Z in
  let row := (CALCULATIONS_START_ROW + 7 * k)%Z in
  s (row + 1)%Z col = Some (OutText "peak") /\
  s (row + 2)%Z col = Some (OutText "base") /\
  s (row + 3)%Z col = Some (OutText "std") /\
  s (row + 4)%Z col = Some (OutText "area") /\
  s (row + 5)%Z col = Some (OutText "delta").

Section ConvertSpec.

Variable sqrt : Q -> Q.
Variable base_elements : Z.
Variable peak_type : Z.
Variable post_std_time_to_search : Q.

(** Block [k] of the column of region [region_idx] holds the name and the
    five metrics of [t]. *)
Definition metrics_written (s : OutSheet) (num_regions region_idx k : Z)
  (name : string) (t : TreatmentData) : Prop :=
  let col := (CALCULATIONS_START_COL + num_regions + region_idx + 1)%Z in
  let row := (CALCULATIONS_START_ROW + 7 * k)%Z in
  exists (peak : Q) (peak_time : peak_time_val) (base std area : Q),
    calculate_peak t peak_type post_std_time_to_search = Ok (peak, peak_time) /\
    calculate_base sqrt t base_elements = Ok (base, std) /\
    calculate_area_with t base std peak_time = Ok area /\
    s row col = Some (OutText name) /\
    s (row + 1)%Z col = Some (OutNumber peak) /\
    s (row + 2)%Z col = Some (OutNumber base) /\
    s (row + 3)%Z col = Some (OutNumber std) /\
    s (row + 4)%Z col = Some (OutNumber area) /\
    s (row + 5)%Z col = Some (OutNumber (peak - base)).

End ConvertSpec.

(** The sheet [convert_calcium_file] makes of [sheet_two_regions], with the
    last two prior-wash samples as the base, the peak mode "highest", a
    window of 300 seconds, and the identity standing for the square
    root. *)
Definition two_regions_sheet : OutSheet :=
  Eval vm_compute in
    match convert_calcium_file (fun q => q) 2 1 300 sheet_two_regions "A" []
    with
    | Ok (s, _) => s
    | Raise _ => new_sheet
    end.

(* ================================================================== *)
(** * File names                                                       *)
(* ================================================================== *)

(** The functions of [os.path] the program calls, in their POSIX form
    (separator "/"), on text. *)

(** [s[:n]] and [s[n:]] for [0 <= n]. *)
Fixpoint str_take (n : nat) (s : string) : string :=
  match n, s with
  | S n', String c rest => String c (str_take n' rest)
  | _, _ => EmptyString
  end.

Fixpoint str_drop (n : nat) (s : string) : string :=
  match n, s with
  | S n', String _ rest => str_drop n' rest
  | _, _ => s
  end.

(** [s.rfind(c)], the scan being at position [i] with [found] the last
    position seen so far; -1 when [c] does not occur. *)
Fixpoint rfind_from (c : ascii) (s : string) (i found : Z) : Z :=
  match s with
  | EmptyString => found
  | String x rest =>
      rfind_from c rest (i + 1)%Z (if Ascii.eqb x c then i else found)
  end.

Definition rfind (c : ascii) (s : string) : Z := rfind_from c s 0 (-1).

(** [s.rstrip(c)] *)
Fixpoint rstrip (c : ascii) (s : string) : string :=
  match s with
  | EmptyString => EmptyString
  | String x rest =>
      match rstrip c rest with
      | EmptyString => if Ascii.eqb x c then EmptyString else String x EmptyString
      | r => String x r
      end
  end.

(** [s.endswith(c)] *)
Fixpoint ends_with (c : ascii) (s : string) : bool :=
  match s with
  | EmptyString => false
  | String x EmptyString => Ascii.eqb x c
  | String _ rest => ends_with c rest
  end.

(** [os.path.split(p)]: the text up to the last "/" (without trailing
    separators unless it consists of separators only) and the text after
    it. *)
Definition os_path_split (p : string) : string * string :=
  let i := Z.to_nat (rfind "/" p + 1) in
  let head := str_take i p in
  let tail := str_drop i p in
  let head :=
    if negb (String.eqb head EmptyString)
       && negb (string_forall (Ascii.eqb "/") head)
    then rstrip "/" head else head in
  (head, tail).

(** [os.path.splitext(p)]: the extension begins at the last "." of the
    last component, provided a character other than "." comes before it
    in that component. *)
Definition os_path_splitext (p : string) : string * string :=
  let sepIndex := rfind "/" p in
  let dotIndex := rfind "." p in
  if (sepIndex <? dotIndex)%Z
     && negb (string_forall (Ascii.eqb ".")
                (str_take (Z.to_nat (dotIndex - (sepIndex + 1)))
                   (str_drop (Z.to_nat (sepIndex + 1)) p)))
  then (str_take (Z.to_nat dotIndex) p, str_drop (Z.to_nat dotIndex) p)
  else (p, EmptyString).

(** [os.path.join(a, b)] *)
Definition os_path_join (a b : string) : string :=
  if String.prefix "/" b then b
  else if String.eqb a EmptyString || ends_with "/" a then (a ++ b)%string
  else (a ++ "/" ++ b)%string.

(** The two entries of the dict [parse_data_name] returns. *)
Record name_args : Type := mkNameArgs {
  date : string;
  run : string
}.

(** [parse_data_name]; the message printed before [sys.exit(1)] is left
    out. *)
Definition parse_data_name (file : string) : result name_args :=
  let date_length := String.length "XXXX_XX_XX" in
  let date_run_divider_length := String.length "_" in
  let run_length := String.length "Y" in
  let xlsx_length := String.length ".xlsx" in
  let run_index := (date_length + date_run_divider_length)%nat in
  let file := snd (os_path_split file) in
  if (String.length file
      <? date_length + date_run_divider_length + run_length + xlsx_length)%nat
  then Raise SystemExit
  else
    match String.get run_index file with
    | Some c =>
        Ok (mkNameArgs (str_take date_length file) (String c EmptyString))
    | None => Raise IndexError
    end.

Definition generate_outfilename (infile : string) : string :=
  let '(infilename, infileext) := os_path_splitext infile in
  let '(filelocation, infilename) := os_path_split infilename in
  (os_path_join filelocation infilename ++ "_analysis" ++ infileext)%string.

(** No character of [s] is [c]. *)
Definition lacks_char (c : ascii) (s : string) : bool :=
  string_forall (fun x => negb (Ascii.eqb x c)) s.

(* ================================================================== *)
(** * Properties of the metrics engine                                 *)
(* ================================================================== *)

(** ** [calculate_area] *)

Section AreaFacts.

Variables base base_std base_peak_time : Q.

(** The loop's body, as an equation. *)
Lemma area_loop_cons (v : TimeValuePair) (rest : list TimeValuePair)
  (previous_time : option Q) (auc : Q) (c : nat) :
  area_loop base base_std base_peak_time (v :: rest) previous_time auc c =
  let dt := match previous_time with
            | None => DEFAULT_DT
            | Some p => time v - p
            end in
  if Qgtb (value v) (base + base_std) then
    area_loop base base_std base_peak_time rest (Some (time v))
      (auc + (value v - base) * dt) c
  else if Qgtb (time v) base_peak_time then
    if (NUM_CONSECUTIVE_VALUES_BEFORE_DONE <=? S c)%nat then auc
    else area_loop base base_std base_peak_time rest (Some (time v)) auc (S c)
  else area_loop base base_std base_peak_time rest (Some (time v)) auc c.
Proof. reflexivity. Qed.

Lemma count_below_cons (v : TimeValuePair) (l : list TimeValuePair) :
  count_below base base_std base_peak_time (v :: l) =
  ((if below_after_peak base base_std base_peak_time v then 1 else 0) + count_below base base_std base_peak_time l)%nat.
Proof.
  unfold count_below. simpl. destruct (below_after_peak base base_std base_peak_time v); reflexivity.
Qed.

(** The loop, started anywhere with fewer than 15 samples counted, adds
    the contributions of a prefix of what is left, and the prefix ends
    either with the list or with the sample that brings the count to
    15. *)
Lemma area_loop_prefix (vals : list TimeValuePair) :
  forall (previous_time : option Q) (auc : Q) (c : nat),
    (c < 15)%nat ->
    exists k : nat,
      (k <= List.length vals)%nat /\
      area_loop base base_std base_peak_time vals previous_time auc c =
        fold_left Qplus (area_terms base base_std previous_time (firstn k vals)) auc /\
      ((k = List.length vals /\ (c + count_below base base_std base_peak_time vals < 15)%nat) \/
       ((0 < k)%nat /\
        below_after_peak base base_std base_peak_time (nth (k - 1) vals sample0) = true /\
        (c + count_below base base_std base_peak_time (firstn k vals) = 15)%nat)).
Proof.
  induction vals as [|v rest IH]; intros previous_time auc c Hc.
  - exists O. simpl. split; [lia|]. split; [reflexivity|].
    left. unfold count_below. simpl. lia.
  - rewrite area_loop_cons. cbv zeta.
    destruct (Qgtb (value v) (base + base_std)) eqn:Habove.
    + destruct (IH (Some (time v))
                  (auc + (value v - base) *
                     match previous_time with
                     | None => DEFAULT_DT
                     | Some p => time v - p
                     end) c Hc)
        as (k & Hk & Hval & Hstop).
      exists (S k). split; [simpl; lia|]. split.
      * simpl. unfold exceeds_threshold. rewrite Habove. simpl. exact Hval.
      * assert (Hb : below_after_peak base base_std base_peak_time v = false)
          by (unfold below_after_peak, exceeds_threshold;
              rewrite Habove; reflexivity).
        rewrite firstn_cons, !count_below_cons, Hb.
        destruct Hstop as [[-> Hlt] | (Hpos & Hlast & Hcnt)].
        -- left. split; [reflexivity | simpl; lia].
        -- right. split; [lia|]. split; [|simpl; lia].
           destruct k as [|k']; [lia|].
           simpl. simpl in Hlast. rewrite Nat.sub_0_r in Hlast. exact Hlast.
    + destruct (Qgtb (time v) base_peak_time) eqn:Hpast.
      * assert (Hb : below_after_peak base base_std base_peak_time v = true)
          by (unfold below_after_peak, exceeds_threshold;
              rewrite Habove, Hpast; reflexivity).
        destruct (NUM_CONSECUTIVE_VALUES_BEFORE_DONE <=? S c)%nat eqn:Hdone.
        -- apply Nat.leb_le in Hdone.
           unfold NUM_CONSECUTIVE_VALUES_BEFORE_DONE in Hdone.
           exists 1%nat. split; [simpl; lia|]. split.
           ++ simpl. unfold exceeds_threshold. rewrite Habove. reflexivity.
           ++ right. split; [lia|]. split; [exact Hb|].
              simpl firstn. rewrite count_below_cons, Hb.
              unfold count_below. simpl. lia.
        -- apply Nat.leb_gt in Hdone.
           unfold NUM_CONSECUTIVE_VALUES_BEFORE_DONE in Hdone.
           destruct (IH (Some (time v)) auc (S c) Hdone)
             as (k & Hk & Hval & Hstop).
           exists (S k). split; [simpl; lia|]. split.
           ++ simpl. unfold exceeds_threshold. rewrite Habove. exact Hval.
           ++ rewrite firstn_cons, !count_below_cons, Hb.
              destruct Hstop as [[-> Hlt] | (Hpos & Hlast & Hcnt)].
              ** left. split; [reflexivity | simpl; lia].
              ** right. split; [lia|]. split; [|simpl; lia].
                 destruct k as [|k']; [lia|].
                 simpl. simpl in Hlast. rewrite Nat.sub_0_r in Hlast.
                 exact Hlast.
      * assert (Hb : below_after_peak base base_std base_peak_time v = false)
          by (unfold below_after_peak, exceeds_threshold;
              rewrite Habove, Hpast; reflexivity).
        destruct (IH (Some (time v)) auc c Hc) as (k & Hk & Hval & Hstop).
        exists (S k). split; [simpl; lia|]. split.
        -- simpl. unfold exceeds_threshold. rewrite Habove. exact Hval.
        -- rewrite firstn_cons, !count_below_cons, Hb.
           destruct Hstop as [[-> Hlt] | (Hpos & Hlast & Hcnt)].
           ++ left. split; [reflexivity | simpl; lia].
           ++ right. split; [lia|]. split; [|simpl; lia].
              destruct k as [|k']; [lia|].
              simpl. simpl in Hlast. rewrite Nat.sub_0_r in Hlast.
              exact Hlast.
Qed.

Lemma previous_of_snoc (l1 : list TimeValuePair) (v : TimeValuePair) :
  previous_of (l1 ++ [v]) = Some (time v).
Proof.
  unfold previous_of. rewrite rev_app_distr. reflexivity.
Qed.

(** The step used at position [length l1] of [l1 ++ v :: l2]. *)
Lemma dt_at_middle (l1 l2 : list TimeValuePair) (v : TimeValuePair) :
  dt_at (l1 ++ v :: l2) (List.length l1) =
  match previous_of l1 with
  | None => DEFAULT_DT
  | Some p => time v - p
  end.
Proof.
  destruct l1 as [|a l1] using rev_ind.
  - reflexivity.
  - rewrite previous_of_snoc, length_app. simpl List.length.
    replace (List.length l1 + 1)%nat with (S (List.length l1)) by lia.
    unfold dt_at.
    rewrite <- app_assoc. simpl app.
    replace (nth (S (List.length l1)) (l1 ++ a :: v :: l2) sample0) with v.
    + rewrite nth_middle. reflexivity.
    + change (a :: v :: l2) with ([a] ++ v :: l2).
      rewrite app_assoc.
      replace (S (List.length l1)) with (List.length (l1 ++ [a]))
        by (rewrite length_app; simpl; lia).
      rewrite nth_middle. reflexivity.
Qed.

(** The contributions of a prefix, read off the positions. *)
Lemma area_terms_positions (l2 : list TimeValuePair) :
  forall (l1 : list TimeValuePair) (k : nat),
    (k <= List.length l2)%nat ->
    area_terms base base_std (previous_of l1) (firstn k l2) =
    map (fun i => (value (nth i (l1 ++ l2) sample0) - base)
                  * dt_at (l1 ++ l2) i)
      (filter (fun i => exceeds_threshold base base_std
                          (nth i (l1 ++ l2) sample0))
         (seq (List.length l1) k)).
Proof.
  induction l2 as [|v rest IH]; intros l1 k Hk.
  - simpl in Hk. assert (k = O) by lia. subst k. reflexivity.
  - destruct k as [|k]; [reflexivity|].
    simpl in Hk.
    simpl firstn. simpl seq. simpl filter.
    rewrite nth_middle.
    specialize (IH (l1 ++ [v]) k ltac:(lia)).
    rewrite previous_of_snoc in IH.
    rewrite <- app_assoc in IH. simpl app in IH.
    rewrite length_app in IH. simpl List.length in IH.
    replace (List.length l1 + 1)%nat with (S (List.length l1)) in IH by lia.
    simpl area_terms.
    destruct (exceeds_threshold base base_std v).
    + simpl map. rewrite dt_at_middle, IH, nth_middle. reflexivity.
    + exact IH.
Qed.

End AreaFacts.

(** C1.  [calculate_area] walks the samples of [treatment_data] followed by
    those of [anterior_wash_data].  Its result is the sum, over the
    positions [i < k] whose sample's value exceeds [base + base_std], of
    [(value - base) * dt], where [dt] is 6 at the first position and the
    difference to the previous sample's time at every later one.  The walk
    covers the whole list ([k] is its length) when fewer than 15 samples
    are below the threshold and past the peak time; otherwise it ends with
    the sample that brings the number of such samples to 15.  That number
    is counted over the whole prefix: a sample above the threshold in
    between does not reset it. *)
Theorem calculate_area_spec :
  forall (base base_std base_peak_time : Q) (td : TreatmentData),
    let vals := treatment_data td ++ anterior_wash_data td in
    exists k : nat,
      (k <= List.length vals)%nat /\
      calculate_area base base_std base_peak_time td =
        area_of_first base base_std vals k /\
      ((k = List.length vals /\
        (count_below base base_std base_peak_time vals < 15)%nat) \/
       ((0 < k)%nat /\
        below_after_peak base base_std base_peak_time
          (nth (k - 1) vals sample0) = true /\
        count_below base base_std base_peak_time (firstn k vals) = 15%nat)).
Proof.
  intros base base_std base_peak_time td vals.
  destruct (area_loop_prefix base base_std base_peak_time vals None 0 0
              ltac:(lia)) as (k & Hk & Hval & Hstop).
  exists k. split; [exact Hk|]. split.
  - unfold calculate_area. fold vals. rewrite Hval.
    unfold area_of_first, Qsum.
    pose proof (area_terms_positions base base_std vals [] k Hk) as E.
    change (previous_of []) with (@None Q) in E.
    rewrite E. reflexivity.
  - simpl in Hstop. exact Hstop.
Qed.

(** The counter is not reset: in [td_counter] the sample above the
    threshold at time 15 comes after fourteen counted samples, the sample
    at time 16 is the fifteenth, and the walk stops there; the sample at
    time 17 adds nothing. *)
Lemma calculate_area_counter_not_reset :
  calculate_area 0 0 0 td_counter == 1 /\
  count_below 0 0 0 (firstn 16 (treatment_data td_counter)) = 15%nat /\
  exceeds_threshold 0 0 (nth 16 (treatment_data td_counter) sample0) = true.
Proof.
  split; [vm_compute; reflexivity|]. split; reflexivity.
Qed.

Section AreaSign.

Variables base base_std base_peak_time : Q.

Lemma area_loop_nonneg (vals : list TimeValuePair) :
  forall (previous_time : option Q) (auc : Q) (c : nat),
    0 <= auc ->
    Forall (fun v => base <= value v) vals ->
    times_nondecreasing previous_time vals ->
    0 <= area_loop base base_std base_peak_time vals previous_time auc c.
Proof.
  induction vals as [|v rest IH]; intros previous_time auc c Hauc Hall Hsorted.
  - exact Hauc.
  - rewrite area_loop_cons. cbv zeta.
    inversion Hall as [|? ? Hv Hrest]; subst.
    destruct Hsorted as [Hprev Hsorted].
    destruct (Qgtb (value v) (base + base_std)).
    + apply IH; [|exact Hrest|exact Hsorted].
      assert (Hdt : 0 <= match previous_time with
                         | None => DEFAULT_DT
                         | Some p => time v - p
                         end).
      { destruct previous_time as [p|]; [lra | unfold DEFAULT_DT; lra]. }
      assert (Hdv : 0 <= value v - base) by lra.
      pose proof (Qmult_le_0_compat _ _ Hdv Hdt). lra.
    + destruct (Qgtb (time v) base_peak_time).
      * destruct (NUM_CONSECUTIVE_VALUES_BEFORE_DONE <=? S c)%nat;
          [exact Hauc | apply IH; assumption].
      * apply IH; assumption.
Qed.

End AreaSign.

(** C10, as the code has it.  When every sample of [treatment_data]
    followed by [anterior_wash_data] has a value of at least [base] and the
    samples' times never go back along that list, the area returned by
    [calculate_area] is at least 0. *)
Theorem calculate_area_nonneg :
  forall (base base_std base_peak_time : Q) (td : TreatmentData),
    Forall (fun v => base <= value v)
      (treatment_data td ++ anterior_wash_data td) ->
    times_nondecreasing None (treatment_data td ++ anterior_wash_data td) ->
    0 <= calculate_area base base_std base_peak_time td.
Proof.
  intros base base_std base_peak_time td Hall Hsorted.
  unfold calculate_area. apply area_loop_nonneg; [lra | exact Hall | exact Hsorted].
Qed.

Lemma calculate_area_nonneg_witness :
  0 <= calculate_area 0 0 0 td_rising.
Proof.
  apply (calculate_area_nonneg 0 0 0 td_rising).
  - simpl. repeat constructor; unfold Qle; simpl; lia.
  - simpl. repeat split; unfold Qle; simpl; lia.
Defined.

(** C10, as stated, fails: with every value at least [base] but a sample
    earlier than its predecessor, the time step is negative and so is the
    area (5 * 6 + 5 * (0 - 10) = -20). *)
Lemma calculate_area_negative :
  Forall (fun v => 0 <= value v)
    (treatment_data td_times_go_back ++ anterior_wash_data td_times_go_back) /\
  calculate_area 0 0 0 td_times_go_back == -20 /\
  ~ 0 <= calculate_area 0 0 0 td_times_go_back.
Proof.
  split; [|split].
  - simpl. repeat constructor; unfold Qle; simpl; lia.
  - vm_compute. reflexivity.
  - vm_compute. intro H. apply H. reflexivity.
Qed.

(** ** [calculate_peak] *)

Lemma Qgtb_true (a b : Q) : Qgtb a b = true <-> b < a.
Proof.
  unfold Qgtb. rewrite negb_true_iff. split; intro H.
  - apply Qnot_le_lt. intro Hle. apply Qle_bool_iff in Hle. congruence.
  - destruct (Qle_bool a b) eqn:E; [|reflexivity].
    apply Qle_bool_iff in E. lra.
Qed.

Lemma Qgtb_false (a b : Q) : Qgtb a b = false <-> a <= b.
Proof.
  unfold Qgtb. rewrite negb_false_iff. apply Qle_bool_iff.
Qed.

Lemma peak_scan_shift (l : list TimeValuePair) (limit : Q) :
  forall i : nat, peak_scan l limit i = (i + peak_scan l limit 0)%nat.
Proof.
  induction l as [|v rest IH]; intro i; simpl.
  - lia.
  - destruct (Qgtb (time v) limit); [lia|].
    rewrite (IH (S i)), (IH 1%nat). lia.
Qed.

Lemma peak_scan_le (l : list TimeValuePair) (limit : Q) :
  (peak_scan l limit 0 <= List.length l)%nat.
Proof.
  induction l as [|v rest IH]; simpl; [lia|].
  destruct (Qgtb (time v) limit); [lia|].
  rewrite peak_scan_shift. lia.
Qed.

Lemma firstn_peak_scan (l : list TimeValuePair) (limit : Q) :
  firstn (peak_scan l limit 0) l = through_first_late limit l.
Proof.
  induction l as [|v rest IH]; simpl; [reflexivity|].
  destruct (Qgtb (time v) limit); [reflexivity|].
  rewrite peak_scan_shift. simpl. rewrite IH. reflexivity.
Qed.

(** The pool [calculate_peak] searches: the treatment samples, then the
    anterior-wash samples up to and including the first one past the
    window. *)
Lemma data_to_search_pool (td : TreatmentData) (w : Q) (lst : TimeValuePair) :
  last_sample (treatment_data td) = Ok lst ->
  data_to_search td w =
  Ok (treatment_data td ++
      through_first_late (time lst + w) (anterior_wash_data td)).
Proof.
  intro Hlast. unfold data_to_search. rewrite Hlast. simpl.
  rewrite Nat.min_r by apply peak_scan_le.
  rewrite firstn_peak_scan. reflexivity.
Qed.

Lemma through_first_late_all_within (limit : Q) (l : list TimeValuePair) :
  Forall (fun v => time v <= limit) l ->
  through_first_late limit l = l /\
  filter (fun v => negb (Qgtb (time v) limit)) l = l.
Proof.
  induction 1 as [|v rest Hv Hrest [IH1 IH2]]; simpl; [split; reflexivity|].
  apply Qgtb_false in Hv. rewrite Hv. simpl. rewrite IH1, IH2.
  split; reflexivity.
Qed.

(** When no anterior-wash sample lies past the window, the pool is the one
    the specification describes. *)
Lemma data_to_search_within_window (td : TreatmentData) (w : Q)
  (lst : TimeValuePair) :
  last_sample (treatment_data td) = Ok lst ->
  Forall (fun v => time v <= time lst + w) (anterior_wash_data td) ->
  data_to_search td w = peak_pool_spec td w.
Proof.
  intros Hlast Hall.
  rewrite (data_to_search_pool td w lst Hlast).
  unfold peak_pool_spec. rewrite Hlast. simpl.
  destruct (through_first_late_all_within _ _ Hall) as [-> ->].
  reflexivity.
Qed.

Lemma last_sample_nonempty (l : list TimeValuePair) :
  l <> [] -> exists lst, last_sample l = Ok lst.
Proof.
  intro Hne. unfold last_sample.
  destruct (rev l) as [|x r] eqn:E.
  - apply (f_equal (@rev _)) in E. rewrite rev_involutive in E.
    simpl in E. contradiction.
  - exists x. reflexivity.
Qed.

Lemma insert_desc_length (x : TimeValuePair) (l : list TimeValuePair) :
  List.length (insert_desc x l) = S (List.length l).
Proof.
  induction l as [|y rest IH]; simpl; [reflexivity|].
  destruct (Qgtb (value y) (value x)); simpl; [rewrite IH|]; reflexivity.
Qed.

Lemma sorted_desc_length (l : list TimeValuePair) :
  List.length (sorted_desc l) = List.length l.
Proof.
  induction l as [|x rest IH]; simpl; [reflexivity|].
  rewrite insert_desc_length, IH. reflexivity.
Qed.

(** The first element of the sorted list is a sample of the list whose
    value no other sample exceeds. *)
Lemma sorted_desc_head (l : list TimeValuePair) :
  forall (top : TimeValuePair) (rest : list TimeValuePair),
    sorted_desc l = top :: rest ->
    In top l /\ forall x, In x l -> value x <= value top.
Proof.
  induction l as [|x l' IH]; intros top rest Hs; [discriminate|].
  simpl in Hs.
  destruct (sorted_desc l') as [|y r] eqn:E.
  - assert (l' = []).
    { apply length_zero_iff_nil. rewrite <- sorted_desc_length, E. reflexivity. }
    subst l'. simpl in Hs. inversion Hs; subst.
    split; [left; reflexivity|].
    intros z [<-|[]]. lra.
  - destruct (IH y r eq_refl) as [Hin Hmax].
    simpl in Hs. destruct (Qgtb (value y) (value x)) eqn:Hcmp.
    + inversion Hs; subst. apply Qgtb_true in Hcmp.
      split; [right; exact Hin|].
      intros z [<-|Hz]; [lra | apply Hmax; exact Hz].
    + inversion Hs; subst. apply Qgtb_false in Hcmp.
      split; [left; reflexivity|].
      intros z [<-|Hz]; [lra|].
      specialize (Hmax z Hz). lra.
Qed.

(** With the peak mode "highest", [calculate_peak] returns the value and
    the time of a sample of the pool it searched whose value is the
    largest of that pool. *)
Lemma calculate_peak_highest (td : TreatmentData) (w : Q) :
  treatment_data td <> [] ->
  exists (pool : list TimeValuePair) (top : TimeValuePair),
    data_to_search td w = Ok pool /\
    calculate_peak td PeakValues.PEAK_HIGHEST_VALUE w =
      Ok (value top, PeakTime (time top)) /\
    In top pool /\
    forall x, In x pool -> value x <= value top.
Proof.
  intro Hne.
  destruct (last_sample_nonempty _ Hne) as [lst Hlast].
  pose proof (data_to_search_pool td w lst Hlast) as Hpool.
  set (pool := treatment_data td ++
                 through_first_late (time lst + w) (anterior_wash_data td)) in *.
  destruct (sorted_desc pool) as [|top rest] eqn:E.
  - exfalso. apply (f_equal (@List.length _)) in E.
    rewrite sorted_desc_length in E. unfold pool in E.
    rewrite length_app in E. destruct (treatment_data td); [congruence|].
    simpl in E. lia.
  - exists pool, top. split; [exact Hpool|].
    destruct (sorted_desc_head pool top rest E) as [Hin Hmax].
    split; [|split; assumption].
    unfold calculate_peak. rewrite Hpool. simpl. rewrite E. reflexivity.
Qed.

(** C2 at a concrete treatment.  One treatment sample at time 0 and one
    wash sample at time 1000, far past the window of 300: the scan counts
    the late sample before it tests its time, so the sample is part of the
    pool and becomes the peak; the pool of the specification holds the
    treatment sample only. *)
Lemma calculate_peak_takes_sample_past_window :
  data_to_search td_late_wash 300 =
    Ok [mkTimeValuePair 0 1; mkTimeValuePair 1000 99] /\
  peak_pool_spec td_late_wash 300 = Ok [mkTimeValuePair 0 1] /\
  calculate_peak td_late_wash PeakValues.PEAK_HIGHEST_VALUE 300 =
    Ok (99, PeakTime 1000).
Proof.
  repeat split; reflexivity.
Qed.

(** With the other peak mode, a pool of two or more candidates makes
    [max] compare two [TimeValuePair] objects: the call raises. *)
Lemma calculate_peak_average_raises (td : TreatmentData) (peak_type : Z) (w : Q) :
  peak_type <> PeakValues.PEAK_HIGHEST_VALUE ->
  (2 <= List.length (treatment_data td))%nat ->
  calculate_peak td peak_type w = Raise TypeError.
Proof.
  intros Hmode Hlen.
  assert (Hne : treatment_data td <> [])
    by (destruct (treatment_data td); [simpl in Hlen; lia | discriminate]).
  destruct (last_sample_nonempty _ Hne) as [lst Hlast].
  pose proof (data_to_search_pool td w lst Hlast) as Hpool.
  set (pool := treatment_data td ++
                 through_first_late (time lst + w) (anterior_wash_data td)) in *.
  assert (Hpl : (2 <= List.length (sorted_desc pool))%nat).
  { rewrite sorted_desc_length. unfold pool. rewrite length_app. lia. }
  unfold calculate_peak. rewrite Hpool. simpl.
  apply Z.eqb_neq in Hmode. rewrite Hmode.
  destruct (sorted_desc pool) as [|a [|b r]]; simpl in Hpl; try lia.
  reflexivity.
Qed.

(** C3 at concrete treatments.  With the two candidates (0, 1) and (6, 2)
    the specification expects the pair (1.5, 6); the call raises
    [TypeError].  With a single candidate it returns the sample object
    itself in place of a time. *)
Lemma calculate_peak_average_of_two_raises :
  calculate_peak td_two_samples PeakValues.PEAK_AVERAGE_OF_THREE 300 =
    Raise TypeError /\
  (exists m : Q,
     peak_average_spec (treatment_data td_two_samples) = Ok (m, 6) /\
     m == 1.5) /\
  exists m : Q,
    calculate_peak td_one_sample PeakValues.PEAK_AVERAGE_OF_THREE 300 =
      Ok (m, PeakObject (mkTimeValuePair 0 1)) /\
    m == 1.
Proof.
  split; [reflexivity|]. split.
  - eexists. split; [reflexivity|]. vm_compute. reflexivity.
  - eexists. split; [reflexivity|]. reflexivity.
Qed.

(** ** [calculate_base] *)

(** For a count of at least 1, the values taken are those of the last
    [base] samples, or of all samples when there are fewer. *)
Lemma base_values_last (td : TreatmentData) (base : Z)
  (prior : list TimeValuePair) :
  prior_wash_data td = Some prior ->
  (1 <= base)%Z ->
  base_values td base = Ok (last_values (Z.to_nat base) prior) /\
  List.length (last_values (Z.to_nat base) prior) =
    Nat.min (Z.to_nat base) (List.length prior).
Proof.
  intros Hprior Hbase. unfold base_values, last_values, slice_from.
  rewrite Hprior.
  assert (Hlt : (- base <? 0)%Z = true) by (apply Z.ltb_lt; lia).
  rewrite Hlt.
  replace (Z.to_nat (Z.max (Z.of_nat (List.length prior) + - base) 0))
    with (List.length prior - Z.to_nat base)%nat by lia.
  split; [reflexivity|].
  rewrite length_map, length_skipn. lia.
Qed.

(** For a count of 0 the slice [prior_wash_data[-0:]] is the whole list. *)
Lemma base_values_zero (td : TreatmentData) (prior : list TimeValuePair) :
  prior_wash_data td = Some prior ->
  base_values td 0 = Ok (map value prior).
Proof.
  intro Hprior. unfold base_values, slice_from. rewrite Hprior.
  simpl. rewrite Z.min_l by lia. reflexivity.
Qed.

(** For a negative count the slice drops the first [- base] samples. *)
Lemma base_values_negative (td : TreatmentData) (base : Z)
  (prior : list TimeValuePair) :
  prior_wash_data td = Some prior ->
  (base < 0)%Z ->
  base_values td base = Ok (map value (skipn (Z.to_nat (- base)) prior)).
Proof.
  intros Hprior Hbase. unfold base_values, slice_from. rewrite Hprior.
  assert (Hlt : (- base <? 0)%Z = false) by (apply Z.ltb_ge; lia).
  rewrite Hlt.
  destruct (Z.min_spec (- base) (Z.of_nat (List.length prior)))
    as [[Hm ->]|[Hm ->]]; [reflexivity|].
  rewrite Nat2Z.id, !skipn_all2; [reflexivity | lia | lia].
Qed.

(** Fewer than two values taken: [mean] or [stdev] raises. *)
Lemma calculate_base_too_few (sqrt : Q -> Q) (td : TreatmentData) (base : Z)
  (vs : list Q) :
  base_values td base = Ok vs ->
  (List.length vs < 2)%nat ->
  calculate_base sqrt td base = Raise StatisticsError.
Proof.
  intros Hvs Hlen. unfold calculate_base. rewrite Hvs. simpl.
  destruct vs as [|a [|b r]]; simpl in Hlen; try lia; reflexivity.
Qed.

(** With two values or more, the result is their mean and the square root
    of their sample variance. *)
Lemma calculate_base_mean_stdev (sqrt : Q -> Q) (td : TreatmentData)
  (base : Z) (vs : list Q) :
  base_values td base = Ok vs ->
  (2 <= List.length vs)%nat ->
  calculate_base sqrt td base =
    Ok (Qsum vs / inject_Z (Z.of_nat (List.length vs)),
        sqrt (sample_variance vs)).
Proof.
  intros Hvs Hlen. unfold calculate_base. rewrite Hvs. simpl.
  destruct vs as [|a [|b r]]; simpl in Hlen; try lia; reflexivity.
Qed.

(** C4 at a count of 0.  The prior wash holds the values 1, 2 and 3.  The
    last 0 samples are no sample at all, for which the specification expects a
    fatal error; [prior_wash_data[-0:]] is the whole series, and
    [calculate_base] returns its mean 2 and the root of its variance 1. *)
Lemma calculate_base_zero_takes_whole_series :
  forall sqrt : Q -> Q,
    base_values td_three_prior 0 = Ok [1; 2; 3] /\
    last_values 0
      [mkTimeValuePair 0 1; mkTimeValuePair 6 2; mkTimeValuePair 12 3] = [] /\
    exists m v : Q,
      calculate_base sqrt td_three_prior 0 = Ok (m, sqrt v) /\
      m == 2 /\ v == 1.
Proof.
  intro sqrt. split; [reflexivity|]. split; [reflexivity|].
  eexists. eexists. split; [reflexivity|].
  split; vm_compute; reflexivity.
Qed.

(** ** [ratio_to_calcium_concentration] *)

Lemma denominator_zero (q : Q) :
  Qeq_bool (6.274 - q) 0 = Qeq_bool q 6.274.
Proof.
  destruct (Qeq_bool q 6.274) eqn:E.
  - apply Qeq_bool_iff in E. apply Qeq_bool_iff. lra.
  - apply Qeq_bool_neq in E.
    destruct (Qeq_bool (6.274 - q) 0) eqn:E'; [|reflexivity].
    apply Qeq_bool_iff in E'. exfalso. apply E. lra.
Qed.

(** The conversion of a number: the formula, or Python's error at the
    pole. *)
Lemma concentration_of_numeric (r : pyval) :
  is_int_or_float r = true ->
  ratio_to_calcium_concentration r =
    if Qeq_bool (number_of r) 6.274 then Raise ZeroDivisionError
    else Ok (PyFloat (concentration_formula (number_of r))).
Proof.
  intro Hr.
  assert (H : ratio_to_calcium_concentration r =
              concentration_of_number (number_of r))
    by (destruct r; try discriminate; reflexivity).
  rewrite H. unfold concentration_of_number, pydiv.
  rewrite denominator_zero.
  destruct (Qeq_bool (number_of r) 6.274); reflexivity.
Qed.

(** C5.  For every numeric ratio (an [int] or a [float]) the result is the
    number [146 * (25813.79/1674.68) * ((r - 0.132) / (6.274 - r))]; at
    [r = 6.274], where the formula divides by zero, Python's division
    raises.  At 0.132 the result is 0, and [None] is mapped to [None]. *)
Theorem ratio_to_calcium_concentration_formula :
  (forall r : pyval,
     is_int_or_float r = true ->
     ratio_to_calcium_concentration r =
       if Qeq_bool (number_of r) 6.274 then Raise ZeroDivisionError
       else Ok (PyFloat (concentration_formula (number_of r)))) /\
  (exists c : Q,
     ratio_to_calcium_concentration (PyFloat 0.132) = Ok (PyFloat c) /\
     c == 0) /\
  ratio_to_calcium_concentration PyNone = Ok PyNone.
Proof.
  split; [|split].
  - exact concentration_of_numeric.
  - eexists. split; [reflexivity|]. vm_compute. reflexivity.
  - reflexivity.
Qed.

Lemma ratio_to_calcium_concentration_formula_witness :
  ratio_to_calcium_concentration (PyFloat 1) =
    Ok (PyFloat (concentration_formula 1)).
Proof.
  exact (proj1 ratio_to_calcium_concentration_formula (PyFloat 1) eq_refl).
Defined.

(* ================================================================== *)
(** * Properties of the region segmenter                               *)
(* ================================================================== *)

Ltac unfold_m := unfold bind, lift, ret, print, rbind in *.

(** ** Sample collection *)

Section RowFacts.

Variable insheet : Worksheet.
Variable time_column_idx : option Z.
Variable region : Z.

(** [append_values]'s loop appends the samples of the rows, one per
    row, and prints the rows' lines. *)
Lemma append_values_loop_rows (n : nat) :
  forall (k start : Z) (lst : list TimeValuePair) (out : list output),
    append_values_loop insheet time_column_idx region n k start lst out =
    match collect_rows insheet time_column_idx region n k start with
    | Ok (ss, ds) => Ok (lst ++ ss, out ++ ds)
    | Raise e => Raise e
    end.
Proof.
  induction n as [|n IH]; intros k start lst out.
  - simpl. unfold ret. rewrite !app_nil_r. reflexivity.
  - cbn [append_values_loop collect_rows]. unfold row_sample. unfold_m.
    destruct (sheet_cell insheet (k + start) (Some region)) as [raw|e];
      [|reflexivity].
    destruct (ratio_to_calcium_concentration raw) as [rv|e]; [|reflexivity].
    destruct (sheet_cell insheet (k + start) time_column_idx) as [tv|e];
      [|reflexivity].
    destruct (is_int_or_float rv && is_int_or_float tv); rewrite IH;
      destruct (collect_rows insheet time_column_idx region n (k + 1) start)
        as [[ss ds]|e]; simpl; try reflexivity;
      rewrite <- !app_assoc; reflexivity.
Qed.

(** One sample per row: the sample at position [i] is the one of row
    [k + start + i], whatever the rows before it held. *)
Lemma collect_rows_aligned (n : nat) :
  forall (k start : Z) (ss : list TimeValuePair) (ds : list output),
    collect_rows insheet time_column_idx region n k start = Ok (ss, ds) ->
    List.length ss = n /\
    forall i : nat, (i < n)%nat ->
      exists r,
        row_sample insheet time_column_idx region (k + start + Z.of_nat i)
          = Ok r /\
        nth_error ss i = Some (fst r).
Proof.
  induction n as [|n IH]; intros k start ss ds H.
  - simpl in H. inversion H; subst. split; [reflexivity|]. intros i Hi; lia.
  - simpl in H. unfold rbind in H.
    destruct (row_sample insheet time_column_idx region (k + start))
      as [r|e] eqn:Hr; [|discriminate].
    destruct (collect_rows insheet time_column_idx region n (k + 1) start)
      as [[ss' ds']|e] eqn:Hrs; [|discriminate].
    inversion H; subst. simpl.
    destruct (IH _ _ _ _ Hrs) as [Hlen Hnth].
    split; [rewrite Hlen; reflexivity|].
    intros [|i] Hi.
    + exists r. rewrite Z.add_0_r. split; [exact Hr | reflexivity].
    + destruct (Hnth i ltac:(lia)) as (r' & Hr' & Hn).
      exists r'. split; [|exact Hn].
      rewrite <- Hr'. f_equal. lia.
Qed.

(** A row whose ratio cell is empty: a diagnostic and the placeholder. *)
Lemma row_sample_empty_ratio (row c : Z) :
  (1 <= row)%Z -> (1 <= region)%Z -> (1 <= c)%Z ->
  time_column_idx = Some c ->
  cell_value insheet row region = PyNone ->
  row_sample insheet time_column_idx region row =
    Ok (mkTimeValuePair 0 0,
        [InvalidTimeRatio (cell_value insheet row c) PyNone row]).
Proof.
  intros Hrow Hreg Hc -> Hcell. unfold row_sample, sheet_cell.
  assert (H1 : (row <? 1)%Z = false) by (apply Z.ltb_ge; lia).
  assert (H2 : (region <? 1)%Z = false) by (apply Z.ltb_ge; lia).
  assert (H3 : (c <? 1)%Z = false) by (apply Z.ltb_ge; lia).
  rewrite H1, H2, H3. simpl. rewrite Hcell. reflexivity.
Qed.

(** A row whose time cell is not a number, the ratio cell holding a
    number other than 6.274: a diagnostic and the placeholder. *)
Lemma row_sample_bad_time (row c : Z) :
  (1 <= row)%Z -> (1 <= region)%Z -> (1 <= c)%Z ->
  time_column_idx = Some c ->
  is_int_or_float (cell_value insheet row region) = true ->
  Qeq_bool (number_of (cell_value insheet row region)) 6.274 = false ->
  is_int_or_float (cell_value insheet row c) = false ->
  exists ratio_value,
    row_sample insheet time_column_idx region row =
      Ok (mkTimeValuePair 0 0,
          [InvalidTimeRatio (cell_value insheet row c) ratio_value row]).
Proof.
  intros Hrow Hreg Hc -> Hnum Hpole Htime. unfold row_sample, sheet_cell.
  assert (H1 : (row <? 1)%Z = false) by (apply Z.ltb_ge; lia).
  assert (H2 : (region <? 1)%Z = false) by (apply Z.ltb_ge; lia).
  assert (H3 : (c <? 1)%Z = false) by (apply Z.ltb_ge; lia).
  rewrite H1, H2, H3. simpl.
  rewrite (concentration_of_numeric _ Hnum), Hpole.
  simpl. rewrite Htime. simpl. eexists. reflexivity.
Qed.

(** A row whose ratio cell holds text: the conversion raises before the
    cell's type is looked at. *)
Lemma row_sample_text_ratio (row : Z) (s : string) :
  (1 <= row)%Z -> (1 <= region)%Z ->
  cell_value insheet row region = PyStr s ->
  row_sample insheet time_column_idx region row = Raise TypeError.
Proof.
  intros Hrow Hreg Hcell. unfold row_sample, sheet_cell.
  assert (H1 : (row <? 1)%Z = false) by (apply Z.ltb_ge; lia).
  assert (H2 : (region <? 1)%Z = false) by (apply Z.ltb_ge; lia).
  rewrite H1, H2. simpl. rewrite Hcell. reflexivity.
Qed.

(** A range that holds such a row is never collected. *)
Lemma append_values_text_ratio (start end_ row : Z) (s : string)
  (lst : list TimeValuePair) (out : list output) :
  (1 <= start <= row)%Z -> (row < end_)%Z -> (1 <= region)%Z ->
  cell_value insheet row region = PyStr s ->
  exists e,
    append_values insheet time_column_idx region lst
      (IndexInt start) (IndexInt end_) out = Raise e.
Proof.
  intros Hstart Hend Hreg Hcell.
  unfold append_values. unfold_m. simpl.
  rewrite append_values_loop_rows.
  destruct (collect_rows insheet time_column_idx region
              (Z.to_nat (end_ - start)) 0 start) as [[ss ds]|e] eqn:Hrows;
    [|exists e; reflexivity].
  exfalso.
  destruct (collect_rows_aligned _ _ _ _ _ Hrows) as [_ Hnth].
  destruct (Hnth (Z.to_nat (row - start)) ltac:(lia)) as (r & Hr & _).
  replace (0 + start + Z.of_nat (Z.to_nat (row - start)))%Z with row in Hr
    by lia.
  rewrite (row_sample_text_ratio row s) in Hr by (try assumption; lia).
  discriminate.
Qed.

End RowFacts.

(** C9 at a concrete sheet.  Row 3 holds the text "n/a" in its ratio cell:
    the specification expects a diagnostic and a (0, 0) sample for that row;
    collecting rows 2 to 4 raises [TypeError], and so does the whole of
    [get_raw_data]. *)
Lemma text_ratio_cell_raises :
  row_sample sheet_text_ratio (Some 1%Z) 2 3 = Raise TypeError /\
  append_values sheet_text_ratio (Some 1%Z) 2 []
    (IndexInt 2) (IndexInt 5) [] = Raise TypeError /\
  get_raw_data sheet_text_ratio "A" [] = Raise TypeError.
Proof.
  repeat split; vm_compute; reflexivity.
Qed.

(** An empty ratio cell and a time cell holding text do get the
    placeholder, each with its diagnostic, and the rows stay aligned. *)
Lemma empty_ratio_cell_placeholder :
  exists v : Q,
    get_raw_data sheet_empty_ratio "A" [] =
    Ok ([("A1"%string,
          [Bath (mkStandardBathData
                   [mkTimeValuePair 0 v; mkTimeValuePair 0 0;
                    mkTimeValuePair 0 0])])],
        [LabelObject (mkLabelIndexPair "STD" 2)],
        [InvalidTimeRatio (PyInt 6) PyNone 3;
         InvalidTimeRatio (PyStr "late") (PyFloat v) 4]).
Proof.
  eexists. vm_compute. reflexivity.
Qed.

(** ** The synthesized leading label *)

Section WalkFacts.

Variable insheet : Worksheet.
Variable time_column_idx : option Z.
Variable region : Z.
Variable treatment_labels : list label_entry.

(** Reading [.label] off the tuple stops the walk at once. *)
Lemma build_segment_tuple (j : nat) (s : string) (i : Z)
  (segments : list segment) (out : list output) :
  build_segment insheet time_column_idx region treatment_labels j
    (LabelTuple s i) segments out = Raise AttributeError.
Proof. reflexivity. Qed.

(** A treatment label at position 0 never yields a segment: the samples
    are collected, then [assert j > 0] fails. *)
Lemma build_segment_treatment_first (e : label_entry)
  (segments : list segment) (out : list output) :
  is_valid_treatment (entry_label e) = true ->
  exists ex,
    build_segment insheet time_column_idx region treatment_labels 0 e
      segments out = Raise ex.
Proof.
  intro Hvalid. destruct e as [p|s i].
  - unfold build_segment. unfold_m. simpl attr_label. cbv iota beta.
    simpl in Hvalid. rewrite Hvalid.
    destruct (append_values insheet time_column_idx region []
                (attr_index (LabelObject p))
                (index_or_end insheet treatment_labels (0 + 1)) out)
      as [[tdata out']|ex].
    + exists AssertionError. reflexivity.
    + exists ex. reflexivity.
  - exists AttributeError. reflexivity.
Qed.

Lemma walk_labels_treatment_first (e : label_entry)
  (rest : list label_entry) (out : list output) :
  is_valid_treatment (entry_label e) = true ->
  exists ex,
    walk_labels insheet time_column_idx region treatment_labels
      (e :: rest) 0 [] out = Raise ex.
Proof.
  intro Hvalid.
  destruct (build_segment_treatment_first e [] out Hvalid) as [ex Hex].
  exists ex. cbn [walk_labels]. unfold bind. rewrite Hex. reflexivity.
Qed.

End WalkFacts.

(** Whenever the first label lies after the first data row, the region is
    never segmented: the tuple put in front of the labels has no [label]
    attribute. *)
Lemma segment_region_unlabelled_start (insheet : Worksheet)
  (run_label : string) (start_of_data_row : Z) (time_column_idx : option Z)
  (start_region_idx region : Z) (p : LabelIndexPair)
  (rest : list label_entry) (out : list output) :
  (start_of_data_row < index p)%Z ->
  exists ex,
    segment_region insheet run_label start_of_data_row time_column_idx
      start_region_idx region (LabelObject p :: rest) out = Raise ex.
Proof.
  intro Hlt. unfold segment_region. unfold_m.
  destruct (sheet_cell insheet 1 (Some region)) as [old|ex];
    [|exists ex; reflexivity].
  destruct (generate_region_label old (region - start_region_idx) run_label)
    as [lbl|ex]; [|exists ex; reflexivity].
  unfold insert_leading_std. cbn [attr_index int_of_index rbind].
  apply Z.ltb_lt in Hlt. rewrite Hlt.
  exists AttributeError. reflexivity.
Qed.

(** C7 at a concrete sheet.  The first label ("CCK") is on row 4, after
    the first data row 2.  The specification expects a leading bath segment over
    rows 2 and 3; the entry put in front of the labels is a tuple, and
    [get_raw_data] raises [AttributeError] on its [label]. *)
Lemma unlabelled_start_raises :
  search_for_treatment_labels sheet_unlabelled_start [] =
    Ok ([mkLabelIndexPair "CCK" 4; mkLabelIndexPair "Standard Bath" 6], []) /\
  insert_leading_std SheetParseValues.START_DATA_ROW
    [LabelObject (mkLabelIndexPair "CCK" 4);
     LabelObject (mkLabelIndexPair "Standard Bath" 6)] =
    Ok [LabelTuple "STD" 2;
        LabelObject (mkLabelIndexPair "CCK" 4);
        LabelObject (mkLabelIndexPair "Standard Bath" 6)] /\
  get_raw_data sheet_unlabelled_start "A" [] = Raise AttributeError.
Proof.
  repeat split; vm_compute; reflexivity.
Qed.

(** ** Treatments without a bath before them *)

(** C8.  Let the labels be walked for at least one region.  If some label
    of the walked list is a treatment label and no label before it is a
    bath marker, then [get_raw_data] raises: no segment list is built and
    no base is computed.  In particular this holds when the first label is
    a treatment. *)
Theorem treatment_without_bath_is_fatal :
  forall (insheet : Worksheet) (run_label : string) (out out1 : list output)
    (start_of_data_row : Z) (time_column_idx : option Z)
    (start_region_idx end_region_idx : Z)
    (found : list LabelIndexPair) (walked : list label_entry)
    (j : nat) (e : label_entry),
    search_for_data_bounds insheet =
      Ok (start_of_data_row, time_column_idx, Some start_region_idx,
          end_region_idx) ->
    search_for_treatment_labels insheet out = Ok (found, out1) ->
    (start_region_idx <= end_region_idx)%Z ->
    insert_leading_std start_of_data_row (map LabelObject found) = Ok walked ->
    nth_error walked j = Some e ->
    is_valid_treatment (entry_label e) = true ->
    (forall (i : nat) (e' : label_entry),
        (i < j)%nat -> nth_error walked i = Some e' ->
        is_valid_treatment (entry_label e') = true) ->
    exists ex, get_raw_data insheet run_label out = Raise ex.
Proof.
  intros insheet run_label out out1 start tc sr er found walked j e
    Hbounds Hlabels Hregions Hwalked Hj Hvalid Hbefore.
  unfold get_raw_data. unfold bind at 1. unfold lift at 1.
  rewrite Hbounds. unfold bind at 1. rewrite Hlabels.
  destruct (Z.to_nat (er + 1 - sr)) as [|n] eqn:Hn; [lia|].
  cbn [regions_loop]. unfold bind at 1.
  assert (Hseg : exists ex,
             segment_region insheet run_label start tc sr sr
               (map LabelObject found) out1 = Raise ex).
  { unfold segment_region. unfold_m.
    destruct (sheet_cell insheet 1 (Some sr)) as [old|ex];
      [|exists ex; reflexivity].
    destruct (generate_region_label old (sr - sr) run_label) as [lbl|ex];
      [|exists ex; reflexivity].
    rewrite Hwalked.
    destruct walked as [|first rest]; [destruct j; discriminate|].
    assert (Hfirst : is_valid_treatment (entry_label first) = true).
    { destruct j as [|j'].
      - simpl in Hj. inversion Hj; subst. exact Hvalid.
      - apply (Hbefore O first); [lia | reflexivity]. }
    destruct (walk_labels_treatment_first insheet tc sr (first :: rest)
                first rest out1 Hfirst) as [ex Hex].
    exists ex. unfold bind in Hex. rewrite Hex. reflexivity. }
  destruct Hseg as [ex Hex]. exists ex. rewrite Hex. reflexivity.
Qed.

Lemma treatment_without_bath_is_fatal_witness :
  exists ex, get_raw_data sheet_treatment_first "A" [] = Raise ex.
Proof.
  apply (treatment_without_bath_is_fatal sheet_treatment_first "A" [] []
           2 (Some 1%Z) 2 2
           [mkLabelIndexPair "CCK" 2; mkLabelIndexPair "Standard Bath" 4]
           [LabelObject (mkLabelIndexPair "CCK" 2);
            LabelObject (mkLabelIndexPair "Standard Bath" 4)]
           O (LabelObject (mkLabelIndexPair "CCK" 2))).
  - vm_compute. reflexivity.
  - vm_compute. reflexivity.
  - lia.
  - vm_compute. reflexivity.
  - reflexivity.
  - reflexivity.
  - intros i e' Hi. lia.
Defined.

(** The treatment labelled on the first data row: the error is the failed
    assertion. *)
Lemma treatment_first_assertion :
  get_raw_data sheet_treatment_first "A" [] = Raise AssertionError.
Proof. vm_compute. reflexivity. Qed.

(** ** The prior wash of a treatment *)

Lemma prior_std_data_snoc (segments : list segment) (s : segment) :
  prior_std_data (segments ++ [s]) =
  match s with
  | Bath b => Some (std_bath_data b)
  | Treatment _ => prior_std_data segments
  end.
Proof.
  unfold prior_std_data. rewrite fold_left_app. reflexivity.
Qed.

Lemma prior_std_data_found (segments : list segment) :
  (exists b, In (Bath b) segments) -> prior_std_data segments <> None.
Proof.
  induction segments as [|s segments IH] using rev_ind; intros [b Hin].
  - destruct Hin.
  - rewrite prior_std_data_snoc. destruct s as [t|b']; [|discriminate].
    apply IH. apply in_app_or in Hin.
    destruct Hin as [Hin|[Hin|[]]]; [exists b; exact Hin | discriminate].
Qed.

Lemma prior_wash_ok_snoc (l : list segment) :
  forall (pre : list segment) (s : segment),
    prior_wash_ok pre (l ++ [s]) <->
    prior_wash_ok pre l /\ prior_wash_ok (pre ++ l) [s].
Proof.
  induction l as [|a l IH]; intros pre s.
  - simpl. rewrite app_nil_r. tauto.
  - change ((a :: l) ++ [s]) with (a :: (l ++ [s])).
    cbn [prior_wash_ok]. rewrite IH.
    replace ((pre ++ [a]) ++ l) with (pre ++ a :: l)
      by (rewrite <- app_assoc; reflexivity).
    cbn [prior_wash_ok]. tauto.
Qed.

Section PriorFacts.

Variable insheet : Worksheet.
Variable time_column_idx : option Z.
Variable region : Z.
Variable treatment_labels : list label_entry.

(** What a successful [build_segment] returns for a treatment label: not
    at position 0, with the prior wash of the segments built so far. *)
Lemma build_segment_treatment (j : nat) (e : label_entry)
  (segments : list segment) (out out' : list output) (t : TreatmentData) :
  build_segment insheet time_column_idx region treatment_labels j e
    segments out = Ok (Treatment t, out') ->
  (0 < j)%nat /\ prior_wash_data t = prior_std_data segments.
Proof.
  unfold build_segment. unfold_m. intro H.
  destruct (attr_label e) as [lbl|]; [|discriminate].
  destruct (is_valid_treatment lbl).
  - destruct (append_values insheet time_column_idx region []
                (attr_index e) (index_or_end insheet treatment_labels (j + 1))
                out) as [[tdata o1]|]; [|discriminate].
    destruct (0 <? j)%nat eqn:Hj; [|discriminate].
    apply Nat.ltb_lt in Hj.
    destruct (nth_error treatment_labels (j + 1)) as [next|]; [|discriminate].
    destruct (attr_label next) as [nl|]; [|discriminate].
    destruct (negb (is_valid_treatment nl)).
    + destruct (int_of_index (index_or_end insheet treatment_labels (j + 1)))
        as [te|]; [|discriminate].
      destruct (append_values insheet time_column_idx region []
                  (IndexInt (te + 1))
                  (index_or_end insheet treatment_labels (j + 2)) o1)
        as [[adata o2]|]; [|discriminate].
      inversion H; subst. split; [exact Hj | reflexivity].
    + inversion H; subst. split; [exact Hj | reflexivity].
  - destruct (append_values insheet time_column_idx region []
                (attr_index e) (index_or_end insheet treatment_labels (j + 1))
                out) as [[bdata o1]|]; discriminate.
Qed.

(** The walk keeps the list headed by a bath segment and every treatment
    provided with the samples of the last bath before it. *)
Lemma walk_labels_prior (todo : list label_entry) :
  forall (j : nat) (segments segments' : list segment)
    (out out' : list output),
    walk_labels insheet time_column_idx region treatment_labels todo j
      segments out = Ok (segments', out') ->
    j = List.length segments ->
    bath_first segments ->
    prior_wash_ok [] segments ->
    bath_first segments' /\ prior_wash_ok [] segments'.
Proof.
  induction todo as [|e rest IH];
    intros j segments segments' out out' Hwalk Hj Hfirst Hok.
  - simpl in Hwalk. unfold ret in Hwalk. inversion Hwalk; subst.
    split; assumption.
  - cbn [walk_labels] in Hwalk. unfold bind in Hwalk.
    destruct (build_segment insheet time_column_idx region treatment_labels
                j e segments out) as [[seg o1]|] eqn:Hseg; [|discriminate].
    apply (IH _ _ _ _ _ Hwalk).
    + rewrite length_app. simpl. lia.
    + destruct segments as [|[t|b] r]; simpl; try exact I; try contradiction.
      destruct seg as [t|b]; [|exact I].
      apply build_segment_treatment in Hseg. simpl in Hj. lia.
    + apply prior_wash_ok_snoc. split; [exact Hok|].
      simpl. split; [|exact I].
      destruct seg as [t|b]; [|exact I].
      apply build_segment_treatment in Hseg. destruct Hseg as [Hpos Hprior].
      split; [exact Hprior|].
      rewrite Hprior. apply prior_std_data_found.
      destruct segments as [|[t0|b] r]; simpl in *; try lia; try contradiction.
      exists b. left. reflexivity.
Qed.

End PriorFacts.

Lemma dict_set_values (P : list segment -> Prop) (k : string)
  (v : list segment) (d : ratio_dict) :
  P v -> Forall (fun kv => P (snd kv)) d ->
  Forall (fun kv => P (snd kv)) (dict_set k v d).
Proof.
  intros Hv Hd. induction Hd as [|[k' v'] d Hkv Hd IH]; simpl.
  - constructor; [exact Hv | constructor].
  - destruct (String.eqb k k'); constructor; assumption.
Qed.

Lemma regions_loop_prior (insheet : Worksheet) (run_label : string)
  (start_of_data_row : Z) (time_column_idx : option Z) (start_region_idx : Z)
  (n : nat) :
  forall (region : Z) (ratio_data ratio_data' : ratio_dict)
    (labels labels' : list label_entry) (out out' : list output),
    regions_loop insheet run_label start_of_data_row time_column_idx
      start_region_idx n region ratio_data labels out
      = Ok (ratio_data', labels', out') ->
    Forall (fun kv => bath_first (snd kv) /\ prior_wash_ok [] (snd kv))
      ratio_data ->
    Forall (fun kv => bath_first (snd kv) /\ prior_wash_ok [] (snd kv))
      ratio_data'.
Proof.
  induction n as [|n IH];
    intros region rd rd' labels labels' out out' Hloop Hrd.
  - simpl in Hloop. unfold ret in Hloop. inversion Hloop; subst. exact Hrd.
  - cbn [regions_loop] in Hloop. unfold bind at 1 in Hloop.
    destruct (segment_region insheet run_label start_of_data_row
                time_column_idx start_region_idx region labels out)
      as [[[[region_label segments] labels1] o1]|] eqn:Hseg; [|discriminate].
    apply (IH _ _ _ _ _ _ _ Hloop).
    apply (dict_set_values
             (fun l => bath_first l /\ prior_wash_ok [] l)); [|exact Hrd].
    unfold segment_region in Hseg. unfold_m.
    destruct (sheet_cell insheet 1 (Some region)) as [old|]; [|discriminate].
    destruct (generate_region_label old (region - start_region_idx) run_label)
      as [lbl|]; [|discriminate].
    destruct (insert_leading_std start_of_data_row labels) as [walked|];
      [|discriminate].
    destruct (walk_labels insheet time_column_idx region walked walked 0 [] out)
      as [[segs o2]|] eqn:Hwalk; [|discriminate].
    inversion Hseg; subst.
    apply (walk_labels_prior _ _ _ _ _ _ _ _ _ _ Hwalk);
      [reflexivity | exact I | exact I].
Qed.

(** Whenever [get_raw_data] returns, every region's segment list is empty
    or begins with a bath segment, and every treatment in it carries, as
    its prior wash, the samples of the last bath segment before it. *)
Lemma get_raw_data_prior_wash (insheet : Worksheet) (run_label : string)
  (out out' : list output) (ratio_data : ratio_dict)
  (labels : list label_entry) :
  get_raw_data insheet run_label out = Ok (ratio_data, labels, out') ->
  Forall (fun kv => bath_first (snd kv) /\ prior_wash_ok [] (snd kv))
    ratio_data.
Proof.
  unfold get_raw_data. unfold bind at 1. unfold lift at 1. intro H.
  destruct (search_for_data_bounds insheet) as [[[[start tc] sr] er]|];
    [|discriminate].
  unfold bind at 1 in H.
  destruct (search_for_treatment_labels insheet out) as [[found o1]|];
    [|discriminate].
  destruct sr as [sr|]; [|discriminate].
  apply (regions_loop_prior _ _ _ _ _ _ _ _ _ _ _ _ _ H). constructor.
Qed.

(** ** The anterior wash of a treatment *)

Section AnteriorFacts.

Variable insheet : Worksheet.
Variable time_column_idx : option Z.
Variable region : Z.
Variable treatment_labels : list label_entry.

(** The rows whose samples make up [anterior_wash_data].  When the next
    label is a treatment name there are none.  When it is a bath marker
    on row [r], they are the rows [r + 1], ..., up to the row before the
    label two positions ahead (or the sheet's last row): row [r], the
    first row of the wash, is left out. *)
Lemma build_segment_anterior (j : nat) (e : label_entry)
  (segments : list segment) (out out' : list output) (t : TreatmentData) :
  build_segment insheet time_column_idx region treatment_labels j e
    segments out = Ok (Treatment t, out') ->
  exists next : LabelIndexPair,
    nth_error treatment_labels (j + 1) = Some (LabelObject next) /\
    if is_valid_treatment (label next) then anterior_wash_data t = []
    else
      exists (anterior_end : Z) (ds : list output),
        int_of_index (index_or_end insheet treatment_labels (j + 2))
          = Ok anterior_end /\
        collect_rows insheet time_column_idx region
          (Z.to_nat (anterior_end - (index next + 1))) 0 (index next + 1)
          = Ok (anterior_wash_data t, ds).
Proof.
  unfold build_segment. unfold_m. intro H.
  destruct (attr_label e) as [lbl|]; [|discriminate].
  destruct (is_valid_treatment lbl).
  - destruct (append_values insheet time_column_idx region []
                (attr_index e) (index_or_end insheet treatment_labels (j + 1))
                out) as [[tdata o1]|]; [|discriminate].
    destruct (0 <? j)%nat; [|discriminate].
    unfold index_or_end in H at 1.
    destruct (nth_error treatment_labels (j + 1)) as [[next|s i]|] eqn:Hnext;
      try discriminate.
    exists next. split; [reflexivity|].
    cbn [attr_label] in H.
    destruct (is_valid_treatment (label next)); cbn [negb] in H.
    + inversion H; subst. reflexivity.
    + cbn [attr_index int_of_index] in H.
      unfold append_values in H. unfold_m.
      destruct (int_of_index (index_or_end insheet treatment_labels (j + 2)))
        as [anterior_end|] eqn:Hend; [|discriminate].
      cbn [int_of_index] in H.
      rewrite append_values_loop_rows in H.
      destruct (collect_rows insheet time_column_idx region
                  (Z.to_nat (anterior_end - (index next + 1))) 0
                  (index next + 1)) as [[ss ds]|] eqn:Hrows; [|discriminate].
      inversion H; subst. simpl.
      exists anterior_end, ds. split; [reflexivity | exact Hrows].
  - destruct (append_values insheet time_column_idx region []
                (attr_index e) (index_or_end insheet treatment_labels (j + 1))
                out) as [[bdata o1]|]; discriminate.
Qed.

(** The samples of a bath segment are those of all its rows, from the
    row of its label on. *)
Lemma build_segment_bath (j : nat) (p : LabelIndexPair)
  (segments : list segment) (out out' : list output)
  (b : StandardBathData) :
  build_segment insheet time_column_idx region treatment_labels j
    (LabelObject p) segments out = Ok (Bath b, out') ->
  exists (bath_end : Z) (ds : list output),
    int_of_index (index_or_end insheet treatment_labels (j + 1))
      = Ok bath_end /\
    collect_rows insheet time_column_idx region
      (Z.to_nat (bath_end - index p)) 0 (index p)
      = Ok (std_bath_data b, ds).
Proof.
  unfold build_segment. unfold_m. cbn [attr_label attr_index]. intro H.
  destruct (is_valid_treatment (label p)).
  - destruct (append_values insheet time_column_idx region []
                (IndexInt (index p))
                (index_or_end insheet treatment_labels (j + 1)) out)
      as [[tdata o1]|]; [|discriminate].
    destruct (0 <? j)%nat; [|discriminate].
    destruct (nth_error treatment_labels (j + 1)) as [next|]; [|discriminate].
    destruct (attr_label next) as [nl|]; [|discriminate].
    destruct (negb (is_valid_treatment nl)).
    + destruct (int_of_index (index_or_end insheet treatment_labels (j + 1)))
        as [te|]; [|discriminate].
      destruct (append_values insheet time_column_idx region []
                  (IndexInt (te + 1))
                  (index_or_end insheet treatment_labels (j + 2)) o1)
        as [[adata o2]|]; discriminate.
    + discriminate.
  - unfold append_values in H. unfold_m.
    destruct (int_of_index (index_or_end insheet treatment_labels (j + 1)))
      as [bath_end|]; [|discriminate].
    cbn [int_of_index] in H.
    rewrite append_values_loop_rows in H.
    destruct (collect_rows insheet time_column_idx region
                (Z.to_nat (bath_end - index p)) 0 (index p))
      as [[ss ds]|] eqn:Hrows; [|discriminate].
    inversion H; subst. simpl.
    exists bath_end, ds. split; [reflexivity | exact Hrows].
Qed.

End AnteriorFacts.

(** C6 at a concrete sheet.  The bath is on rows 2 and 3, the treatment
    "CCK" on rows 4 and 5, and the wash ("Standard Bath") on rows 6 to 8,
    the sheet's last row.  The specification expects the anterior wash to hold the
    samples of rows 6, 7 and 8, the samples of the wash segment; it holds
    those of rows 7 and 8 only: the sample of row 6 (time 24) is left
    out. *)
Lemma anterior_wash_skips_first_wash_row :
  exists (prior tdata : list TimeValuePair) (b0 a1 a2 : TimeValuePair),
    get_raw_data sheet_bath_treatment_wash "A" [] =
    Ok ([("A1"%string,
          [Bath (mkStandardBathData prior);
           Treatment (mkTreatmentData "CCK" (Some prior) tdata [a1; a2]);
           Bath (mkStandardBathData [b0; a1; a2])])],
        [LabelObject (mkLabelIndexPair "STD" 2);
         LabelObject (mkLabelIndexPair "CCK" 4);
         LabelObject (mkLabelIndexPair "Standard Bath" 6)],
        []) /\
    time b0 = 24 /\ time a1 = 30 /\ time a2 = 36 /\
    List.length tdata = 2%nat.
Proof.
  do 5 eexists. split; [vm_compute; reflexivity|].
  repeat split; reflexivity.
Qed.

(* ================================================================== *)
(** * Further properties of the metrics engine                         *)
(* ================================================================== *)

(** ** [calculate_base] *)

(** X1.  For a count of at least 1, [calculate_base] returns the mean and
    the root of the sample variance of the values of the last [base]
    samples of the prior wash (of all of them when there are fewer),
    provided these are at least two: samples before them play no part. *)
Theorem calculate_base_last_samples :
  forall (sqrt : Q -> Q) (td : TreatmentData) (base : Z)
    (prior : list TimeValuePair),
    prior_wash_data td = Some prior ->
    (1 <= base)%Z ->
    (2 <= Nat.min (Z.to_nat base) (List.length prior))%nat ->
    let vs := last_values (Z.to_nat base) prior in
    List.length vs = Nat.min (Z.to_nat base) (List.length prior) /\
    calculate_base sqrt td base =
      Ok (Qsum vs / inject_Z (Z.of_nat (List.length vs)),
          sqrt (sample_variance vs)).
Proof.
  intros sqrt td base prior Hprior Hbase Hmin vs.
  destruct (base_values_last td base prior Hprior Hbase) as [Hvs Hlen].
  split; [exact Hlen|].
  apply calculate_base_mean_stdev; [exact Hvs|].
  fold vs in Hlen. rewrite Hlen. exact Hmin.
Qed.

Lemma calculate_base_last_samples_witness :
  List.length (last_values 2
    [mkTimeValuePair 0 1; mkTimeValuePair 6 2; mkTimeValuePair 12 3]) = 2%nat /\
  calculate_base (fun q => q) td_three_prior 2 =
    Ok (Qsum [2; 3] / inject_Z 2, sample_variance [2; 3]).
Proof.
  apply (calculate_base_last_samples (fun q => q) td_three_prior 2
           [mkTimeValuePair 0 1; mkTimeValuePair 6 2; mkTimeValuePair 12 3]).
  - reflexivity.
  - lia.
  - simpl. lia.
Defined.

(** X2.  [calculate_base] raises [StatisticsError] whenever a count of at
    least 1 selects fewer than two samples: always for a count of 1, and
    for any count when the prior wash holds fewer than two samples. *)
Theorem calculate_base_needs_two_samples :
  forall (sqrt : Q -> Q) (td : TreatmentData) (base : Z)
    (prior : list TimeValuePair),
    prior_wash_data td = Some prior ->
    (1 <= base)%Z ->
    (base = 1%Z \/ (List.length prior < 2)%nat) ->
    calculate_base sqrt td base = Raise StatisticsError.
Proof.
  intros sqrt td base prior Hprior Hbase Hfew.
  destruct (base_values_last td base prior Hprior Hbase) as [Hvs Hlen].
  apply (calculate_base_too_few sqrt td base _ Hvs).
  rewrite Hlen. destruct Hfew as [-> | Hfew]; lia.
Qed.

Lemma calculate_base_needs_two_samples_witness :
  calculate_base (fun q => q) td_three_prior 1 = Raise StatisticsError.
Proof.
  apply (calculate_base_needs_two_samples (fun q => q) td_three_prior 1
           [mkTimeValuePair 0 1; mkTimeValuePair 6 2; mkTimeValuePair 12 3]).
  - reflexivity.
  - lia.
  - left. reflexivity.
Defined.

(** ** [calculate_peak] *)

(** The head of the sorted list is the first sample of the list that has
    the largest value. *)
Lemma sorted_desc_head_first (l : list TimeValuePair) :
  forall (top : TimeValuePair) (rest : list TimeValuePair),
    sorted_desc l = top :: rest ->
    exists pre post,
      l = pre ++ top :: post /\
      Forall (fun x => value x < value top) pre /\
      Forall (fun x => value x <= value top) post.
Proof.
  induction l as [|x l' IH]; intros top rest Hs; [discriminate|].
  simpl in Hs.
  destruct (sorted_desc l') as [|y r] eqn:E.
  - assert (l' = []).
    { apply length_zero_iff_nil. rewrite <- sorted_desc_length, E. reflexivity. }
    subst l'. simpl in Hs. inversion Hs; subst.
    exists [], []. repeat split; constructor.
  - destruct (IH y r eq_refl) as (pre & post & Hl & Hpre & Hpost).
    simpl in Hs. destruct (Qgtb (value y) (value x)) eqn:Hcmp.
    + inversion Hs; subst top rest. apply Qgtb_true in Hcmp.
      exists (x :: pre), post. rewrite Hl. split; [reflexivity|].
      split; [constructor; assumption | exact Hpost].
    + inversion Hs; subst top rest. apply Qgtb_false in Hcmp.
      exists [], l'. split; [reflexivity|]. split; [constructor|].
      rewrite Hl. apply Forall_app. split.
      * eapply Forall_impl; [|exact Hpre]. simpl. intros a Ha. lra.
      * constructor; [exact Hcmp|].
        eapply Forall_impl; [|exact Hpost]. simpl. intros a Ha. lra.
Qed.

(** X3.  With the peak mode "highest" and a treatment that has samples,
    [calculate_peak] returns the value and the time of the earliest sample
    of largest value among the candidates: every candidate before it has a
    strictly smaller value, every candidate after it a value that is not
    larger. *)
Theorem calculate_peak_earliest_maximum :
  forall (td : TreatmentData) (w : Q),
    treatment_data td <> [] ->
    exists (pre post : list TimeValuePair) (top : TimeValuePair),
      data_to_search td w = Ok (pre ++ top :: post) /\
      calculate_peak td PeakValues.PEAK_HIGHEST_VALUE w =
        Ok (value top, PeakTime (time top)) /\
      Forall (fun x => value x < value top) pre /\
      Forall (fun x => value x <= value top) post.
Proof.
  intros td w Hne.
  destruct (last_sample_nonempty _ Hne) as [lst Hlast].
  pose proof (data_to_search_pool td w lst Hlast) as Hpool.
  set (pool := treatment_data td ++
                 through_first_late (time lst + w) (anterior_wash_data td)) in *.
  destruct (sorted_desc pool) as [|top rest] eqn:E.
  - exfalso. apply (f_equal (@List.length _)) in E.
    rewrite sorted_desc_length in E. unfold pool in E.
    rewrite length_app in E. destruct (treatment_data td); [congruence|].
    simpl in E. lia.
  - destruct (sorted_desc_head_first pool top rest E)
      as (pre & post & Hl & Hpre & Hpost).
    exists pre, post, top. split; [rewrite Hpool, Hl; reflexivity|].
    split; [|split; assumption].
    unfold calculate_peak. rewrite Hpool. simpl. rewrite E. reflexivity.
Qed.

Lemma calculate_peak_earliest_maximum_witness :
  exists (pre post : list TimeValuePair) (top : TimeValuePair),
    data_to_search td_with_wash 300 = Ok (pre ++ top :: post) /\
    calculate_peak td_with_wash PeakValues.PEAK_HIGHEST_VALUE 300 =
      Ok (value top, PeakTime (time top)) /\
    Forall (fun x => value x < value top) pre /\
    Forall (fun x => value x <= value top) post.
Proof.
  apply (calculate_peak_earliest_maximum td_with_wash 300).
  simpl. discriminate.
Defined.

Lemma times_after (l : list TimeValuePair) :
  forall p limit : Q,
    limit < p ->
    times_nondecreasing (Some p) l ->
    Forall (fun v => Qgtb (time v) limit = true) l.
Proof.
  induction l as [|v rest IH]; intros p limit Hp Hs; [constructor|].
  destruct Hs as [Hpv Hs].
  constructor.
  - apply Qgtb_true. lra.
  - apply (IH (time v)); [lra | exact Hs].
Qed.

Lemma times_nondecreasing_weaken (l : list TimeValuePair) (p : option Q) :
  times_nondecreasing p l -> times_nondecreasing None l.
Proof.
  destruct l as [|v rest]; [trivial|].
  intros [_ H]. split; [exact I | exact H].
Qed.

(** Along non-decreasing times, the samples kept are those within the
    limit and the first one past it. *)
Lemma through_first_late_sorted (limit : Q) (l : list TimeValuePair) :
  times_nondecreasing None l ->
  through_first_late limit l =
    filter (fun v => negb (Qgtb (time v) limit)) l ++
    firstn 1 (filter (fun v => Qgtb (time v) limit) l).
Proof.
  induction l as [|v rest IH]; intro Hs; [reflexivity|].
  destruct Hs as [_ Hs]. simpl.
  destruct (Qgtb (time v) limit) eqn:Hv; simpl.
  - apply Qgtb_true in Hv.
    pose proof (times_after rest (time v) limit Hv Hs) as Hall.
    replace (filter (fun v0 => negb (Qgtb (time v0) limit)) rest) with
      (@nil TimeValuePair); [reflexivity|].
    symmetry. clear -Hall. induction Hall as [|a r Ha Hr IH]; [reflexivity|].
    simpl. rewrite Ha. simpl. exact IH.
  - rewrite IH by (apply (times_nondecreasing_weaken rest (Some (time v))), Hs).
    reflexivity.
Qed.

(** X4.  When the times of the anterior wash never decrease, the
    candidates of [calculate_peak] are the treatment samples, the
    anterior-wash samples whose time is within the window after the last
    treatment sample, and, when there is one, the first anterior-wash
    sample past the window. *)
Theorem data_to_search_sorted_wash :
  forall (td : TreatmentData) (w : Q) (lst : TimeValuePair),
    last_sample (treatment_data td) = Ok lst ->
    times_nondecreasing None (anterior_wash_data td) ->
    data_to_search td w =
      Ok (treatment_data td ++
          filter (fun v => negb (Qgtb (time v) (time lst + w)))
            (anterior_wash_data td) ++
          firstn 1 (filter (fun v => Qgtb (time v) (time lst + w))
                      (anterior_wash_data td))).
Proof.
  intros td w lst Hlast Hs.
  rewrite (data_to_search_pool td w lst Hlast).
  rewrite (through_first_late_sorted _ _ Hs). reflexivity.
Qed.

Lemma data_to_search_sorted_wash_witness :
  data_to_search td_with_wash 300 =
    Ok (treatment_data td_with_wash ++
        filter (fun v => negb (Qgtb (time v) (6 + 300)))
          (anterior_wash_data td_with_wash) ++
        firstn 1 (filter (fun v => Qgtb (time v) (6 + 300))
                    (anterior_wash_data td_with_wash))).
Proof.
  apply (data_to_search_sorted_wash td_with_wash 300 (mkTimeValuePair 6 7)).
  - reflexivity.
  - simpl. repeat split; unfold Qle; simpl; lia.
Defined.

(** ** [calculate_area] *)

Section AreaMore.

Variables base base_std base_peak_time : Q.

Lemma area_loop_nothing_above (vals : list TimeValuePair) :
  forall (previous_time : option Q) (auc : Q) (c : nat),
    Forall (fun v => exceeds_threshold base base_std v = false) vals ->
    area_loop base base_std base_peak_time vals previous_time auc c = auc.
Proof.
  induction vals as [|v rest IH]; intros previous_time auc c Hall;
    [reflexivity|].
  inversion Hall as [|? ? Hv Hrest]; subst.
  rewrite area_loop_cons. cbv zeta.
  unfold exceeds_threshold in Hv. rewrite Hv.
  destruct (Qgtb (time v) base_peak_time).
  - destruct (NUM_CONSECUTIVE_VALUES_BEFORE_DONE <=? S c)%nat;
      [reflexivity | apply IH; exact Hrest].
  - apply IH; exact Hrest.
Qed.

(** Once the samples walked bring the count to 15, what follows them is
    not read. *)
Lemma area_loop_stops (l1 : list TimeValuePair) :
  forall (l2 : list TimeValuePair) (previous_time : option Q) (auc : Q)
    (c : nat),
    (c < 15)%nat ->
    (15 <= c + count_below base base_std base_peak_time l1)%nat ->
    area_loop base base_std base_peak_time (l1 ++ l2) previous_time auc c =
    area_loop base base_std base_peak_time l1 previous_time auc c.
Proof.
  induction l1 as [|v rest IH]; intros l2 previous_time auc c Hc Hcount.
  - unfold count_below in Hcount. simpl in Hcount. lia.
  - rewrite count_below_cons in Hcount.
    simpl app. rewrite !area_loop_cons. cbv zeta.
    unfold below_after_peak, exceeds_threshold in Hcount.
    destruct (Qgtb (value v) (base + base_std)); simpl in Hcount.
    + apply IH; [exact Hc | exact Hcount].
    + destruct (Qgtb (time v) base_peak_time); simpl in Hcount.
      * destruct (NUM_CONSECUTIVE_VALUES_BEFORE_DONE <=? S c)%nat eqn:Hdone;
          [reflexivity|].
        apply Nat.leb_gt in Hdone.
        unfold NUM_CONSECUTIVE_VALUES_BEFORE_DONE in Hdone.
        apply IH; lia.
      * apply IH; [exact Hc | exact Hcount].
Qed.

End AreaMore.

(** X5.  When no sample of the treatment and of its anterior wash has a
    value above [base + base_std], the area is exactly 0, whatever the
    times and the peak time are. *)
Theorem calculate_area_zero_below_threshold :
  forall (base base_std base_peak_time : Q) (td : TreatmentData),
    Forall (fun v => value v <= base + base_std)
      (treatment_data td ++ anterior_wash_data td) ->
    calculate_area base base_std base_peak_time td = 0.
Proof.
  intros base base_std base_peak_time td Hall.
  unfold calculate_area. apply area_loop_nothing_above.
  eapply Forall_impl; [|exact Hall].
  intros v Hv. apply Qgtb_false. exact Hv.
Qed.

Lemma calculate_area_zero_below_threshold_witness :
  calculate_area 10 0 0 td_with_wash = 0.
Proof.
  apply (calculate_area_zero_below_threshold 10 0 0 td_with_wash).
  simpl. repeat constructor; unfold Qle; simpl; lia.
Defined.

(** X6.  Once the treatment and its anterior wash hold 15 samples that
    are below the threshold and past the peak time, samples added at the
    end of the anterior wash do not change the area. *)
Theorem calculate_area_ignores_after_cutoff :
  forall (base base_std base_peak_time : Q) (td : TreatmentData)
    (more : list TimeValuePair),
    (15 <= count_below base base_std base_peak_time
             (treatment_data td ++ anterior_wash_data td))%nat ->
    calculate_area base base_std base_peak_time (extend_anterior td more) =
    calculate_area base base_std base_peak_time td.
Proof.
  intros base base_std base_peak_time td more Hcount.
  unfold calculate_area, extend_anterior. simpl.
  rewrite app_assoc. apply area_loop_stops; [lia | simpl; exact Hcount].
Qed.

Lemma calculate_area_ignores_after_cutoff_witness :
  calculate_area 0 0 0 (extend_anterior td_counter [mkTimeValuePair 18 50]) =
  calculate_area 0 0 0 td_counter.
Proof.
  apply (calculate_area_ignores_after_cutoff 0 0 0 td_counter
           [mkTimeValuePair 18 50]).
  vm_compute. lia.
Defined.

Section AreaShift.

Variables base base_std base_peak_time : Q.
Variables dt dv : Q.




End AreaShift.


(** ** [ratio_to_calcium_concentration] *)

Ltac field_side :=
  repeat match goal with |- _ /\ _ => split end;
  first [assumption | lra | discriminate].

Lemma concentration_formula_difference (q1 q2 : Q) :
  ~ 6.274 - q1 == 0 -> ~ 6.274 - q2 == 0 ->
  concentration_formula q2 - concentration_formula q1 ==
  146 * (25813.79 / 1674.68) * (6.274 - 0.132) * (q2 - q1)
  / ((6.274 - q1) * (6.274 - q2)).
Proof.
  intros H1 H2. unfold concentration_formula. field. field_side.
Qed.


Lemma Qdiv_pos (a b : Q) : 0 < a -> 0 < b -> 0 < a / b.
Proof.
  intros Ha Hb. apply Qlt_shift_div_l; [exact Hb | lra].
Qed.

Lemma concentration_scale_pos : 0 < 146 * (25813.79 / 1674.68) * (6.274 - 0.132).
Proof. reflexivity. Qed.



(** X9.  The sign of the concentration: it is negative for a ratio below
    0.132, zero at 0.132, positive between 0.132 and the pole 6.274, and
    negative again for a ratio above the pole. *)
Theorem ratio_to_calcium_concentration_sign :
  forall r : pyval,
    is_int_or_float r = true ->
    ~ number_of r == 6.274 ->
    exists c : Q,
      ratio_to_calcium_concentration r = Ok (PyFloat c) /\
      (number_of r < 0.132 -> c < 0) /\
      (number_of r == 0.132 -> c == 0) /\
      (0.132 < number_of r -> number_of r < 6.274 -> 0 < c) /\
      (6.274 < number_of r -> c < 0).
Proof.
  intros r Hr Hpole.
  exists (concentration_formula (number_of r)).
  rewrite (concentration_of_numeric r Hr).
  destruct (Qeq_bool (number_of r) 6.274) eqn:E;
    [apply Qeq_bool_iff in E; contradiction|].
  split; [reflexivity|].
  assert (Hzero : concentration_formula 0.132 == 0) by reflexivity.
  pose proof (concentration_formula_difference 0.132 (number_of r)
                ltac:(discriminate) ltac:(lra)) as Hd.
  rewrite Hzero in Hd.
  assert (Hc : concentration_formula (number_of r) ==
               146 * (25813.79 / 1674.68) * (6.274 - 0.132)
               * (number_of r - 0.132)
               / ((6.274 - 0.132) * (6.274 - number_of r))) by lra.
  pose proof concentration_scale_pos as HK.
  repeat split.
  - intro Hlt. rewrite Hc.
    assert (H : 0 < 146 * (25813.79 / 1674.68) * (6.274 - 0.132)
                    * (0.132 - number_of r)
                    / ((6.274 - 0.132) * (6.274 - number_of r))).
    { apply Qdiv_pos; apply Qmult_lt_0_compat; lra. }
    assert (E' : 146 * (25813.79 / 1674.68) * (6.274 - 0.132)
                 * (number_of r - 0.132)
                 / ((6.274 - 0.132) * (6.274 - number_of r)) ==
                 - (146 * (25813.79 / 1674.68) * (6.274 - 0.132)
                    * (0.132 - number_of r)
                    / ((6.274 - 0.132) * (6.274 - number_of r))))
      by (field; field_side).
    lra.
  - intro Heq. rewrite Hc.
    assert (E' : 146 * (25813.79 / 1674.68) * (6.274 - 0.132)
                 * (number_of r - 0.132) == 0) by (rewrite Heq; reflexivity).
    rewrite E'. field. field_side.
  - intros Hlo Hhi. rewrite Hc.
    apply Qdiv_pos; apply Qmult_lt_0_compat; lra.
  - intro Hgt. rewrite Hc.
    assert (H : 0 < 146 * (25813.79 / 1674.68) * (6.274 - 0.132)
                    * (number_of r - 0.132)
                    / ((6.274 - 0.132) * (number_of r - 6.274))).
    { apply Qdiv_pos; apply Qmult_lt_0_compat; lra. }
    assert (E' : 146 * (25813.79 / 1674.68) * (6.274 - 0.132)
                 * (number_of r - 0.132)
                 / ((6.274 - 0.132) * (6.274 - number_of r)) ==
                 - (146 * (25813.79 / 1674.68) * (6.274 - 0.132)
                    * (number_of r - 0.132)
                    / ((6.274 - 0.132) * (number_of r - 6.274))))
      by (field; field_side).
    lra.
Qed.

Lemma ratio_to_calcium_concentration_sign_witness :
  exists c : Q,
    ratio_to_calcium_concentration (PyFloat 1) = Ok (PyFloat c) /\
    (1 < 0.132 -> c < 0) /\
    (1 == 0.132 -> c == 0) /\
    (0.132 < 1 -> 1 < 6.274 -> 0 < c) /\
    (6.274 < 1 -> c < 0).
Proof.
  apply (ratio_to_calcium_concentration_sign (PyFloat 1)).
  - reflexivity.
  - simpl. unfold Qeq. simpl. lia.
Defined.

(* ================================================================== *)
(** * Further properties of the region segmenter                       *)
(* ================================================================== *)

(** ** [find_number] and [generate_region_label] *)

Lemma string_app_assoc (a b c : string) :
  ((a ++ b) ++ c)%string = (a ++ (b ++ c))%string.
Proof.
  induction a as [|x a IH]; simpl; [reflexivity | rewrite IH; reflexivity].
Qed.












(** ** [search_for_data_bounds] *)

Lemma bounds_step_inv (insheet : Worksheet) (col : Z)
  (st st' : option Z * option Z * option Z) :
  (1 <= col)%Z ->
  bounds_inv insheet col st ->
  bounds_step insheet col st = Ok st' ->
  bounds_inv insheet (col + 1) st'.
Proof.
  intros Hcol Hinv Hstep.
  destruct st as [[t s] e]. unfold bounds_step in Hstep.
  fold (header insheet col) in Hstep.
  destruct Hinv as (Ht & Hs & He).
  destruct (header insheet col) eqn:Hh.
  - (* an empty header: the state is unchanged *)
    inversion Hstep; subst st'. clear Hstep.
    assert (Hlack : forall needle, header_lacks needle insheet col)
      by (intro; left; exact Hh).
    split; [|split].
    + destruct t as [t|].
      * destruct Ht as (Hr & Hhas & Hbefore). repeat split; try lia; assumption.
      * intros c Hc. destruct (Z.eq_dec c col) as [->|]; [apply Hlack|].
        apply Ht. lia.
    + destruct s as [s|].
      * destruct Hs as (Hr & Hhas & Hbefore). repeat split; try lia; assumption.
      * intros c Hc. destruct (Z.eq_dec c col) as [->|]; [apply Hlack|].
        apply Hs. lia.
    + destruct e as [e|], s as [s|]; try exact He.
      * destruct He as (H1 & H2 & H3 & H4). repeat split; try lia; assumption.
      * intros c Hc. destruct (Z.eq_dec c col) as [->|]; [left; exact Hh|].
        apply He. lia.
  - destruct t; [|discriminate]. destruct s; [|discriminate].
    destruct e; [|discriminate]. simpl in Hstep. inversion Hstep; subst st'.
    destruct Ht as (Hr & Hhas & Hbefore). destruct Hs as (Hr' & Hhas' & Hbefore').
    destruct He as (H1 & H2 & H3 & H4).
    repeat split; try lia; assumption.
  - destruct t; [|discriminate]. destruct s; [|discriminate].
    destruct e; [|discriminate]. simpl in Hstep. inversion Hstep; subst st'.
    destruct Ht as (Hr & Hhas & Hbefore). destruct Hs as (Hr' & Hhas' & Hbefore').
    destruct He as (H1 & H2 & H3 & H4).
    repeat split; try lia; assumption.
  - (* a text header *)
    rename s0 into h.
    assert (Hhas : forall needle,
               str_contains needle h = true -> header_has needle insheet col)
      by (intros needle E; unfold header_has; rewrite Hh; simpl; rewrite E;
          reflexivity).
    assert (Hlack : forall needle,
               str_contains needle h = false -> header_lacks needle insheet col)
      by (intros needle E; right; rewrite Hh; simpl; rewrite E; reflexivity).
    unfold is_valid_ratio_data_header in Hstep. simpl contained_in in Hstep.
    set (bt := str_contains "Time" h) in *.
    set (br := str_contains "Ratio" h) in *.
    assert (Ht' : match (match t with
                         | None => if bt then Some col else None
                         | Some _ => t
                         end) with
                  | Some t0 =>
                      (1 <= t0 < col + 1)%Z /\ header_has "Time" insheet t0 /\
                      forall c, (1 <= c < t0)%Z -> header_lacks "Time" insheet c
                  | None =>
                      forall c, (1 <= c < col + 1)%Z ->
                                header_lacks "Time" insheet c
                  end).
    { destruct t as [t|].
      - destruct Ht as (Hr & Hh1 & Hb). repeat split; try lia; assumption.
      - destruct bt eqn:Ebt.
        + repeat split; try lia; [apply Hhas; exact Ebt | exact Ht].
        + intros c Hc. destruct (Z.eq_dec c col) as [->|];
            [apply Hlack; exact Ebt | apply Ht; lia]. }
    destruct s as [s|].
    + (* the span has begun *)
      destruct Hs as (Hr & Hh1 & Hb).
      destruct e as [e|].
      * destruct He as (H1 & H2 & H3 & H4).
        destruct t as [t|]; simpl in Hstep; inversion Hstep; subst st'.
        -- split; [exact Ht'|]. repeat split; try lia; assumption.
        -- split; [exact Ht'|]. repeat split; try lia; assumption.
      * assert (Hstep' :
                  st' = (match t with
                         | None => if bt then Some col else None
                         | Some _ => t
                         end, Some s,
                         if negb br then Some (col - 1)%Z else None)).
        { destruct t; simpl in Hstep; inversion Hstep; reflexivity. }
        subst st'. split; [exact Ht'|].
        split; [repeat split; try lia; assumption|].
        destruct br eqn:Ebr; simpl.
        -- intros c Hc. destruct (Z.eq_dec c col) as [->|];
             [right; apply Hhas; exact Ebr | apply He; lia].
        -- repeat split; try lia.
           ++ intros c Hc. apply He. lia.
           ++ replace (col - 1 + 1)%Z with col by lia.
              rewrite Hh. simpl. fold br. rewrite Ebr. reflexivity.
    + (* no region column yet *)
      destruct e as [e|]; [contradiction|].
      assert (Hstep' :
                st' = (match t with
                       | None => if bt then Some col else None
                       | Some _ => t
                       end,
                       (if br then Some col else None),
                       None)).
      { destruct t; simpl in Hstep; destruct br; simpl in Hstep;
          inversion Hstep; reflexivity. }
      subst st'. split; [exact Ht'|].
      destruct br eqn:Ebr.
      * split.
        -- repeat split; try lia; [apply Hhas; exact Ebr | exact Hs].
        -- intros c Hc. assert (c = col) by lia. subst c.
           right. apply Hhas. exact Ebr.
      * split; [|exact I].
        intros c Hc. destruct (Z.eq_dec c col) as [->|];
          [apply Hlack; exact Ebr | apply Hs; lia].
  - destruct t; [|discriminate]. destruct s; [|discriminate].
    destruct e; [|discriminate]. simpl in Hstep. inversion Hstep; subst st'.
    destruct Ht as (Hr & Hhas & Hbefore). destruct Hs as (Hr' & Hhas' & Hbefore').
    destruct He as (H1 & H2 & H3 & H4).
    repeat split; try lia; assumption.
Qed.

Lemma bounds_loop_inv (insheet : Worksheet) (ncols : nat) :
  forall (col : Z) (st st' : option Z * option Z * option Z),
    (1 <= col)%Z ->
    bounds_inv insheet col st ->
    bounds_loop insheet ncols col st = Ok st' ->
    bounds_inv insheet (col + Z.of_nat ncols) st'.
Proof.
  induction ncols as [|n IH]; intros col st st' Hcol Hinv Hloop.
  - simpl in Hloop. inversion Hloop; subst. rewrite Z.add_0_r. exact Hinv.
  - cbn [bounds_loop] in Hloop. unfold rbind in Hloop.
    destruct (bounds_step insheet col st) as [st1|] eqn:Hstep; [|discriminate].
    replace (col + Z.of_nat (S n))%Z with (col + 1 + Z.of_nat n)%Z by lia.
    apply (IH (col + 1)%Z st1); [lia | | exact Hloop].
    apply (bounds_step_inv insheet col st st1 Hcol Hinv Hstep).
Qed.

Lemma bounds_inv_init (insheet : Worksheet) :
  bounds_inv insheet 1 (None, None, None).
Proof.
  repeat split; intros c Hc; lia.
Qed.

(** What [search_for_data_bounds] returns, read off the scan. *)
Lemma search_for_data_bounds_inv (insheet : Worksheet) (row : Z)
  (tc sr : option Z) (er : Z) :
  search_for_data_bounds insheet = Ok (row, tc, sr, er) ->
  row = 2%Z /\
  exists e : option Z,
    bounds_inv insheet (1 + Z.of_nat (Z.to_nat (max_column insheet)))
      (tc, sr, e) /\
    er = match e with None => max_column insheet | Some e => e end.
Proof.
  unfold search_for_data_bounds, rbind. intro H.
  destruct (bounds_loop insheet (Z.to_nat (max_column insheet)) 1
              (None, None, None)) as [[[t s] e]|] eqn:Hloop; [|discriminate].
  inversion H; subst. split; [reflexivity|].
  exists e. split; [|reflexivity].
  apply (bounds_loop_inv insheet _ 1 _ _ ltac:(lia) (bounds_inv_init insheet)
           Hloop).
Qed.

(** X12.  When [search_for_data_bounds] finds region columns, the data
    start on row 2 and the span [start .. end] lies within the sheet and
    is not empty; its first column is the first one whose header contains
    "Ratio"; every column of the span has such a header or an empty one
    (empty headers are skipped, not taken as the end of the span); and the
    span ends at the sheet's last column or just before a header without
    "Ratio". *)
Theorem search_for_data_bounds_span :
  forall (insheet : Worksheet) (row : Z) (tc : option Z) (sr er : Z),
    search_for_data_bounds insheet = Ok (row, tc, Some sr, er) ->
    row = 2%Z /\
    (1 <= sr <= er)%Z /\ (er <= max_column insheet)%Z /\
    header_has "Ratio" insheet sr /\
    (forall c, (1 <= c < sr)%Z -> header_lacks "Ratio" insheet c) /\
    (forall c, (sr <= c <= er)%Z ->
               header insheet c = PyNone \/ header_has "Ratio" insheet c) /\
    ((er < max_column insheet)%Z ->
     contained_in "Ratio" (header insheet (er + 1)) = Ok false).
Proof.
  intros insheet row tc sr er H.
  destruct (search_for_data_bounds_inv insheet row tc (Some sr) er H)
    as (Hrow & e & Hinv & Her).
  split; [exact Hrow|].
  destruct Hinv as (_ & (Hr & Hhas & Hbefore) & He).
  destruct e as [e|].
  - destruct He as (H1 & H2 & H3 & H4). subst er.
    repeat split; try lia; try assumption.
    intros _. exact H4.
  - subst er. repeat split; try lia; try assumption.
    intros c Hc. apply He. lia.
Qed.

Lemma search_for_data_bounds_span_witness :
  2%Z = 2%Z /\
  (1 <= 2 <= 3)%Z /\ (3 <= max_column sheet_two_regions)%Z /\
  header_has "Ratio" sheet_two_regions 2 /\
  (forall c, (1 <= c < 2)%Z -> header_lacks "Ratio" sheet_two_regions c) /\
  (forall c, (2 <= c <= 3)%Z ->
             header sheet_two_regions c = PyNone \/
             header_has "Ratio" sheet_two_regions c) /\
  ((3 < max_column sheet_two_regions)%Z ->
   contained_in "Ratio" (header sheet_two_regions (3 + 1)) = Ok false).
Proof.
  apply (search_for_data_bounds_span sheet_two_regions 2 (Some 1%Z) 2 3).
  vm_compute. reflexivity.
Defined.

(** X13.  The time column [search_for_data_bounds] returns is the first
    column whose header contains "Time"; it returns [None] exactly when
    every header is empty or is text without "Time". *)
Theorem search_for_data_bounds_time :
  forall (insheet : Worksheet) (row : Z) (tc sr : option Z) (er : Z),
    search_for_data_bounds insheet = Ok (row, tc, sr, er) ->
    match tc with
    | Some t =>
        (1 <= t <= max_column insheet)%Z /\ header_has "Time" insheet t /\
        forall c, (1 <= c < t)%Z -> header_lacks "Time" insheet c
    | None =>
        forall c, (1 <= c <= max_column insheet)%Z ->
                  header_lacks "Time" insheet c
    end.
Proof.
  intros insheet row tc sr er H.
  destruct (search_for_data_bounds_inv insheet row tc sr er H)
    as (_ & e & Hinv & _).
  destruct Hinv as (Ht & _).
  destruct tc as [t|].
  - destruct Ht as (Hr & Hhas & Hbefore). repeat split; try lia; assumption.
  - intros c Hc. apply Ht. lia.
Qed.

Lemma search_for_data_bounds_time_witness :
  (1 <= 1 <= max_column sheet_two_regions)%Z /\
  header_has "Time" sheet_two_regions 1 /\
  forall c, (1 <= c < 1)%Z -> header_lacks "Time" sheet_two_regions c.
Proof.
  apply (search_for_data_bounds_time sheet_two_regions 2 (Some 1%Z)
           (Some 2%Z) 3).
  vm_compute. reflexivity.
Defined.

(** ** [search_for_treatment_labels] *)

Lemma label_rows_ordered_app (l1 : list LabelIndexPair) :
  forall (previous : Z) (p : LabelIndexPair),
    label_rows_ordered previous l1 ->
    Forall (fun q => (index q < index p)%Z) l1 ->
    (previous < index p)%Z ->
    label_rows_ordered previous (l1 ++ [p]).
Proof.
  induction l1 as [|a l1 IH]; intros previous p Hord Hall Hprev.
  - simpl. split; [exact Hprev | exact I].
  - destruct Hord as [Ha Hord]. inversion Hall as [|? ? Hap Hall']; subst.
    simpl. split; [exact Ha|]. apply IH; assumption.
Qed.

(** The loop over the cells of the labels column: the labels added are
    those of the rows visited, in the order of the rows. *)
Lemma collect_labels_inv (insheet : Worksheet) (col : Z) (nrows : nat) :
  forall (row : Z) (acc labels : list LabelIndexPair),
    (1 <= row)%Z ->
    collect_labels insheet col nrows row acc = Ok labels ->
    label_rows_ordered 1 acc ->
    Forall (fun p => (2 <= index p < row)%Z /\
                     cell_value insheet (index p) col = PyStr (label p) /\
                     str_contains "/60" (label p) = false) acc ->
    (forall (r : Z) (s : string),
        (2 <= r < row)%Z -> cell_value insheet r col = PyStr s ->
        str_contains "/60" s = false -> In (mkLabelIndexPair s r) acc) ->
    label_rows_ordered 1 labels /\
    Forall (fun p => (2 <= index p < row + Z.of_nat nrows)%Z /\
                     cell_value insheet (index p) col = PyStr (label p) /\
                     str_contains "/60" (label p) = false) labels /\
    (forall (r : Z) (s : string),
        (2 <= r < row + Z.of_nat nrows)%Z ->
        cell_value insheet r col = PyStr s ->
        str_contains "/60" s = false -> In (mkLabelIndexPair s r) labels).
Proof.
  induction nrows as [|n IH]; intros row acc labels Hrow Hc Hord Hall Hcomplete.
  - simpl in Hc. inversion Hc; subst. rewrite Z.add_0_r.
    split; [exact Hord|]. split; [exact Hall | exact Hcomplete].
  - cbn [collect_labels] in Hc.
    replace (row + Z.of_nat (S n))%Z with (row + 1 + Z.of_nat n)%Z by lia.
    assert (Hkeep :
              (row = 1%Z \/ cell_value insheet row col = PyNone \/
               exists s, cell_value insheet row col = PyStr s /\
                         str_contains "/60" s = true) ->
              collect_labels insheet col n (row + 1) acc = Ok labels ->
              label_rows_ordered 1 labels /\
              Forall (fun p => (2 <= index p < row + 1 + Z.of_nat n)%Z /\
                               cell_value insheet (index p) col = PyStr (label p) /\
                               str_contains "/60" (label p) = false) labels /\
              (forall (r : Z) (s : string),
                  (2 <= r < row + 1 + Z.of_nat n)%Z ->
                  cell_value insheet r col = PyStr s ->
                  str_contains "/60" s = false ->
                  In (mkLabelIndexPair s r) labels)).
    { intros Hskip Hc'. apply (IH (row + 1)%Z acc labels); try assumption.
      - lia.
      - eapply Forall_impl; [|exact Hall]. simpl. intros p (H1 & H2 & H3).
        repeat split; try lia; assumption.
      - intros r s Hr Hcell Hno.
        destruct (Z.eq_dec r row) as [->|Hne]; [|apply Hcomplete; try lia; assumption].
        exfalso. destruct Hskip as [H1 | [H1 | (s' & H1 & H2)]].
        + lia.
        + congruence.
        + rewrite Hcell in H1. inversion H1; subst. congruence. }
    destruct (row =? 1)%Z eqn:Hrow1; simpl in Hc.
    + apply Z.eqb_eq in Hrow1. apply Hkeep; [left; exact Hrow1 | exact Hc].
    + apply Z.eqb_neq in Hrow1.
      destruct (cell_value insheet row col) as [|z|q|s|b] eqn:Hcell;
        try discriminate.
      * apply Hkeep; [right; left; reflexivity | exact Hc].
      * destruct (str_contains "/60" s) eqn:Hs; simpl in Hc.
        -- apply Hkeep; [right; right; exists s; split; [reflexivity | exact Hs]
                        | exact Hc].
        -- apply (IH (row + 1)%Z (acc ++ [mkLabelIndexPair s row]) labels);
             try assumption.
           ++ lia.
           ++ apply label_rows_ordered_app; [exact Hord | | simpl; lia].
              eapply Forall_impl; [|exact Hall]. simpl. intros p (H1 & _). lia.
           ++ apply Forall_app. split.
              ** eapply Forall_impl; [|exact Hall]. simpl.
                 intros p (H1 & H2 & H3). repeat split; try lia; assumption.
              ** constructor; [|constructor]. simpl.
                 repeat split; try lia; assumption.
           ++ intros r s' Hr Hcell' Hno. apply in_or_app.
              destruct (Z.eq_dec r row) as [->|Hne].
              ** right. left. rewrite Hcell in Hcell'. inversion Hcell'.
                 reflexivity.
              ** left. apply Hcomplete; try lia; assumption.
Qed.

(** The loop that looks for the labels column: the last column whose
    header contains "Labels" wins. *)
Lemma labels_column_loop_inv (insheet : Worksheet) (ncols : nat) :
  forall (col : Z) (acc r : option Z) (out out' : list output),
    labels_column_loop insheet ncols col acc out = Ok (r, out') ->
    match r with
    | Some c =>
        (acc = Some c /\
         forall c', (col <= c' < col + Z.of_nat ncols)%Z ->
                    header_lacks "Labels" insheet c') \/
        ((col <= c < col + Z.of_nat ncols)%Z /\
         header_has "Labels" insheet c /\
         forall c', (c < c' < col + Z.of_nat ncols)%Z ->
                    header_lacks "Labels" insheet c')
    | None =>
        acc = None /\
        forall c', (col <= c' < col + Z.of_nat ncols)%Z ->
                   header_lacks "Labels" insheet c'
    end.
Proof.
  induction ncols as [|n IH]; intros col acc r out out' Hloop.
  - simpl in Hloop. unfold ret in Hloop. inversion Hloop; subst.
    destruct r; [left|]; (split; [reflexivity | intros c' Hc'; lia]).
  - cbn [labels_column_loop] in Hloop.
    fold (header insheet col) in Hloop.
    assert (Hnext :
              forall acc1 out1,
                labels_column_loop insheet n (col + 1) acc1 out1 = Ok (r, out') ->
                (acc1 = acc /\ header_lacks "Labels" insheet col) \/
                (acc1 = Some col /\ header_has "Labels" insheet col) ->
                match r with
                | Some c =>
                    (acc = Some c /\
                     forall c', (col <= c' < col + Z.of_nat (S n))%Z ->
                                header_lacks "Labels" insheet c') \/
                    ((col <= c < col + Z.of_nat (S n))%Z /\
                     header_has "Labels" insheet c /\
                     forall c', (c < c' < col + Z.of_nat (S n))%Z ->
                                header_lacks "Labels" insheet c')
                | None =>
                    acc = None /\
                    forall c', (col <= c' < col + Z.of_nat (S n))%Z ->
                               header_lacks "Labels" insheet c'
                end).
    { intros acc1 out1 Hl Hcase. specialize (IH _ _ _ _ _ Hl).
      destruct r as [c|].
      - destruct IH as [[Hacc Hlack] | (Hr & Hhas & Hlack)].
        + destruct Hcase as [[-> Hl0] | [-> Hh0]].
          * left. split; [exact Hacc|]. intros c' Hc'.
            destruct (Z.eq_dec c' col) as [->|]; [exact Hl0 | apply Hlack; lia].
          * inversion Hacc; subst c. right.
            split; [lia|]. split; [exact Hh0|].
            intros c' Hc'. apply Hlack. lia.
        + right. split; [lia|]. split; [exact Hhas|].
          intros c' Hc'. apply Hlack. lia.
      - destruct IH as [Hacc Hlack].
        destruct Hcase as [[-> Hl0] | [-> Hh0]]; [|discriminate].
        split; [exact Hacc|]. intros c' Hc'.
        destruct (Z.eq_dec c' col) as [->|]; [exact Hl0 | apply Hlack; lia]. }
    destruct (header insheet col) as [|z|q|s|b] eqn:Hh;
      try (unfold_m; simpl in Hloop; discriminate).
    + apply (Hnext _ _ Hloop). left. split; [reflexivity|]. left. exact Hh.
    + unfold bind at 1 in Hloop. unfold lift in Hloop. simpl in Hloop.
      destruct (str_contains "Labels" s) eqn:Hs.
      * unfold bind at 1 in Hloop.
        destruct acc as [a|]; unfold print, ret in Hloop;
          apply (Hnext _ _ Hloop); right;
          (split; [reflexivity|]); unfold header_has; rewrite Hh; simpl;
          rewrite Hs; reflexivity.
      * apply (Hnext _ _ Hloop). left. split; [reflexivity|].
        right. rewrite Hh. simpl. rewrite Hs. reflexivity.
Qed.

(** The labels [search_for_treatment_labels] returns: found in the last
    column headed "Labels", on rows that go down the sheet from row 2 on,
    each the text of its cell. *)
Lemma search_for_treatment_labels_inv (insheet : Worksheet)
  (out out' : list output) (labels : list LabelIndexPair) :
  search_for_treatment_labels insheet out = Ok (labels, out') ->
  exists col : Z,
    (1 <= col <= max_column insheet)%Z /\
    header_has "Labels" insheet col /\
    (forall c, (col < c <= max_column insheet)%Z ->
               header_lacks "Labels" insheet c) /\
    label_rows_ordered 1 labels /\
    Forall (label_of_sheet insheet col) labels /\
    (forall (r : Z) (s : string),
        (2 <= r <= max_row insheet)%Z ->
        cell_value insheet r col = PyStr s ->
        str_contains "/60" s = false -> In (mkLabelIndexPair s r) labels).
Proof.
  unfold search_for_treatment_labels. unfold bind at 1. intro H.
  destruct (labels_column_loop insheet (Z.to_nat (max_column insheet)) 1 None out)
    as [[r o1]|] eqn:Hcol; [|discriminate].
  apply labels_column_loop_inv in Hcol.
  destruct r as [col|]; [|unfold_m; discriminate].
  destruct Hcol as [[Hacc _] | (Hr & Hhas & Hlack)]; [discriminate|].
  unfold lift in H.
  destruct (collect_labels insheet col (Z.to_nat (max_row insheet)) 1 [])
    as [l|] eqn:Hl; [|discriminate].
  inversion H; subst l o1.
  destruct (collect_labels_inv insheet col _ 1 [] labels ltac:(lia) Hl I
              (Forall_nil _) ltac:(intros; lia)) as (Hord & Hall & Hcomplete).
  exists col. split; [lia|]. split; [exact Hhas|].
  split; [intros c Hc; apply Hlack; lia|].
  split; [exact Hord|]. split.
  - eapply Forall_impl; [|exact Hall]. intros p (H1 & H2 & H3).
    unfold label_of_sheet. repeat split; try lia; assumption.
  - intros r s Hr' Hcell Hno. apply (Hcomplete r s); try assumption. lia.
Qed.

(** X14.  The labels [search_for_treatment_labels] returns are exactly the
    text cells without "/60" of the last column headed "Labels", on rows 2
    to the sheet's last row, listed from top to bottom: the rows of the
    list increase strictly. *)
Theorem search_for_treatment_labels_found :
  forall (insheet : Worksheet) (out out' : list output)
    (labels : list LabelIndexPair),
    search_for_treatment_labels insheet out = Ok (labels, out') ->
    exists col : Z,
      (1 <= col <= max_column insheet)%Z /\
      header_has "Labels" insheet col /\
      (forall c, (col < c <= max_column insheet)%Z ->
                 header_lacks "Labels" insheet c) /\
      label_rows_ordered 1 labels /\
      (forall p : LabelIndexPair,
          In p labels <->
          (2 <= index p <= max_row insheet)%Z /\
          cell_value insheet (index p) col = PyStr (label p) /\
          str_contains "/60" (label p) = false).
Proof.
  intros insheet out out' labels H.
  destruct (search_for_treatment_labels_inv insheet out out' labels H)
    as (col & Hcol & Hhas & Hlast & Hord & Hall & Hcomplete).
  exists col. split; [exact Hcol|]. split; [exact Hhas|].
  split; [exact Hlast|]. split; [exact Hord|].
  intro p. split.
  - intro Hin. rewrite Forall_forall in Hall. exact (Hall p Hin).
  - intros (Hr & Hcell & Hno). destruct p as [s r]. simpl in *.
    apply Hcomplete; assumption.
Qed.

Lemma search_for_treatment_labels_found_witness :
  exists col : Z,
    (1 <= col <= max_column sheet_two_regions)%Z /\
    header_has "Labels" sheet_two_regions col /\
    (forall c, (col < c <= max_column sheet_two_regions)%Z ->
               header_lacks "Labels" sheet_two_regions c) /\
    label_rows_ordered 1
      [mkLabelIndexPair "STD" 2; mkLabelIndexPair "CCK" 4;
       mkLabelIndexPair "Standard Bath" 6] /\
    (forall p : LabelIndexPair,
        In p [mkLabelIndexPair "STD" 2; mkLabelIndexPair "CCK" 4;
              mkLabelIndexPair "Standard Bath" 6] <->
        (2 <= index p <= max_row sheet_two_regions)%Z /\
        cell_value sheet_two_regions (index p) col = PyStr (label p) /\
        str_contains "/60" (label p) = false).
Proof.
  apply (search_for_treatment_labels_found sheet_two_regions [] []).
  vm_compute. reflexivity.
Defined.

(** X15.  When no header contains "Labels" (every header is empty or is
    text without it), [search_for_treatment_labels] exits. *)
Theorem search_for_treatment_labels_no_column :
  forall (insheet : Worksheet) (out : list output),
    (forall c, (1 <= c <= max_column insheet)%Z ->
               header_lacks "Labels" insheet c) ->
    search_for_treatment_labels insheet out = Raise SystemExit.
Proof.
  intros insheet out Hlack.
  unfold search_for_treatment_labels. unfold bind at 1.
  assert (Hloop : forall (n : nat) (col : Z) (o : list output),
             (1 <= col)%Z ->
             (n = O \/ col + Z.of_nat n <= max_column insheet + 1)%Z ->
             labels_column_loop insheet n col None o = Ok (None, o)).
  { induction n as [|n IH]; intros col o Hcol Hend; [reflexivity|].
    cbn [labels_column_loop]. fold (header insheet col).
    destruct (Hlack col ltac:(lia)) as [Hh | Hh].
    - rewrite Hh. apply IH; lia.
    - destruct (header insheet col) as [|z|q|s|b] eqn:Hh';
        try (simpl in Hh; discriminate).
      unfold bind at 1. unfold lift at 1. rewrite Hh. apply IH; lia. }
  rewrite Hloop by lia. reflexivity.
Qed.

Lemma search_for_treatment_labels_no_column_witness :
  search_for_treatment_labels
    (sheet_of_rows [[PyStr "Time (sec)"; PyStr "Ratio 1"]; [PyInt 0; PyInt 1]])
    [] = Raise SystemExit.
Proof.
  apply search_for_treatment_labels_no_column.
  intros c Hc. change (1 <= c <= 2)%Z in Hc.
  assert (Hcases : c = 1%Z \/ c = 2%Z) by lia.
  destruct Hcases as [-> | ->]; right; reflexivity.
Defined.

(** ** The walk over the labels, segment by segment *)

Section WalkMore.

Variable insheet : Worksheet.
Variable time_column_idx : option Z.
Variable region : Z.

(** The rows are read by their number: [k] and [start] count only through
    their sum. *)
Lemma collect_rows_from (n : nat) :
  forall k start : Z,
    collect_rows insheet time_column_idx region n k start =
    collect_rows insheet time_column_idx region n 0 (k + start).
Proof.
  induction n as [|n IH]; intros k start; [reflexivity|].
  cbn [collect_rows]. rewrite (IH (k + 1)%Z start), (IH (0 + 1)%Z (k + start)%Z).
  replace (0 + (k + start))%Z with (k + start)%Z by lia.
  replace (0 + 1 + (k + start))%Z with (k + 1 + start)%Z by lia.
  reflexivity.
Qed.

(** Two runs of rows that follow each other make one run. *)
Lemma collect_rows_app (n : nat) :
  forall (m : nat) (start : Z) (ss1 ss2 : list TimeValuePair)
    (ds1 ds2 : list output),
    collect_rows insheet time_column_idx region n 0 start = Ok (ss1, ds1) ->
    collect_rows insheet time_column_idx region m 0 (start + Z.of_nat n)
      = Ok (ss2, ds2) ->
    collect_rows insheet time_column_idx region (n + m) 0 start
      = Ok (ss1 ++ ss2, ds1 ++ ds2).
Proof.
  induction n as [|n IH]; intros m start ss1 ss2 ds1 ds2 H1 H2.
  - simpl in H1. inversion H1; subst. simpl. rewrite Z.add_0_r in H2. exact H2.
  - cbn [collect_rows] in H1. unfold rbind in H1.
    change (S n + m)%nat with (S (n + m)). cbn [collect_rows]. unfold rbind.
    destruct (row_sample insheet time_column_idx region (0 + start))
      as [r|]; [|discriminate].
    rewrite collect_rows_from in H1. rewrite collect_rows_from.
    destruct (collect_rows insheet time_column_idx region n 0 (0 + 1 + start))
      as [[ss ds]|] eqn:Hn; [|discriminate].
    inversion H1; subst ss1 ds1. simpl fst in *. simpl snd in *.
    rewrite (IH m (0 + 1 + start)%Z ss ss2 ds ds2 Hn).
    + simpl. rewrite <- app_assoc. reflexivity.
    + rewrite <- H2. f_equal. lia.
Qed.

(** The rows after the first. *)
Lemma collect_rows_tail (n : nat) (start : Z) (ss : list TimeValuePair)
  (ds : list output) :
  collect_rows insheet time_column_idx region (S n) 0 start = Ok (ss, ds) ->
  exists ds', collect_rows insheet time_column_idx region n 0 (start + 1)
              = Ok (tl ss, ds').
Proof.
  cbn [collect_rows]. unfold rbind. intro H.
  destruct (row_sample insheet time_column_idx region (0 + start))
    as [r|]; [|discriminate].
  rewrite collect_rows_from in H.
  replace (0 + 1 + start)%Z with (start + 1)%Z in H by lia.
  destruct (collect_rows insheet time_column_idx region n 0 (start + 1))
    as [[ss' ds']|]; [|discriminate].
  inversion H; subst. exists ds'. reflexivity.
Qed.

Variable treatment_labels : list label_entry.

(** What a successful [build_segment] has done: the label is an object,
    the segment is of the label's kind and name, and its samples are
    those of the rows from the label's row to the row before the next
    label (or to the sheet's last row); a treatment is not the first label
    and has a label after it. *)
Lemma build_segment_ok (j : nat) (e : label_entry)
  (segments : list segment) (out out' : list output) (seg : segment) :
  build_segment insheet time_column_idx region treatment_labels j e
    segments out = Ok (seg, out') ->
  exists p : LabelIndexPair,
    e = LabelObject p /\
    segment_matches e seg /\
    (exists (end_ : Z) (ds : list output),
        int_of_index (index_or_end insheet treatment_labels (j + 1)) = Ok end_ /\
        collect_rows insheet time_column_idx region
          (Z.to_nat (end_ - index p)) 0 (index p)
          = Ok (segment_samples seg, ds)) /\
    (is_valid_treatment (label p) = true ->
     (0 < j)%nat /\
     exists next, nth_error treatment_labels (j + 1) = Some (LabelObject next)).
Proof.
  unfold build_segment. unfold_m. intro H.
  destruct e as [p|s i]; [|discriminate]. cbn [attr_label attr_index] in H.
  exists p. split; [reflexivity|].
  unfold append_values in H. unfold_m.
  destruct (is_valid_treatment (label p)) eqn:Hvalid.
  - destruct (int_of_index (index_or_end insheet treatment_labels (j + 1)))
      as [end_|] eqn:Hend; [|discriminate].
    cbn [int_of_index] in H. rewrite append_values_loop_rows in H.
    destruct (collect_rows insheet time_column_idx region
                (Z.to_nat (end_ - index p)) 0 (index p))
      as [[ss ds]|] eqn:Hrows; [|discriminate].
    destruct (0 <? j)%nat eqn:Hj; [|discriminate]. apply Nat.ltb_lt in Hj.
    destruct (nth_error treatment_labels (j + 1)) as [[next|s i]|] eqn:Hnext;
      try discriminate.
    cbn [attr_label] in H.
    assert (Hseg : exists a, seg = Treatment (mkTreatmentData (label p)
                                 (prior_std_data segments) ([] ++ ss) a)).
    { destruct (negb (is_valid_treatment (label next))).
      - destruct (int_of_index (index_or_end insheet treatment_labels (j + 2)))
          as [e2|]; [|discriminate].
        rewrite append_values_loop_rows in H.
        destruct (collect_rows insheet time_column_idx region
                    (Z.to_nat (e2 - (end_ + 1))) 0 (end_ + 1))
          as [[ss2 ds2]|]; [|discriminate].
        inversion H. eexists. reflexivity.
      - inversion H. eexists. reflexivity. }
    destruct Hseg as [a ->]. simpl.
    split; [split; [exact Hvalid | reflexivity]|].
    split; [exists end_, ds; split; [reflexivity | exact Hrows]|].
    intros _. split; [exact Hj|]. exists next. reflexivity.
  - destruct (int_of_index (index_or_end insheet treatment_labels (j + 1)))
      as [end_|] eqn:Hend; [|discriminate].
    cbn [int_of_index] in H. rewrite append_values_loop_rows in H.
    destruct (collect_rows insheet time_column_idx region
                (Z.to_nat (end_ - index p)) 0 (index p))
      as [[ss ds]|] eqn:Hrows; [|discriminate].
    inversion H; subst. simpl.
    split; [exact Hvalid|].
    split; [exists end_, ds; split; [reflexivity | exact Hrows]|].
    intro Hc. discriminate.
Qed.

(** A successful walk appends one segment per label, each built by
    [build_segment] at its position from the segments before it. *)
Lemma walk_labels_ok (todo : list label_entry) :
  forall (j : nat) (segments segments' : list segment)
    (out out' : list output),
    walk_labels insheet time_column_idx region treatment_labels todo j
      segments out = Ok (segments', out') ->
    exists new : list segment,
      segments' = segments ++ new /\
      List.length new = List.length todo /\
      forall (i : nat) (e : label_entry),
        nth_error todo i = Some e ->
        exists (seg : segment) (o o' : list output),
          nth_error new i = Some seg /\
          build_segment insheet time_column_idx region treatment_labels
            (j + i) e (segments ++ firstn i new) o = Ok (seg, o').
Proof.
  induction todo as [|e rest IH]; intros j segments segments' out out' H.
  - simpl in H. unfold ret in H. inversion H; subst.
    exists []. rewrite app_nil_r. split; [reflexivity|].
    split; [reflexivity|]. intros i e Hi. destruct i; discriminate.
  - cbn [walk_labels] in H. unfold bind in H.
    destruct (build_segment insheet time_column_idx region treatment_labels
                j e segments out) as [[seg o1]|] eqn:Hseg; [|discriminate].
    destruct (IH _ _ _ _ _ H) as (new & Heq & Hlen & Hnth).
    exists (seg :: new). rewrite Heq, <- app_assoc. split; [reflexivity|].
    split; [simpl; rewrite Hlen; reflexivity|].
    intros [|i] e' Hi.
    + simpl in Hi. inversion Hi; subst e'.
      exists seg, out, o1. split; [reflexivity|].
      rewrite Nat.add_0_r. simpl. rewrite app_nil_r. exact Hseg.
    + simpl in Hi. destruct (Hnth i e' Hi) as (seg' & o & o' & Hn & Hb).
      exists seg', o, o'. split; [exact Hn|].
      replace (j + S i)%nat with (S j + i)%nat by lia.
      simpl firstn. rewrite <- app_assoc in Hb. exact Hb.
Qed.

End WalkMore.

(** ** The regions and the dictionary *)

Lemma dict_set_keys (k : string) (v : list segment) (d : ratio_dict) :
  (In k (map fst d) -> map fst (dict_set k v d) = map fst d) /\
  (~ In k (map fst d) -> map fst (dict_set k v d) = map fst d ++ [k]).
Proof.
  induction d as [|[k' v'] d [IH1 IH2]]; simpl.
  - split; [intros [] | reflexivity].
  - destruct (String.eqb_spec k k') as [->|Hne]; simpl.
    + split; [reflexivity|]. intro H. exfalso. apply H. left. reflexivity.
    + split.
      * intros [Heq|Hin]; [congruence|]. rewrite IH1 by exact Hin. reflexivity.
      * intro H. rewrite IH2; [reflexivity|]. intro Hin. apply H. right.
        exact Hin.
Qed.

Lemma dict_set_nodup (k : string) (v : list segment) (d : ratio_dict) :
  NoDup (map fst d) -> NoDup (map fst (dict_set k v d)).
Proof.
  intro Hnd. destruct (in_dec string_dec k (map fst d)) as [Hin|Hnin].
  - rewrite (proj1 (dict_set_keys k v d) Hin). exact Hnd.
  - rewrite (proj2 (dict_set_keys k v d) Hnin).
    apply NoDup_app; [exact Hnd | constructor; [intros [] | constructor] |].
    intros x Hx [<-|[]]. contradiction.
Qed.

Lemma dict_set_in (k : string) (v : list segment) (d : ratio_dict) :
  NoDup (map fst d) ->
  forall kv, In kv (dict_set k v d) ->
             kv = (k, v) \/ (fst kv <> k /\ In kv d).
Proof.
  induction d as [|[k' v'] d IH]; intros Hnd kv Hin; simpl in Hin.
  - destruct Hin as [<-|[]]. left. reflexivity.
  - simpl in Hnd. inversion Hnd as [|? ? Hnotin Hnd']; subst.
    destruct (String.eqb_spec k k') as [->|Hne].
    + destruct Hin as [<-|Hin]; [left; reflexivity|].
      right. split; [|right; exact Hin].
      intro Heq. apply Hnotin. rewrite <- Heq. apply in_map. exact Hin.
    + destruct Hin as [<-|Hin].
      * right. split; [simpl; congruence | left; reflexivity].
      * destruct (IH Hnd' kv Hin) as [->|[Hk Hin']];
          [left; reflexivity | right; split; [exact Hk | right; exact Hin']].
Qed.

Lemma dict_set_key_in (k : string) (v : list segment) (d : ratio_dict) :
  In k (map fst (dict_set k v d)) /\
  forall k', In k' (map fst d) -> In k' (map fst (dict_set k v d)).
Proof.
  destruct (in_dec string_dec k (map fst d)) as [Hin|Hnin].
  - rewrite (proj1 (dict_set_keys k v d) Hin). split; [exact Hin | trivial].
  - rewrite (proj2 (dict_set_keys k v d) Hnin). split.
    + apply in_or_app. right. left. reflexivity.
    + intros k' Hk'. apply in_or_app. left. exact Hk'.
Qed.

Section RegionsMore.

Variable insheet : Worksheet.
Variable run_label : string.
Variable start_of_data_row : Z.
Variable time_column_idx : option Z.
Variable start_region_idx : Z.

(** A region is segmented only when no label is put in front of the
    list: the labels come back as they were, the first of them on or
    before the first data row. *)
Lemma segment_region_ok (region : Z) (labels labels' : list label_entry)
  (out out' : list output) (region_label : string) (segments : list segment) :
  segment_region insheet run_label start_of_data_row time_column_idx
    start_region_idx region labels out
    = Ok (region_label, segments, labels', out') ->
  labels' = labels /\
  region_label_of insheet run_label start_region_idx region = Ok region_label /\
  walk_labels insheet time_column_idx region labels labels 0 [] out
    = Ok (segments, out') /\
  exists (p : LabelIndexPair) (rest : list label_entry),
    labels = LabelObject p :: rest /\ (index p <= start_of_data_row)%Z.
Proof.
  unfold segment_region, region_label_of. unfold_m. intro H.
  destruct (sheet_cell insheet 1 (Some region)) as [old|]; [|discriminate].
  destruct (generate_region_label old (region - start_region_idx) run_label)
    as [lbl|]; [|discriminate].
  destruct labels as [|[p|s i] rest]; try discriminate.
  cbn [insert_leading_std attr_index int_of_index rbind] in H.
  destruct (start_of_data_row <? index p)%Z eqn:Hlt.
  - (* the tuple is put in front: the walk raises *)
    cbn [walk_labels] in H. unfold bind in H.
    rewrite build_segment_tuple in H. discriminate.
  - apply Z.ltb_ge in Hlt.
    destruct (walk_labels insheet time_column_idx region
                (LabelObject p :: rest) (LabelObject p :: rest) 0 [] out)
      as [[segs o]|] eqn:Hwalk; [|discriminate].
    inversion H; subst.
    split; [reflexivity|]. split; [reflexivity|]. split; [reflexivity|].
    exists p, rest. split; [reflexivity | exact Hlt].
Qed.

Lemma region_entry_extend (labels : list label_entry) (lo hi : Z)
  (k : string) (kv : string * list segment) :
  region_label_of insheet run_label start_region_idx hi = Ok k ->
  fst kv <> k ->
  region_entry insheet run_label time_column_idx start_region_idx labels
    lo hi kv ->
  region_entry insheet run_label time_column_idx start_region_idx labels
    lo (hi + 1) kv.
Proof.
  intros Hk Hne (reg & o & o' & Hr & Hlbl & Hwalk & Hlater).
  exists reg, o, o'. split; [lia|]. split; [exact Hlbl|].
  split; [exact Hwalk|].
  intros reg' Hreg'. destruct (Z.eq_dec reg' hi) as [->|Hneq].
  - rewrite Hk. intro Heq. inversion Heq. congruence.
  - apply Hlater. lia.
Qed.

(** The loop over the regions keeps the labels and the dictionary's
    invariant. *)
Lemma regions_loop_ok (n : nat) :
  forall (lo region : Z) (ratio_data ratio_data' : ratio_dict)
    (labels labels' : list label_entry) (out out' : list output),
    regions_loop insheet run_label start_of_data_row time_column_idx
      start_region_idx n region ratio_data labels out
      = Ok (ratio_data', labels', out') ->
    (lo <= region)%Z ->
    dict_inv insheet run_label time_column_idx start_region_idx labels
      lo region ratio_data ->
    labels' = labels /\
    dict_inv insheet run_label time_column_idx start_region_idx labels
      lo (region + Z.of_nat n) ratio_data' /\
    ((0 < n)%nat ->
     exists (p : LabelIndexPair) (rest : list label_entry),
       labels = LabelObject p :: rest /\ (index p <= start_of_data_row)%Z).
Proof.
  induction n as [|n IH];
    intros lo region rd rd' labels labels' out out' Hloop Hlo Hinv.
  - simpl in Hloop. unfold ret in Hloop. inversion Hloop; subst.
    rewrite Z.add_0_r. split; [reflexivity|]. split; [exact Hinv|]. lia.
  - cbn [regions_loop] in Hloop. unfold bind at 1 in Hloop.
    destruct (segment_region insheet run_label start_of_data_row
                time_column_idx start_region_idx region labels out)
      as [[[[region_label segments] labels1] o1]|] eqn:Hseg; [|discriminate].
    destruct (segment_region_ok _ _ _ _ _ _ _ Hseg)
      as (-> & Hlbl & Hwalk & Hfirst).
    destruct Hinv as (Hnd & Hall & Hkeys).
    assert (Hinv' : dict_inv insheet run_label time_column_idx
                      start_region_idx labels lo (region + 1)
                      (dict_set region_label segments rd)).
    { split; [apply dict_set_nodup; exact Hnd|]. split.
      - apply Forall_forall. intros kv Hin.
        destruct (dict_set_in _ _ _ Hnd kv Hin) as [-> | [Hne Hin']].
        + exists region, out, o1. split; [lia|]. split; [exact Hlbl|].
          split; [exact Hwalk|]. intros reg' Hreg'. exfalso. lia.
        + apply (region_entry_extend labels lo region region_label kv Hlbl Hne).
          rewrite Forall_forall in Hall. apply Hall. exact Hin'.
      - intros reg Hreg. destruct (Z.eq_dec reg region) as [->|Hne].
        + exists region_label. split; [exact Hlbl|].
          exact (proj1 (dict_set_key_in region_label segments rd)).
        + destruct (Hkeys reg ltac:(lia)) as (k & Hk & Hin).
          exists k. split; [exact Hk|].
          exact (proj2 (dict_set_key_in region_label segments rd) k Hin). }
    destruct (IH lo (region + 1)%Z _ _ _ _ _ _ Hloop ltac:(lia) Hinv')
      as (Hlabels & Hfinal & _).
    split; [exact Hlabels|]. split.
    + replace (region + Z.of_nat (S n))%Z with (region + 1 + Z.of_nat n)%Z
        by lia. exact Hfinal.
    + intros _. exact Hfirst.
Qed.

End RegionsMore.

(** What a successful [get_raw_data] has done. *)
Lemma get_raw_data_ok (insheet : Worksheet) (run_label : string)
  (out out' : list output) (ratio_data : ratio_dict)
  (labels : list label_entry) :
  get_raw_data insheet run_label out = Ok (ratio_data, labels, out') ->
  exists (tc : option Z) (sr er : Z) (found : list LabelIndexPair)
         (o1 : list output),
    search_for_data_bounds insheet = Ok (2%Z, tc, Some sr, er) /\
    search_for_treatment_labels insheet out = Ok (found, o1) /\
    labels = map LabelObject found /\
    dict_inv insheet run_label tc sr labels sr
      (sr + Z.of_nat (Z.to_nat (er + 1 - sr))) ratio_data /\
    ((0 < Z.to_nat (er + 1 - sr))%nat ->
     exists (p : LabelIndexPair) (rest : list LabelIndexPair),
       found = p :: rest /\ (index p <= 2)%Z).
Proof.
  unfold get_raw_data. unfold bind at 1. unfold lift at 1. intro H.
  destruct (search_for_data_bounds insheet) as [[[[start tc] sr] er]|] eqn:Hb;
    [|discriminate].
  destruct (search_for_data_bounds_inv insheet start tc sr er Hb) as [-> _].
  unfold bind at 1 in H.
  destruct (search_for_treatment_labels insheet out) as [[found o1]|] eqn:Hl;
    [|discriminate].
  destruct sr as [sr|]; [|discriminate].
  assert (Hinit : dict_inv insheet run_label tc sr (map LabelObject found)
                    sr sr []).
  { split; [constructor|]. split; [constructor|]. intros reg Hreg. lia. }
  destruct (regions_loop_ok insheet run_label 2 tc sr _ sr sr _ _ _ _ _ _
              H ltac:(lia) Hinit) as (-> & Hinv & Hfirst).
  exists tc, sr, er, found, o1.
  split; [reflexivity|]. split; [reflexivity|]. split; [reflexivity|].
  split; [exact Hinv|].
  intro Hn. destruct (Hfirst Hn) as (p & rest & Heq & Hidx).
  destruct found as [|q found']; [discriminate|].
  simpl in Heq. inversion Heq as [[Hq Hrest]].
  eexists _, _. split; [reflexivity | exact Hidx].
Qed.

(** ** What a successful [get_raw_data] returns *)

Lemma Forall2_of_nth {A B : Type} (R : A -> B -> Prop) (l1 : list A) :
  forall l2 : list B,
    List.length l2 = List.length l1 ->
    (forall i a, nth_error l1 i = Some a ->
                 exists b, nth_error l2 i = Some b /\ R a b) ->
    Forall2 R l1 l2.
Proof.
  induction l1 as [|a l1 IH]; intros l2 Hlen Hnth.
  - destruct l2; [constructor | discriminate].
  - destruct l2 as [|b l2]; [discriminate|].
    destruct (Hnth O a eq_refl) as (b' & Hb & HR). simpl in Hb.
    inversion Hb; subst b'.
    constructor; [exact HR|].
    apply IH; [simpl in Hlen; lia|].
    intros i a' Hi. apply (Hnth (S i) a' Hi).
Qed.

Lemma index_or_end_found (insheet : Worksheet) (found : list LabelIndexPair)
  (i : nat) :
  index_or_end insheet (map LabelObject found) (S i) =
  IndexInt (row_end insheet found i).
Proof.
  unfold index_or_end, row_end. rewrite nth_error_map.
  destruct (nth_error found (S i)); reflexivity.
Qed.

(** The segments of a region, label by label. *)
Lemma walk_found_segments (insheet : Worksheet) (tc : option Z) (reg : Z)
  (found : list LabelIndexPair) (segs : list segment) (o o' : list output) :
  walk_labels insheet tc reg (map LabelObject found) (map LabelObject found)
    0 [] o = Ok (segs, o') ->
  List.length segs = List.length found /\
  forall (i : nat) (p : LabelIndexPair),
    nth_error found i = Some p ->
    exists seg : segment,
      nth_error segs i = Some seg /\
      segment_matches (LabelObject p) seg /\
      (exists ds, collect_rows insheet tc reg
                    (Z.to_nat (row_end insheet found i - index p)) 0 (index p)
                  = Ok (segment_samples seg, ds)) /\
      (is_valid_treatment (label p) = true ->
       (0 < i)%nat /\ exists next, nth_error found (S i) = Some next) /\
      (forall t, seg = Treatment t ->
         exists next,
           nth_error found (S i) = Some next /\
           if is_valid_treatment (label next) then anterior_wash_data t = []
           else exists ds,
               collect_rows insheet tc reg
                 (Z.to_nat (row_end insheet found (S i) - (index next + 1))) 0
                 (index next + 1)
               = Ok (anterior_wash_data t, ds)).
Proof.
  intro Hwalk.
  destruct (walk_labels_ok insheet tc reg _ _ _ _ _ _ _ Hwalk)
    as (new & Heq & Hlen & Hnth).
  simpl in Heq. subst segs. rewrite length_map in Hlen.
  split; [exact Hlen|].
  intros i p Hi.
  assert (Hi' : nth_error (map LabelObject found) i = Some (LabelObject p))
    by (rewrite nth_error_map, Hi; reflexivity).
  destruct (Hnth i _ Hi') as (seg & o1 & o2 & Hn & Hb).
  simpl in Hb.
  exists seg. split; [exact Hn|].
  destruct (build_segment_ok _ _ _ _ _ _ _ _ _ _ Hb)
    as (p' & Hp' & Hmatch & (end_ & ds & Hend & Hrows) & Htreat).
  inversion Hp'; subst p'.
  replace (i + 1)%nat with (S i) in * by lia.
  rewrite index_or_end_found in Hend. simpl in Hend. inversion Hend; subst end_.
  split; [exact Hmatch|]. split; [exists ds; exact Hrows|]. split.
  - intro Hvalid. destruct (Htreat Hvalid) as (Hpos & next & Hnext).
    split; [exact Hpos|].
    rewrite nth_error_map in Hnext.
    destruct (nth_error found (S i)) as [q|]; [|discriminate].
    exists q. reflexivity.
  - intros t ->.
    destruct (build_segment_anterior _ _ _ _ _ _ _ _ _ _ Hb)
      as (next & Hnext & Hant).
    replace (i + 1)%nat with (S i) in Hnext by lia.
    rewrite nth_error_map in Hnext.
    destruct (nth_error found (S i)) as [q|] eqn:Hq; [|discriminate].
    simpl in Hnext. inversion Hnext; subst next.
    exists q. split; [reflexivity|].
    destruct (is_valid_treatment (label q)); [exact Hant|].
    destruct Hant as (anterior_end & ds' & Hae & Hrows').
    replace (i + 2)%nat with (S (S i)) in Hae by lia.
    rewrite index_or_end_found in Hae. simpl in Hae.
    inversion Hae; subst anterior_end.
    exists ds'. exact Hrows'.
Qed.

(** The labels [get_raw_data] returns and the walks that built the
    entries of its dictionary. *)
Lemma get_raw_data_walks (insheet : Worksheet) (run_label : string)
  (out out' : list output) (ratio_data : ratio_dict)
  (labels : list label_entry) :
  get_raw_data insheet run_label out = Ok (ratio_data, labels, out') ->
  exists (tc : option Z) (sr er : Z) (found : list LabelIndexPair)
         (o1 : list output),
    search_for_data_bounds insheet = Ok (2%Z, tc, Some sr, er) /\
    search_for_treatment_labels insheet out = Ok (found, o1) /\
    labels = map LabelObject found /\
    NoDup (map fst ratio_data) /\
    (forall reg, (sr <= reg <= er)%Z ->
       exists k, region_label_of insheet run_label sr reg = Ok k /\
                 In k (map fst ratio_data)) /\
    (ratio_data <> [] ->
     exists (p : LabelIndexPair) (rest : list LabelIndexPair),
       found = p :: rest /\ index p = 2%Z) /\
    Forall (fun kv =>
              exists (reg : Z) (o o' : list output),
                (sr <= reg <= er)%Z /\
                region_label_of insheet run_label sr reg = Ok (fst kv) /\
                walk_labels insheet tc reg (map LabelObject found)
                  (map LabelObject found) 0 [] o = Ok (snd kv, o') /\
                forall reg', (reg < reg' <= er)%Z ->
                  region_label_of insheet run_label sr reg' <> Ok (fst kv))
      ratio_data.
Proof.
  intro H.
  destruct (get_raw_data_ok insheet run_label out out' ratio_data labels H)
    as (tc & sr & er & found & o1 & Hb & Hl & -> & Hinv & Hfirst).
  exists tc, sr, er, found, o1.
  split; [exact Hb|]. split; [exact Hl|]. split; [reflexivity|].
  destruct Hinv as (Hnd & Hall & Hkeys).
  split; [exact Hnd|]. split; [intros reg Hreg; apply Hkeys; lia|].
  assert (Hentries :
            Forall (fun kv =>
              exists (reg : Z) (o o' : list output),
                (sr <= reg <= er)%Z /\
                region_label_of insheet run_label sr reg = Ok (fst kv) /\
                walk_labels insheet tc reg (map LabelObject found)
                  (map LabelObject found) 0 [] o = Ok (snd kv, o') /\
                forall reg', (reg < reg' <= er)%Z ->
                  region_label_of insheet run_label sr reg' <> Ok (fst kv))
              ratio_data).
  { eapply Forall_impl; [|exact Hall].
    intros kv (reg & o & o' & Hr & Hk & Hw & Hlater).
    exists reg, o, o'. split; [lia|]. split; [exact Hk|]. split; [exact Hw|].
    intros reg' Hreg'. apply Hlater. lia. }
  split; [|exact Hentries].
  intro Hne.
  destruct ratio_data as [|kv rd]; [contradiction|].
  inversion Hall as [|? ? (reg & _ & _ & Hr & _) _]; subst.
  destruct (Hfirst ltac:(lia)) as (p & rest & Heq & Hidx).
  exists p, rest. split; [exact Heq|].
  destruct (search_for_treatment_labels_inv insheet out o1 found Hl)
    as (col & _ & _ & _ & _ & Hsheet & _).
  rewrite Heq in Hsheet. inversion Hsheet as [|? ? (Hrow & _) _]; subst.
  lia.
Qed.

Lemma nth_error_last {A : Type} (l : list A) (d : A) :
  l <> [] -> nth_error l (List.length l - 1) = Some (last l d).
Proof.
  induction l as [|a l IH]; intro Hne; [contradiction|].
  destruct l as [|b l]; [reflexivity|].
  specialize (IH ltac:(discriminate)).
  simpl in IH. rewrite Nat.sub_0_r in IH. simpl. exact IH.
Qed.

(** X16.  Whenever [get_raw_data] returns at least one region, the labels
    it returns are the labels found in the sheet, unchanged (the entry
    ('STD', row) is never among them); the first label is on row 2 and is
    a bath marker, and the last label is a bath marker too: a sheet whose
    labels begin after row 2, begin with a treatment or end with a
    treatment is never segmented. *)
Theorem get_raw_data_accepted_labels :
  forall (insheet : Worksheet) (run_label : string) (out out' : list output)
    (ratio_data : ratio_dict) (labels : list label_entry),
    get_raw_data insheet run_label out = Ok (ratio_data, labels, out') ->
    ratio_data <> [] ->
    exists (found : list LabelIndexPair) (o1 : list output)
           (first : LabelIndexPair),
      search_for_treatment_labels insheet out = Ok (found, o1) /\
      labels = map LabelObject found /\
      hd_error found = Some first /\
      index first = 2%Z /\
      is_valid_treatment (label first) = false /\
      is_valid_treatment (label (last found first)) = false.
Proof.
  intros insheet run_label out out' rd labels H Hne.
  destruct (get_raw_data_walks insheet run_label out out' rd labels H)
    as (tc & sr & er & found & o1 & _ & Hl & Hlabels & _ & _ & Hfirst & Hall).
  destruct (Hfirst Hne) as (p & rest & Hfound & Hidx).
  exists found, o1, p.
  split; [exact Hl|]. split; [exact Hlabels|].
  split; [rewrite Hfound; reflexivity|]. split; [exact Hidx|].
  destruct rd as [|kv rd]; [contradiction|].
  inversion Hall as [|? ? (reg & o & o' & _ & _ & Hwalk & _) _]; subst.
  destruct (walk_found_segments insheet tc reg _ _ _ _ Hwalk) as [Hlen Hsegs].
  split.
  - destruct (Hsegs O p eq_refl) as (seg & _ & _ & _ & Htreat & _).
    destruct (is_valid_treatment (label p)); [|reflexivity].
    destruct (Htreat eq_refl) as [Hpos _]. lia.
  - pose proof (nth_error_last (p :: rest) p ltac:(discriminate)) as Hlast.
    destruct (Hsegs _ _ Hlast) as (seg & _ & _ & _ & Htreat & _).
    destruct (is_valid_treatment (label (last (p :: rest) p)));
      [|reflexivity].
    destruct (Htreat eq_refl) as [_ (next & Hnext)].
    replace (S (List.length (p :: rest) - 1)) with (List.length (p :: rest))
      in Hnext by (simpl; lia).
    assert (Hnone : nth_error (p :: rest) (List.length (p :: rest)) = None)
      by (apply nth_error_None; lia).
    congruence.
Qed.

Lemma two_regions_result :
  get_raw_data sheet_two_regions "A" [] =
    Ok (two_regions_data, two_regions_labels, []).
Proof. vm_compute. reflexivity. Qed.

Lemma get_raw_data_accepted_labels_witness :
  exists (found : list LabelIndexPair) (o1 : list output)
         (first : LabelIndexPair),
    search_for_treatment_labels sheet_two_regions [] = Ok (found, o1) /\
    two_regions_labels = map LabelObject found /\
    hd_error found = Some first /\
    index first = 2%Z /\
    is_valid_treatment (label first) = false /\
    is_valid_treatment (label (last found first)) = false.
Proof.
  apply (get_raw_data_accepted_labels sheet_two_regions "A" [] []
           two_regions_data two_regions_labels).
  - vm_compute. reflexivity.
  - discriminate.
Defined.

(** X17.  In every region [get_raw_data] returns there is exactly one
    segment per label, in the order of the labels: a treatment segment
    named after its label for a treatment label, a bath segment for
    "Standard Bath" and "STD". *)
Theorem get_raw_data_segments_match_labels :
  forall (insheet : Worksheet) (run_label : string) (out out' : list output)
    (ratio_data : ratio_dict) (labels : list label_entry),
    get_raw_data insheet run_label out = Ok (ratio_data, labels, out') ->
    Forall (fun kv => Forall2 segment_matches labels (snd kv)) ratio_data.
Proof.
  intros insheet run_label out out' rd labels H.
  destruct (get_raw_data_walks insheet run_label out out' rd labels H)
    as (tc & sr & er & found & o1 & _ & _ & -> & _ & _ & _ & Hall).
  eapply Forall_impl; [|exact Hall].
  intros kv (reg & o & o' & _ & _ & Hwalk & _).
  destruct (walk_found_segments insheet tc reg _ _ _ _ Hwalk) as [Hlen Hsegs].
  apply Forall2_of_nth; [rewrite length_map; exact Hlen|].
  intros i e Hi. rewrite nth_error_map in Hi.
  destruct (nth_error found i) as [p|] eqn:Hp; [|discriminate].
  simpl in Hi. inversion Hi; subst e.
  destruct (Hsegs i p Hp) as (seg & Hn & Hmatch & _).
  exists seg. split; [exact Hn | exact Hmatch].
Qed.

Lemma get_raw_data_segments_match_labels_witness :
  Forall (fun kv => Forall2 segment_matches two_regions_labels (snd kv))
    two_regions_data.
Proof.
  apply (get_raw_data_segments_match_labels sheet_two_regions "A" [] []).
  exact two_regions_result.
Defined.

(** The samples of the segments of consecutive labels are the rows from
    the first label's row to the sheet's last row. *)
Lemma segments_cover_rows (insheet : Worksheet) (tc : option Z) (reg : Z)
  (suffix : list LabelIndexPair) :
  forall (previous : Z) (segs : list segment),
    List.length segs = List.length suffix ->
    label_rows_ordered previous suffix ->
    Forall (fun p => (index p <= max_row insheet)%Z) suffix ->
    (forall (i : nat) (p : LabelIndexPair),
        nth_error suffix i = Some p ->
        exists seg ds,
          nth_error segs i = Some seg /\
          collect_rows insheet tc reg
            (Z.to_nat (row_end insheet suffix i - index p)) 0 (index p)
          = Ok (segment_samples seg, ds)) ->
    match suffix with
    | [] => segs = []
    | p :: _ =>
        exists ds,
          collect_rows insheet tc reg
            (Z.to_nat (max_row insheet + 1 - index p)) 0 (index p)
          = Ok (flatten_segments segs, ds)
    end.
Proof.
  induction suffix as [|p rest IH]; intros previous segs Hlen Hord Hmax Hsegs.
  - destruct segs; [reflexivity | discriminate].
  - destruct segs as [|seg segs]; [discriminate|].
    destruct (Hsegs O p eq_refl) as (seg' & ds & Hn & Hrows).
    simpl in Hn. inversion Hn; subst seg'.
    destruct Hord as [Hprev Hord].
    inversion Hmax as [|? ? Hp Hmax']; subst.
    assert (Hrest : forall (i : nat) (q : LabelIndexPair),
               nth_error rest i = Some q ->
               exists seg ds,
                 nth_error segs i = Some seg /\
                 collect_rows insheet tc reg
                   (Z.to_nat (row_end insheet rest i - index q)) 0 (index q)
                 = Ok (segment_samples seg, ds)).
    { intros i q Hi. apply (Hsegs (S i) q Hi). }
    specialize (IH (index p) segs ltac:(simpl in Hlen; lia) Hord Hmax' Hrest).
    unfold flatten_segments. simpl flat_map.
    destruct rest as [|q rest'].
    + subst segs. simpl. rewrite app_nil_r.
      unfold row_end in Hrows. simpl in Hrows. exists ds. exact Hrows.
    + destruct IH as (ds' & Hrows').
      destruct Hord as [Hpq _]. inversion Hmax' as [|? ? Hq _]; subst.
      unfold row_end in Hrows. simpl in Hrows.
      exists (ds ++ ds').
      replace (Z.to_nat (max_row insheet + 1 - index p))
        with (Z.to_nat (index q - index p)
              + Z.to_nat (max_row insheet + 1 - index q))%nat by lia.
      apply (collect_rows_app insheet tc reg _ _ _ _ _ _ _ Hrows).
      replace (index p + Z.of_nat (Z.to_nat (index q - index p)))%Z
        with (index q) by lia.
      exact Hrows'.
Qed.

(** X18.  Every entry of the dictionary [get_raw_data] returns holds the
    series of one region column, whole and in order: put end to end, the
    samples of its segments are one sample per data row, from row 2 to the
    sheet's last row, the sample at position [i] being the one made of row
    [2 + i].  The column is the last one, among the region columns, whose
    generated label is the entry's key. *)
Theorem get_raw_data_covers_rows :
  forall (insheet : Worksheet) (run_label : string) (out out' : list output)
    (ratio_data : ratio_dict) (labels : list label_entry),
    get_raw_data insheet run_label out = Ok (ratio_data, labels, out') ->
    exists (tc : option Z) (sr er : Z),
      search_for_data_bounds insheet = Ok (2%Z, tc, Some sr, er) /\
      Forall (fun kv =>
                exists reg : Z,
                  (sr <= reg <= er)%Z /\
                  region_label_of insheet run_label sr reg = Ok (fst kv) /\
                  (forall reg', (reg < reg' <= er)%Z ->
                     region_label_of insheet run_label sr reg'
                       <> Ok (fst kv)) /\
                  List.length (flatten_segments (snd kv))
                    = Z.to_nat (max_row insheet - 1) /\
                  forall i : nat,
                    (i < Z.to_nat (max_row insheet - 1))%nat ->
                    exists r,
                      row_sample insheet tc reg (2 + Z.of_nat i) = Ok r /\
                      nth_error (flatten_segments (snd kv)) i = Some (fst r))
        ratio_data.
Proof.
  intros insheet run_label out out' rd labels H.
  destruct (get_raw_data_walks insheet run_label out out' rd labels H)
    as (tc & sr & er & found & o1 & Hb & Hl & -> & _ & _ & Hfirst & Hall).
  exists tc, sr, er. split; [exact Hb|].
  destruct (search_for_treatment_labels_inv insheet out o1 found Hl)
    as (col & _ & _ & _ & Hord & Hsheet & _).
  apply Forall_forall. intros kv Hin.
  destruct (Hfirst ltac:(intro Hc; rewrite Hc in Hin; destruct Hin))
    as (p & rest & Hfound & Hidx).
  rewrite Forall_forall in Hall.
  destruct (Hall kv Hin) as (reg & o & o' & Hreg & Hk & Hwalk & Hlater).
  exists reg. split; [exact Hreg|]. split; [exact Hk|]. split; [exact Hlater|].
  destruct (walk_found_segments insheet tc reg _ _ _ _ Hwalk) as [Hlen Hsegs].
  assert (Hcover :
            exists ds,
              collect_rows insheet tc reg
                (Z.to_nat (max_row insheet + 1 - index p)) 0 (index p)
              = Ok (flatten_segments (snd kv), ds)).
  { subst found.
    apply (segments_cover_rows insheet tc reg (p :: rest) 1 (snd kv) Hlen Hord).
    - eapply Forall_impl; [|exact Hsheet]. intros q (Hq & _). lia.
    - intros i q Hi. destruct (Hsegs i q Hi) as (seg & Hn & _ & (ds & Hr) & _).
      exists seg, ds. split; [exact Hn | exact Hr]. }
  destruct Hcover as (ds & Hrows). rewrite Hidx in Hrows.
  replace (max_row insheet + 1 - 2)%Z with (max_row insheet - 1)%Z in Hrows
    by lia.
  destruct (collect_rows_aligned insheet tc reg _ _ _ _ _ Hrows) as [Hl' Hnth].
  split; [exact Hl'|].
  intros i Hi. destruct (Hnth i Hi) as (r & Hr & Hn).
  exists r. split; [|exact Hn].
  replace (2 + Z.of_nat i)%Z with (0 + 2 + Z.of_nat i)%Z by lia. exact Hr.
Qed.

Lemma get_raw_data_covers_rows_witness :
  exists (tc : option Z) (sr er : Z),
    search_for_data_bounds sheet_two_regions = Ok (2%Z, tc, Some sr, er) /\
    Forall (fun kv =>
              exists reg : Z,
                (sr <= reg <= er)%Z /\
                region_label_of sheet_two_regions "A" sr reg = Ok (fst kv) /\
                (forall reg', (reg < reg' <= er)%Z ->
                   region_label_of sheet_two_regions "A" sr reg'
                     <> Ok (fst kv)) /\
                List.length (flatten_segments (snd kv))
                  = Z.to_nat (max_row sheet_two_regions - 1) /\
                forall i : nat,
                  (i < Z.to_nat (max_row sheet_two_regions - 1))%nat ->
                  exists r,
                    row_sample sheet_two_regions tc reg (2 + Z.of_nat i)
                      = Ok r /\
                    nth_error (flatten_segments (snd kv)) i = Some (fst r))
      two_regions_data.
Proof.
  apply (get_raw_data_covers_rows sheet_two_regions "A" [] []
           two_regions_data two_regions_labels).
  exact two_regions_result.
Defined.

(** X19.  In every region [get_raw_data] returns, a treatment segment is
    followed by another segment.  When that segment is a bath, the
    treatment's anterior wash is the bath's samples without the first
    one; when it is a treatment, the anterior wash is empty. *)
Theorem get_raw_data_anterior_wash :
  forall (insheet : Worksheet) (run_label : string) (out out' : list output)
    (ratio_data : ratio_dict) (labels : list label_entry),
    get_raw_data insheet run_label out = Ok (ratio_data, labels, out') ->
    Forall (fun kv =>
              forall (i : nat) (t : TreatmentData),
                nth_error (snd kv) i = Some (Treatment t) ->
                exists next : segment,
                  nth_error (snd kv) (S i) = Some next /\
                  match next with
                  | Bath b => anterior_wash_data t = tl (std_bath_data b)
                  | Treatment _ => anterior_wash_data t = []
                  end)
      ratio_data.
Proof.
  intros insheet run_label out out' rd labels H.
  destruct (get_raw_data_walks insheet run_label out out' rd labels H)
    as (tc & sr & er & found & o1 & _ & _ & -> & _ & _ & _ & Hall).
  eapply Forall_impl; [|exact Hall].
  intros kv (reg & o & o' & _ & _ & Hwalk & _) i t Hi.
  destruct (walk_found_segments insheet tc reg _ _ _ _ Hwalk) as [Hlen Hsegs].
  assert (Hlt : (i < List.length found)%nat)
    by (rewrite <- Hlen; apply nth_error_Some; congruence).
  destruct (nth_error found i) as [p|] eqn:Hp;
    [|apply nth_error_None in Hp; lia].
  destruct (Hsegs i p Hp) as (seg & Hn & _ & _ & _ & Hant).
  rewrite Hi in Hn. inversion Hn; subst seg.
  destruct (Hant t eq_refl) as (q & Hq & Hcase).
  destruct (Hsegs (S i) q Hq) as (next & Hnext & Hmatch & (ds & Hrows) & _).
  exists next. split; [exact Hnext|].
  destruct next as [t'|b]; simpl in Hmatch.
  - destruct Hmatch as [Hvalid _]. rewrite Hvalid in Hcase. exact Hcase.
  - rewrite Hmatch in Hcase. destruct Hcase as (ds' & Hrows').
    simpl in Hrows.
    destruct (Z.to_nat (row_end insheet found (S i) - index q)) as [|n] eqn:Hn'.
    + replace (Z.to_nat (row_end insheet found (S i) - (index q + 1)))
        with O in Hrows' by lia.
      simpl in Hrows, Hrows'. inversion Hrows. inversion Hrows'. reflexivity.
    + replace (Z.to_nat (row_end insheet found (S i) - (index q + 1)))
        with n in Hrows' by lia.
      destruct (collect_rows_tail insheet tc reg n (index q) _ _ Hrows)
        as (ds2 & Htail).
      rewrite Htail in Hrows'. inversion Hrows'. reflexivity.
Qed.

Lemma get_raw_data_anterior_wash_witness :
  Forall (fun kv =>
            forall (i : nat) (t : TreatmentData),
              nth_error (snd kv) i = Some (Treatment t) ->
              exists next : segment,
                nth_error (snd kv) (S i) = Some next /\
                match next with
                | Bath b => anterior_wash_data t = tl (std_bath_data b)
                | Treatment _ => anterior_wash_data t = []
                end)
    two_regions_data.
Proof.
  apply (get_raw_data_anterior_wash sheet_two_regions "A" [] []
           two_regions_data two_regions_labels).
  exact two_regions_result.
Defined.

(** X20.  The keys of the dictionary [get_raw_data] returns are pairwise
    different and are exactly the labels generated for the region
    columns: two columns with the same generated label share one entry
    (which holds the later column's series). *)
Theorem get_raw_data_keys :
  forall (insheet : Worksheet) (run_label : string) (out out' : list output)
    (ratio_data : ratio_dict) (labels : list label_entry),
    get_raw_data insheet run_label out = Ok (ratio_data, labels, out') ->
    exists (tc : option Z) (sr er : Z),
      search_for_data_bounds insheet = Ok (2%Z, tc, Some sr, er) /\
      NoDup (map fst ratio_data) /\
      forall k : string,
        In k (map fst ratio_data) <->
        exists reg, (sr <= reg <= er)%Z /\
                    region_label_of insheet run_label sr reg = Ok k.
Proof.
  intros insheet run_label out out' rd labels H.
  destruct (get_raw_data_walks insheet run_label out out' rd labels H)
    as (tc & sr & er & found & o1 & Hb & _ & _ & Hnd & Hkeys & _ & Hall).
  exists tc, sr, er. split; [exact Hb|]. split; [exact Hnd|].
  intro k. split.
  - intro Hin. apply in_map_iff in Hin. destruct Hin as (kv & <- & Hin).
    rewrite Forall_forall in Hall.
    destruct (Hall kv Hin) as (reg & _ & _ & Hreg & Hk & _).
    exists reg. split; [exact Hreg | exact Hk].
  - intros (reg & Hreg & Hk).
    destruct (Hkeys reg Hreg) as (k' & Hk' & Hin).
    rewrite Hk in Hk'. inversion Hk'; subst. exact Hin.
Qed.

Lemma get_raw_data_keys_witness :
  exists (tc : option Z) (sr er : Z),
    search_for_data_bounds sheet_two_regions = Ok (2%Z, tc, Some sr, er) /\
    NoDup (map fst two_regions_data) /\
    forall k : string,
      In k (map fst two_regions_data) <->
      exists reg, (sr <= reg <= er)%Z /\
                  region_label_of sheet_two_regions "A" sr reg = Ok k.
Proof.
  apply (get_raw_data_keys sheet_two_regions "A" [] []
           two_regions_data two_regions_labels).
  exact two_regions_result.
Defined.

(** Two region columns headed "Ratio 1" and "Ratio": the second one, in
    position 1, is given the label of the first, and the dictionary holds
    one entry, with the second column's series. *)
Lemma region_labels_collide :
  exists (segments : list segment) (labels : list label_entry),
    get_raw_data
      (sheet_of_rows
         [ [PyStr "Time"; PyStr "Ratio 1"; PyStr "Ratio"; PyStr "Labels"];
           [PyInt 0; PyFloat 1; PyFloat 2; PyStr "STD"] ])
      "A" [] = Ok ([("A1"%string, segments)], labels, []) /\
    exists v : Q,
      flatten_segments segments = [mkTimeValuePair 0 v] /\
      ratio_to_calcium_concentration (PyFloat 2) = Ok (PyFloat v).
Proof.
  eexists. eexists. split; [vm_compute; reflexivity|].
  eexists. split; reflexivity.
Qed.

(** ** [append_values] *)

(** X21.  A successful [append_values] keeps what the list held and
    appends exactly one sample per row of the range, the sample at
    position [i] being the one made of row [start + i] whatever the other
    rows hold; what was printed before is kept, and one line at most is
    printed per row. *)
Theorem append_values_row_alignment :
  forall (insheet : Worksheet) (time_column_idx : option Z) (region : Z)
    (lst l : list TimeValuePair) (start end_ : Z) (out out' : list output),
    append_values insheet time_column_idx region lst
      (IndexInt start) (IndexInt end_) out = Ok (l, out') ->
    exists (ss : list TimeValuePair) (ds : list output),
      l = lst ++ ss /\ out' = out ++ ds /\
      List.length ss = Z.to_nat (end_ - start) /\
      (List.length ds <= List.length ss)%nat /\
      forall i : nat,
        (i < Z.to_nat (end_ - start))%nat ->
        exists r,
          row_sample insheet time_column_idx region (start + Z.of_nat i)
            = Ok r /\
          nth_error ss i = Some (fst r).
Proof.
  intros insheet tc region lst l start end_ out out' H.
  unfold append_values in H. unfold_m. simpl in H.
  rewrite append_values_loop_rows in H.
  destruct (collect_rows insheet tc region (Z.to_nat (end_ - start)) 0 start)
    as [[ss ds]|] eqn:Hrows; [|discriminate].
  inversion H; subst l out'.
  exists ss, ds. split; [reflexivity|]. split; [reflexivity|].
  destruct (collect_rows_aligned insheet tc region _ _ _ _ _ Hrows)
    as [Hlen Hnth].
  split; [exact Hlen|]. split.
  - rewrite Hlen. clear Hlen Hnth H.
    generalize dependent ds. generalize dependent ss.
    generalize 0%Z as k.
    induction (Z.to_nat (end_ - start)) as [|n IH]; intros k ss ds Hrows.
    + simpl in Hrows. inversion Hrows. simpl. lia.
    + cbn [collect_rows] in Hrows. unfold rbind in Hrows.
      destruct (row_sample insheet tc region (k + start)) as [r|] eqn:Hr;
        [|discriminate].
      destruct (collect_rows insheet tc region n (k + 1) start)
        as [[ss' ds']|] eqn:Hrs; [|discriminate].
      inversion Hrows; subst. rewrite length_app.
      specialize (IH _ _ _ Hrs).
      assert (Hone : (List.length (snd r) <= 1)%nat).
      { unfold row_sample, rbind in Hr.
        destruct (sheet_cell insheet (k + start) (Some region)); [|discriminate].
        destruct (ratio_to_calcium_concentration a); [|discriminate].
        destruct (sheet_cell insheet (k + start) tc); [|discriminate].
        destruct (is_int_or_float a0 && is_int_or_float a1);
          inversion Hr; simpl; lia. }
      lia.
  - intros i Hi. destruct (Hnth i Hi) as (r & Hr & Hn).
    exists r. split; [|exact Hn].
    replace (start + Z.of_nat i)%Z with (0 + start + Z.of_nat i)%Z by lia.
    exact Hr.
Qed.

Lemma append_values_row_alignment_witness :
  exists (ss : list TimeValuePair) (ds : list output),
    [mkTimeValuePair 0 0; mkTimeValuePair 0 0] = [] ++ ss /\
    [InvalidTimeRatio (PyInt 6) PyNone 3;
     InvalidTimeRatio (PyStr "late") (PyFloat (concentration_formula 1)) 4]
      = [] ++ ds /\
    List.length ss = Z.to_nat (5 - 3) /\
    (List.length ds <= List.length ss)%nat /\
    forall i : nat,
      (i < Z.to_nat (5 - 3))%nat ->
      exists r,
        row_sample sheet_empty_ratio (Some 1%Z) 2 (3 + Z.of_nat i) = Ok r /\
        nth_error ss i = Some (fst r).
Proof.
  apply (append_values_row_alignment sheet_empty_ratio (Some 1%Z) 2 []).
  vm_compute. reflexivity.
Defined.

(** ** A sheet without a time column *)

Lemma search_for_data_bounds_nonempty (insheet : Worksheet) (row : Z)
  (tc : option Z) (sr er : Z) :
  search_for_data_bounds insheet = Ok (row, tc, Some sr, er) ->
  (sr <= er)%Z.
Proof.
  intro H.
  destruct (search_for_data_bounds_inv insheet row tc (Some sr) er H)
    as (_ & e & Hinv & Her).
  destruct Hinv as (_ & (Hr & _) & He).
  destruct e as [e|]; subst er; [destruct He as (H1 & _); exact H1 | lia].
Qed.

Lemma row_sample_no_time_column (insheet : Worksheet) (region row : Z) :
  forall r, row_sample insheet None region row <> Ok r.
Proof.
  intros r H. unfold row_sample, rbind in H.
  destruct (sheet_cell insheet row (Some region)); [|discriminate].
  destruct (ratio_to_calcium_concentration a); [|discriminate].
  unfold sheet_cell in H. destruct (row <? 1)%Z; discriminate.
Qed.

(** X22.  When the sheet has region columns but no header containing
    "Time", [get_raw_data] never returns: nothing checks the missing
    column, and reading the time cell of the first row to collect
    raises. *)
Theorem get_raw_data_needs_time_column :
  forall (insheet : Worksheet) (run_label : string) (out : list output)
    (row sr er : Z),
    search_for_data_bounds insheet = Ok (row, None, Some sr, er) ->
    exists ex, get_raw_data insheet run_label out = Raise ex.
Proof.
  intros insheet run_label out row sr er Hb.
  destruct (get_raw_data insheet run_label out) as [[[rd labels] out']|ex] eqn:H;
    [|exists ex; reflexivity].
  exfalso.
  destruct (get_raw_data_walks insheet run_label out out' rd labels H)
    as (tc & sr' & er' & found & o1 & Hb' & Hl & _ & _ & Hkeys & Hfirst & Hall).
  rewrite Hb in Hb'. inversion Hb'; subst row tc sr' er'.
  pose proof (search_for_data_bounds_nonempty insheet 2 None sr er Hb) as Hne.
  destruct (Hkeys sr ltac:(lia)) as (k & _ & Hin).
  destruct rd as [|kv rd]; [destruct Hin|].
  destruct (Hfirst ltac:(discriminate)) as (p & rest & Hfound & Hidx).
  inversion Hall as [|? ? (reg & o & o' & _ & _ & Hwalk & _) _]; subst.
  destruct (walk_found_segments insheet None reg _ _ _ _ Hwalk) as [_ Hsegs].
  destruct (Hsegs O p eq_refl) as (seg & _ & _ & (ds & Hrows) & _).
  destruct (search_for_treatment_labels_inv insheet out o1 _ Hl)
    as (col & _ & _ & _ & Hord & Hsheet & _).
  assert (Hlen : (0 < Z.to_nat (row_end insheet (p :: rest) 0 - index p))%nat).
  { unfold row_end. simpl.
    inversion Hsheet as [|? ? (Hp & _) Hrest]; subst.
    destruct rest as [|q rest']; simpl.
    - lia.
    - destruct Hord as [_ [Hpq _]]. lia. }
  destruct (collect_rows_aligned insheet None reg _ _ _ _ _ Hrows) as [_ Hnth].
  destruct (Hnth O Hlen) as (r & Hr & _).
  exact (row_sample_no_time_column insheet reg _ r Hr).
Qed.

Lemma get_raw_data_needs_time_column_witness :
  exists ex, get_raw_data sheet_no_time "A" [] = Raise ex.
Proof.
  apply (get_raw_data_needs_time_column sheet_no_time "A" [] 2 2 2).
  vm_compute. reflexivity.
Defined.

(* ================================================================== *)
(** * The output sheet                                                 *)
(* ================================================================== *)

Lemma set_cell_spec (s s' : OutSheet) (row col : Z) (v : outval) :
  set_cell s row col v = Ok s' ->
  (1 <= row)%Z /\ (1 <= col)%Z /\
  s' row col = Some v /\
  forall r c, (r <> row \/ c <> col) -> s' r c = s r c.
Proof.
  unfold set_cell. intro H.
  destruct (row <? 1)%Z eqn:Hr; [discriminate|].
  destruct (col <? 1)%Z eqn:Hc; [discriminate|].
  simpl in H. inversion H; subst s'. clear H.
  apply Z.ltb_ge in Hr. apply Z.ltb_ge in Hc.
  split; [exact Hr|]. split; [exact Hc|]. split.
  - rewrite !Z.eqb_refl. reflexivity.
  - intros r c Hne.
    destruct (Z.eqb_spec r row) as [->|]; [|reflexivity].
    destruct (Z.eqb_spec c col) as [->|]; [|reflexivity].
    destruct Hne; contradiction.
Qed.

Lemma set_cell_ok (s : OutSheet) (row col : Z) (v : outval) :
  (1 <= row)%Z -> (1 <= col)%Z -> exists s', set_cell s row col v = Ok s'.
Proof.
  intros Hr Hc. unfold set_cell.
  apply Z.ltb_ge in Hr. apply Z.ltb_ge in Hc. rewrite Hr, Hc.
  eexists. reflexivity.
Qed.

(** A column written from a list: the other cells are left as they were,
    and a value is read back from its cell when no later value of the
    list goes to the same row. *)
Lemma write_enumerated_spec (row_of : Z -> Z) (col : Z) (vals : list outval) :
  forall (s s' : OutSheet) (i : Z),
    write_enumerated s row_of col vals i = Ok s' ->
    (forall r c, c <> col -> s' r c = s r c) /\
    (forall r,
        (forall n, (n < List.length vals)%nat -> row_of (i + Z.of_nat n)%Z <> r) ->
        s' r col = s r col) /\
    (forall n v,
        nth_error vals n = Some v ->
        (forall m, (n < m < List.length vals)%nat ->
                   row_of (i + Z.of_nat m)%Z <> row_of (i + Z.of_nat n)%Z) ->
        s' (row_of (i + Z.of_nat n)%Z) col = Some v).
Proof.
  induction vals as [|v0 rest IH]; intros s s' i H.
  - simpl in H. inversion H; subst.
    split; [reflexivity|]. split; [reflexivity|].
    intros n v Hn. destruct n; discriminate.
  - cbn [write_enumerated] in H. unfold rbind in H.
    destruct (set_cell s (row_of i) col v0) as [s1|] eqn:Hset; [|discriminate].
    destruct (set_cell_spec _ _ _ _ _ Hset) as (_ & _ & Hsame & Hother).
    destruct (IH s1 s' (i + 1)%Z H) as (Hcol & Hrow & Hread).
    split; [|split].
    + intros r c Hc. rewrite (Hcol r c Hc). apply Hother. right. exact Hc.
    + intros r Hr. rewrite Hrow.
      * apply Hother. left. specialize (Hr O ltac:(simpl; lia)).
        rewrite Z.add_0_r in Hr. congruence.
      * intros n Hn. specialize (Hr (S n) ltac:(simpl; lia)).
        replace (i + 1 + Z.of_nat n)%Z with (i + Z.of_nat (S n))%Z by lia.
        exact Hr.
    + intros [|n] v Hn Hlater.
      * simpl in Hn. inversion Hn; subst v. rewrite Z.add_0_r.
        rewrite Hrow; [exact Hsame|].
        intros n Hn'. specialize (Hlater (S n) ltac:(simpl; lia)).
        rewrite Z.add_0_r in Hlater.
        replace (i + 1 + Z.of_nat n)%Z with (i + Z.of_nat (S n))%Z by lia.
        exact Hlater.
      * simpl in Hn.
        replace (i + Z.of_nat (S n))%Z with (i + 1 + Z.of_nat n)%Z by lia.
        apply Hread; [exact Hn|].
        intros m Hm. specialize (Hlater (S m) ltac:(simpl; lia)).
        replace (i + 1 + Z.of_nat m)%Z with (i + Z.of_nat (S m))%Z by lia.
        replace (i + 1 + Z.of_nat n)%Z with (i + Z.of_nat (S n))%Z by lia.
        exact Hlater.
Qed.

(** ** [write_treatment_labels] *)

Lemma write_treatment_labels_spec (found : list LabelIndexPair) :
  forall (s s' : OutSheet) (previous : Z),
    write_treatment_labels s (map LabelObject found) = Ok s' ->
    label_rows_ordered previous found ->
    (forall r c, c <> TREATMENT_LABEL_COLUMN -> s' r c = s r c) /\
    (forall r, (r <= previous)%Z ->
               s' r TREATMENT_LABEL_COLUMN = s r TREATMENT_LABEL_COLUMN) /\
    (forall p, In p found ->
               s' (index p) TREATMENT_LABEL_COLUMN = Some (OutText (label p))).
Proof.
  induction found as [|p rest IH]; intros s s' previous H Hord.
  - simpl in H. inversion H; subst.
    split; [reflexivity|]. split; [reflexivity|]. intros p [].
  - simpl map in H. cbn [write_treatment_labels attr_label attr_index
                          int_of_index rbind] in H.
    destruct (set_cell s (index p) TREATMENT_LABEL_COLUMN (OutText (label p)))
      as [s1|] eqn:Hset; [|discriminate].
    destruct (set_cell_spec _ _ _ _ _ Hset) as (_ & _ & Hsame & Hother).
    destruct Hord as [Hprev Hord].
    destruct (IH s1 s' (index p) H Hord) as (Hcol & Hrows & Hread).
    split; [|split].
    + intros r c Hc. rewrite (Hcol r c Hc). apply Hother. right. exact Hc.
    + intros r Hr. rewrite Hrows by lia. apply Hother. left. lia.
    + intros q [<-|Hq].
      * rewrite Hrows by lia. exact Hsame.
      * apply Hread. exact Hq.
Qed.

(** ** [write_data_to_outsheet] *)

Lemma write_samples_spec (col : Z) (data : list TimeValuePair) :
  forall (s s' : OutSheet) (j j' : Z),
    write_samples s col data j = Ok (s', j') ->
    col <> 1%Z ->
    j' = (j + Z.of_nat (List.length data))%Z /\
    (forall r c, (c <> 1%Z /\ c <> col) \/ (r < j)%Z \/ (j' <= r)%Z ->
                 s' r c = s r c) /\
    (forall n v, nth_error data n = Some v ->
                 s' (j + Z.of_nat n)%Z col = Some (OutNumber (value v)) /\
                 s' (j + Z.of_nat n)%Z 1%Z = Some (OutNumber (time v))).
Proof.
  induction data as [|v0 rest IH]; intros s s' j j' H Hcol.
  - simpl in H. inversion H; subst. split; [simpl; lia|].
    split; [reflexivity|]. intros n v Hn. destruct n; discriminate.
  - cbn [write_samples] in H. unfold rbind in H.
    destruct (set_cell s j 1 (OutNumber (time v0))) as [s1|] eqn:H1;
      [|discriminate].
    destruct (set_cell s1 j col (OutNumber (value v0))) as [s2|] eqn:H2;
      [|discriminate].
    destruct (set_cell_spec _ _ _ _ _ H1) as (_ & _ & Hs1 & Ho1).
    destruct (set_cell_spec _ _ _ _ _ H2) as (_ & _ & Hs2 & Ho2).
    destruct (IH s2 s' (j + 1)%Z j' H Hcol) as (Hj & Hframe & Hread).
    split; [simpl List.length; lia|]. split.
    + intros r c Hc. rewrite Hframe by lia.
      rewrite Ho2 by lia. apply Ho1. lia.
    + intros [|n] v Hn.
      * simpl in Hn. inversion Hn; subst v. rewrite Z.add_0_r.
        rewrite !Hframe by lia. split; [exact Hs2|].
        rewrite Ho2 by (right; exact (not_eq_sym Hcol)). exact Hs1.
      * simpl in Hn.
        replace (j + Z.of_nat (S n))%Z with (j + 1 + Z.of_nat n)%Z by lia.
        apply Hread. exact Hn.
Qed.

Lemma write_samples_app (col : Z) (d1 : list TimeValuePair) :
  forall (d2 : list TimeValuePair) (s : OutSheet) (j : Z),
    write_samples s col (d1 ++ d2) j =
    (r <- write_samples s col d1 j ;; write_samples (fst r) col d2 (snd r)).
Proof.
  induction d1 as [|v rest IH]; intros d2 s j; [reflexivity|].
  simpl app. cbn [write_samples]. unfold rbind.
  destruct (set_cell s j 1 (OutNumber (time v))) as [s1|]; [|reflexivity].
  destruct (set_cell s1 j col (OutNumber (value v))) as [s2|]; [|reflexivity].
  rewrite IH. reflexivity.
Qed.

(** The segments of a region are written as one series. *)
Lemma write_concentrations_flat (col : Z) (concentrations : list segment) :
  forall (s : OutSheet) (j : Z),
    write_concentrations s col concentrations j =
    write_samples s col (flatten_segments concentrations) j.
Proof.
  induction concentrations as [|seg rest IH]; intros s j; [reflexivity|].
  cbn [write_concentrations]. unfold flatten_segments. simpl flat_map.
  rewrite write_samples_app. unfold rbind.
  replace (match seg with
           | Treatment t => treatment_data t
           | Bath b => std_bath_data b
           end) with (segment_samples seg) by (destruct seg; reflexivity).
  destruct (write_samples s col (segment_samples seg) j) as [[s1 j1]|];
    [|reflexivity].
  simpl. apply IH.
Qed.

Lemma write_regions_spec (items : ratio_dict) :
  forall (s s' : OutSheet) (i : Z),
    write_regions s items i = Ok s' ->
    (0 <= i)%Z ->
    (forall r c, (c <> 1%Z /\ (c < i + 3)%Z)
                 \/ (i + 3 + Z.of_nat (List.length items) <= c)%Z
                 \/ (c = 1%Z /\ (r < 2)%Z) ->
                 s' r c = s r c) /\
    (forall n kv,
        nth_error items n = Some kv ->
        s' 1%Z (i + Z.of_nat n + 3)%Z = Some (OutText (fst kv)) /\
        forall m v,
          nth_error (flatten_segments (snd kv)) m = Some v ->
          s' (2 + Z.of_nat m)%Z (i + Z.of_nat n + 3)%Z
            = Some (OutNumber (value v))) /\
    (forall pre kv m v,
        items = pre ++ [kv] ->
        nth_error (flatten_segments (snd kv)) m = Some v ->
        s' (2 + Z.of_nat m)%Z 1%Z = Some (OutNumber (time v))).
Proof.
  induction items as [|[name conc] rest IH]; intros s s' i H Hi.
  - simpl in H. inversion H; subst.
    split; [reflexivity|]. split.
    + intros n kv Hn. destruct n; discriminate.
    + intros pre kv m v Heq. destruct pre; discriminate.
  - cbn [write_regions] in H. cbv zeta in H. unfold rbind in H.
    destruct (set_cell s 1 (i + 3) (OutText name)) as [s1|] eqn:H1;
      [|discriminate].
    rewrite write_concentrations_flat in H.
    destruct (write_samples s1 (i + 3) (flatten_segments conc)
                SheetParseValues.START_DATA_ROW) as [[s2 j2]|] eqn:H2;
      [|discriminate].
    simpl fst in H. simpl snd in H.
    destruct (set_cell_spec _ _ _ _ _ H1) as (_ & _ & Hs1 & Ho1).
    destruct (write_samples_spec _ _ _ _ _ _ H2 ltac:(lia))
      as (Hj & Hframe & Hread).
    unfold SheetParseValues.START_DATA_ROW in *.
    destruct (IH s2 s' (i + 1)%Z H ltac:(lia)) as (Hf & Hr & Ht).
    split; [|split].
    + intros r c Hc. simpl List.length in Hc.
      rewrite Hf by lia. rewrite Hframe by lia. apply Ho1. lia.
    + intros [|n] kv Hn.
      * simpl in Hn. inversion Hn; subst kv. simpl fst. simpl snd.
        replace (i + Z.of_nat 0 + 3)%Z with (i + 3)%Z by lia. split.
        -- rewrite Hf by lia. rewrite Hframe by lia. exact Hs1.
        -- intros m v Hm. rewrite Hf by lia.
           apply (proj1 (Hread m v Hm)).
      * simpl in Hn.
        replace (i + Z.of_nat (S n) + 3)%Z with (i + 1 + Z.of_nat n + 3)%Z
          by lia.
        apply Hr. exact Hn.
    + intros pre kv m v Heq Hm.
      destruct rest as [|kv' rest'].
      * destruct pre as [|a [|b pre']]; simpl in Heq; inversion Heq; subst.
        simpl in H. inversion H; subst s'. simpl snd in Hm.
        apply (proj2 (Hread m v Hm)).
      * destruct pre as [|a pre']; simpl in Heq; [inversion Heq|].
        inversion Heq as [[Ha Hrest]].
        apply (Ht pre' kv m v Hrest Hm).
Qed.

Lemma write_data_to_outsheet_spec (items : ratio_dict) (s s' : OutSheet) :
  write_data_to_outsheet s items = Ok s' ->
  (forall r c, c = 2%Z \/ (3 + Z.of_nat (List.length items) <= c)%Z ->
               s' r c = s r c) /\
  s' 1%Z 1%Z = Some (OutText "Time (sec)") /\
  (forall n kv,
      nth_error items n = Some kv ->
      s' 1%Z (Z.of_nat n + 3)%Z = Some (OutText (fst kv)) /\
      forall m v,
        nth_error (flatten_segments (snd kv)) m = Some v ->
        s' (2 + Z.of_nat m)%Z (Z.of_nat n + 3)%Z
          = Some (OutNumber (value v))) /\
  (forall pre kv m v,
      items = pre ++ [kv] ->
      nth_error (flatten_segments (snd kv)) m = Some v ->
      s' (2 + Z.of_nat m)%Z 1%Z = Some (OutNumber (time v))).
Proof.
  unfold write_data_to_outsheet, rbind. intro H.
  destruct (set_cell s 1 1 (OutText "Time (sec)")) as [s1|] eqn:H1;
    [|discriminate].
  destruct (set_cell_spec _ _ _ _ _ H1) as (_ & _ & Hs1 & Ho1).
  destruct (write_regions_spec _ _ _ _ H ltac:(lia)) as (Hf & Hr & Ht).
  split; [|split; [|split]].
  - intros r c Hc. rewrite Hf by lia. apply Ho1. lia.
  - rewrite Hf by lia. exact Hs1.
  - intros n kv Hn. apply (Hr n kv Hn).
  - exact Ht.
Qed.

(** ** The calculation blocks *)

Lemma write_calculations_header_spec (s s' : OutSheet)
  (num_regions k : Z) (name : string) :
  write_calculations_header s num_regions k name = Ok s' ->
  (forall r c,
      c <> (CALCULATIONS_START_COL + num_regions)%Z
      \/ (r < CALCULATIONS_START_ROW + 7 * k)%Z
      \/ (CALCULATIONS_START_ROW + 7 * k + 5 < r)%Z ->
      s' r c = s r c) /\
  s' (CALCULATIONS_START_ROW + 7 * k)%Z (CALCULATIONS_START_COL + num_regions)%Z
    = Some (OutText name) /\
  header_written s' num_regions k.
Proof.
  unfold write_calculations_header. cbv zeta. simpl List.length.
  intro H.
  destruct (write_enumerated_spec _ _ _ _ _ _ H) as (Hcol & Hrow & Hread).
  unfold CALCULATIONS_START_ROW, CALCULATIONS_START_COL in *.
  assert (Hcell : forall (n : nat) (v : outval),
             nth_error [OutText name; OutText "peak"; OutText "base";
                        OutText "std"; OutText "area"; OutText "delta"] n
               = Some v ->
             s' (3 + 7 * k + Z.of_nat n)%Z (4 + num_regions)%Z = Some v).
  { intros n v Hn.
    replace (3 + 7 * k + Z.of_nat n)%Z
      with (3 + k * (Z.of_nat 6 + 1) + (0 + Z.of_nat n))%Z by lia.
    apply Hread; [exact Hn|]. intros m Hm. lia. }
  split; [|split].
  - intros r c [Hc | Hr]; [apply Hcol; exact Hc|].
    destruct (Z.eq_dec c (4 + num_regions)) as [->|Hc];
      [|apply Hcol; exact Hc].
    apply Hrow. intros n Hn. simpl in Hn. lia.
  - replace (3 + 7 * k)%Z with (3 + 7 * k + Z.of_nat 0)%Z by lia.
    apply Hcell. reflexivity.
  - unfold header_written, CALCULATIONS_START_ROW, CALCULATIONS_START_COL.
    cbv zeta.
    repeat split;
      [ apply (Hcell 1%nat) | apply (Hcell 2%nat) | apply (Hcell 3%nat)
      | apply (Hcell 4%nat) | apply (Hcell 5%nat) ]; reflexivity.
Qed.

Lemma write_calculations_to_outsheet_spec (s s' : OutSheet)
  (peak base std area delta : Q) (num_regions region_idx k : Z)
  (name : string) :
  write_calculations_to_outsheet s peak base std area delta num_regions
    region_idx name k = Ok s' ->
  let col := (CALCULATIONS_START_COL + num_regions + region_idx + 1)%Z in
  let row := (CALCULATIONS_START_ROW + 7 * k)%Z in
  (forall r c, c <> col \/ (r < row)%Z \/ (row + 5 < r)%Z -> s' r c = s r c) /\
  s' row col = Some (OutText name) /\
  s' (row + 1)%Z col = Some (OutNumber peak) /\
  s' (row + 2)%Z col = Some (OutNumber base) /\
  s' (row + 3)%Z col = Some (OutNumber std) /\
  s' (row + 4)%Z col = Some (OutNumber area) /\
  s' (row + 5)%Z col = Some (OutNumber delta).
Proof.
  unfold write_calculations_to_outsheet. cbv zeta. simpl List.length.
  intro H.
  destruct (write_enumerated_spec _ _ _ _ _ _ H) as (Hcol & Hrow & Hread).
  unfold CALCULATIONS_START_ROW, CALCULATIONS_START_COL in *.
  assert (Hcell : forall (n : nat) (v : outval),
             nth_error [OutText name; OutNumber peak; OutNumber base;
                        OutNumber std; OutNumber area; OutNumber delta] n
               = Some v ->
             s' (3 + 7 * k + Z.of_nat n)%Z (4 + num_regions + region_idx + 1)%Z
               = Some v).
  { intros n v Hn.
    replace (3 + 7 * k + Z.of_nat n)%Z
      with (3 + (0 + Z.of_nat n) + k * (Z.of_nat 6 + 1))%Z by lia.
    apply (Hread n v Hn). intros m Hm. lia. }
  split.
  - intros r c [Hc | Hr]; [apply Hcol; exact Hc|].
    destruct (Z.eq_dec c (4 + num_regions + region_idx + 1)) as [->|Hc];
      [|apply Hcol; exact Hc].
    apply Hrow. intros n Hn. simpl in Hn. lia.
  - split; [replace (3 + 7 * k)%Z with (3 + 7 * k + Z.of_nat 0)%Z by lia;
            apply Hcell; reflexivity|].
    repeat split;
      [ apply (Hcell 1%nat) | apply (Hcell 2%nat) | apply (Hcell 3%nat)
      | apply (Hcell 4%nat) | apply (Hcell 5%nat) ]; reflexivity.
Qed.

Lemma header_written_frame (s s' : OutSheet) (num_regions k : Z) :
  (forall j, (1 <= j <= 5)%Z ->
     s' (CALCULATIONS_START_ROW + 7 * k + j)%Z
        (CALCULATIONS_START_COL + num_regions)%Z
     = s (CALCULATIONS_START_ROW + 7 * k + j)%Z
         (CALCULATIONS_START_COL + num_regions)%Z) ->
  header_written s num_regions k -> header_written s' num_regions k.
Proof.
  intros Hsame (H1 & H2 & H3 & H4 & H5). unfold header_written. cbv zeta.
  rewrite !Hsame by lia. repeat split; assumption.
Qed.

Section ConvertFacts.

Variable sqrt : Q -> Q.
Variable base_elements : Z.
Variable peak_type : Z.
Variable post_std_time_to_search : Q.

Lemma metrics_written_frame (s s' : OutSheet) (num_regions region_idx k : Z)
  (name : string) (t : TreatmentData) :
  (forall j, (0 <= j <= 5)%Z ->
     s' (CALCULATIONS_START_ROW + 7 * k + j)%Z
        (CALCULATIONS_START_COL + num_regions + region_idx + 1)%Z
     = s (CALCULATIONS_START_ROW + 7 * k + j)%Z
         (CALCULATIONS_START_COL + num_regions + region_idx + 1)%Z) ->
  metrics_written sqrt base_elements peak_type post_std_time_to_search
    s num_regions region_idx k name t ->
  metrics_written sqrt base_elements peak_type post_std_time_to_search
    s' num_regions region_idx k name t.
Proof.
  intros Hsame (peak & pt & base & std & area & Hp & Hb & Ha & H0 & H1 & H2
                & H3 & H4 & H5).
  exists peak, pt, base, std, area.
  split; [exact Hp|]. split; [exact Hb|]. split; [exact Ha|].
  pose proof (Hsame 0%Z ltac:(lia)) as E0. rewrite Z.add_0_r in E0.
  rewrite E0, !Hsame by lia.
  repeat split; assumption.
Qed.

Lemma write_treatment_spec (s s' : OutSheet) (num_regions region_idx k : Z)
  (name : string) (t : TreatmentData) :
  write_treatment sqrt base_elements peak_type post_std_time_to_search
    s num_regions region_idx name k t = Ok s' ->
  (0 <= region_idx)%Z ->
  (forall r c,
      (c <> (CALCULATIONS_START_COL + num_regions)%Z /\
       c <> (CALCULATIONS_START_COL + num_regions + region_idx + 1)%Z)
      \/ (r < CALCULATIONS_START_ROW + 7 * k)%Z
      \/ (CALCULATIONS_START_ROW + 7 * k + 5 < r)%Z ->
      s' r c = s r c) /\
  header_written s' num_regions k /\
  metrics_written sqrt base_elements peak_type post_std_time_to_search
    s' num_regions region_idx k name t.
Proof.
  unfold write_treatment, rbind. intros H Hidx.
  destruct (write_calculations_header s num_regions k (treatment_name t))
    as [s1|] eqn:Hh; [|discriminate].
  destruct (calculate_peak t peak_type post_std_time_to_search)
    as [[peak pt]|] eqn:Hp; [|discriminate].
  destruct (calculate_base sqrt t base_elements) as [[base std]|] eqn:Hb;
    [|discriminate].
  destruct (calculate_area_with t base std pt) as [area|] eqn:Ha;
    [|discriminate].
  destruct (write_calculations_header_spec _ _ _ _ _ Hh) as (Hf1 & _ & Hhead).
  destruct (write_calculations_to_outsheet_spec _ _ _ _ _ _ _ _ _ _ _ H)
    as (Hf2 & H0 & H1 & H2 & H3 & H4 & H5).
  split; [|split].
  - intros r c Hc. rewrite Hf2 by lia. apply Hf1. lia.
  - apply (header_written_frame s1 s' num_regions k); [|exact Hhead].
    intros j Hj. apply Hf2. left. lia.
  - exists peak, pt, base, std, area.
    split; [exact Hp|]. split; [exact Hb|]. split; [exact Ha|].
    unfold calculate_delta in H5. repeat split; assumption.
Qed.

Lemma write_region_treatments_spec (segs : list segment) :
  forall (s s' : OutSheet) (num_regions region_idx k : Z) (name : string),
    write_region_treatments sqrt base_elements peak_type
      post_std_time_to_search s num_regions region_idx name segs k = Ok s' ->
    (0 <= region_idx)%Z ->
    (forall r c,
        (c <> (CALCULATIONS_START_COL + num_regions)%Z /\
         c <> (CALCULATIONS_START_COL + num_regions + region_idx + 1)%Z)
        \/ (r < CALCULATIONS_START_ROW + 7 * k)%Z ->
        s' r c = s r c) /\
    (forall k0, header_written s num_regions k0 ->
                header_written s' num_regions k0) /\
    (forall pre t post,
        segs = pre ++ Treatment t :: post ->
        header_written s' num_regions (k + count_treatments pre) /\
        metrics_written sqrt base_elements peak_type post_std_time_to_search
          s' num_regions region_idx (k + count_treatments pre) name t).
Proof.
  induction segs as [|seg rest IH];
    intros s s' num_regions region_idx k name H Hidx.
  - simpl in H. inversion H; subst.
    split; [reflexivity|]. split; [trivial|].
    intros pre t post Heq. destruct pre; discriminate.
  - destruct seg as [t0|b0]; cbn [write_region_treatments] in H.
    + unfold rbind in H.
      destruct (write_treatment sqrt base_elements peak_type
                  post_std_time_to_search s num_regions region_idx name k t0)
        as [s1|] eqn:Ht; [|discriminate].
      destruct (write_treatment_spec _ _ _ _ _ _ _ Ht Hidx)
        as (Hf1 & Hhead1 & Hmet1).
      destruct (IH _ _ _ _ _ _ H Hidx) as (Hf2 & Hh2 & Hread2).
      unfold CALCULATIONS_START_ROW, CALCULATIONS_START_COL in *.
      split; [|split].
      * intros r c Hc. rewrite Hf2 by lia. apply Hf1. lia.
      * intros k0 Hk0. apply Hh2.
        destruct (Z.eq_dec k0 k) as [->|Hne]; [exact Hhead1|].
        apply (header_written_frame s s1 num_regions k0); [|exact Hk0].
        intros j Hj. apply Hf1.
        unfold CALCULATIONS_START_ROW, CALCULATIONS_START_COL. lia.
      * intros [|seg' pre] t post Heq; simpl in Heq; inversion Heq; subst.
        -- cbn [count_treatments]. rewrite Z.add_0_r. split.
           ++ apply Hh2. exact Hhead1.
           ++ apply (metrics_written_frame s1 s'); [|exact Hmet1].
              intros j Hj. apply Hf2.
              unfold CALCULATIONS_START_ROW, CALCULATIONS_START_COL. lia.
        -- cbn [count_treatments].
           replace (k + (1 + count_treatments pre))%Z
             with (k + 1 + count_treatments pre)%Z by lia.
           apply (Hread2 pre t post eq_refl).
    + destruct (IH _ _ _ _ _ _ H Hidx) as (Hf2 & Hh2 & Hread2).
      split; [exact Hf2|]. split; [exact Hh2|].
      intros [|seg' pre] t post Heq; simpl in Heq; inversion Heq; subst.
      cbn [count_treatments]. apply (Hread2 pre t post eq_refl).
Qed.

Lemma count_treatments_nonneg (segs : list segment) :
  (0 <= count_treatments segs)%Z.
Proof.
  induction segs as [|[t|b] rest IH]; cbn [count_treatments]; lia.
Qed.

Lemma write_all_treatments_spec (items : ratio_dict) :
  forall (s s' : OutSheet) (num_regions i : Z),
    write_all_treatments sqrt base_elements peak_type
      post_std_time_to_search s num_regions items i = Ok s' ->
    (0 <= i)%Z ->
    (forall r c,
        (c < CALCULATIONS_START_COL + num_regions)%Z
        \/ (CALCULATIONS_START_COL + num_regions < c /\
            c < CALCULATIONS_START_COL + num_regions + i + 1)%Z ->
        s' r c = s r c) /\
    (forall k0, header_written s num_regions k0 ->
                header_written s' num_regions k0) /\
    (forall n kv pre t post,
        nth_error items n = Some kv ->
        snd kv = pre ++ Treatment t :: post ->
        header_written s' num_regions (count_treatments pre) /\
        metrics_written sqrt base_elements peak_type post_std_time_to_search
          s' num_regions (i + Z.of_nat n) (count_treatments pre) (fst kv) t).
Proof.
  induction items as [|[name segs] rest IH]; intros s s' num_regions i H Hi.
  - simpl in H. inversion H; subst.
    split; [reflexivity|]. split; [trivial|].
    intros n kv pre t post Hn. destruct n; discriminate.
  - cbn [write_all_treatments] in H. unfold rbind in H.
    destruct (write_region_treatments sqrt base_elements peak_type
                post_std_time_to_search s num_regions i name segs 0)
      as [s1|] eqn:Hreg; [|discriminate].
    destruct (write_region_treatments_spec _ _ _ _ _ _ _ Hreg Hi)
      as (Hf1 & Hh1 & Hread1).
    destruct (IH _ _ _ _ H ltac:(lia)) as (Hf2 & Hh2 & Hread2).
    split; [|split].
    + intros r c Hc. rewrite Hf2 by lia. apply Hf1. lia.
    + intros k0 Hk0. apply Hh2, Hh1. exact Hk0.
    + intros [|n] kv pre t post Hn Heq.
      * simpl in Hn. inversion Hn; subst kv. simpl in Heq.
        destruct (Hread1 pre t post Heq) as [Hhead Hmet].
        rewrite Z.add_0_l in Hhead, Hmet. simpl fst.
        replace (i + Z.of_nat 0)%Z with i by lia. split.
        -- apply Hh2. exact Hhead.
        -- apply (metrics_written_frame s1 s'); [|exact Hmet].
           intros j Hj. apply Hf2. lia.
      * simpl in Hn.
        replace (i + Z.of_nat (S n))%Z with (i + 1 + Z.of_nat n)%Z by lia.
        apply (Hread2 n kv pre t post Hn Heq).
Qed.

End ConvertFacts.

(** ** [convert_calcium_file] *)

Section ConvertTheorems.

Variable sqrt : Q -> Q.
Variable base_elements : Z.
Variable peak_type : Z.
Variable post_std_time_to_search : Q.

(** The three stages of a successful conversion. *)
Lemma convert_calcium_file_ok (in_sheet : Worksheet) (run_label : string)
  (out out' : list output) (sheet : OutSheet) :
  convert_calcium_file sqrt base_elements peak_type post_std_time_to_search
    in_sheet run_label out = Ok (sheet, out') ->
  exists (rd : ratio_dict) (labels : list label_entry) (s1 s2 : OutSheet),
    get_raw_data in_sheet run_label out = Ok (rd, labels, out') /\
    write_treatment_labels new_sheet labels = Ok s1 /\
    write_data_to_outsheet s1 rd = Ok s2 /\
    write_all_treatments sqrt base_elements peak_type post_std_time_to_search
      s2 (Z.of_nat (List.length rd)) rd 0 = Ok sheet.
Proof.
  unfold convert_calcium_file. unfold bind, lift. intro H.
  destruct (get_raw_data in_sheet run_label out) as [[[rd labels] o1]|];
    [|discriminate].
  unfold rbind in H.
  destruct (write_treatment_labels new_sheet labels) as [s1|] eqn:H1;
    [|discriminate].
  destruct (write_data_to_outsheet s1 rd) as [s2|] eqn:H2; [|discriminate].
  destruct (write_all_treatments sqrt base_elements peak_type
              post_std_time_to_search s2 (Z.of_nat (List.length rd)) rd 0)
    as [s3|] eqn:H3; [|discriminate].
  inversion H; subst. exists rd, labels, s1, s2.
  split; [reflexivity|]. split; [exact H1|]. split; [exact H2 | exact H3].
Qed.

(** X23.  After a successful conversion the output sheet holds "Time
    (sec)" in its first cell and, for the region in position [n] of the
    dictionary, the region's label in row 1 of column [n + 3] and below it
    the values of the region's series, one per row from row 2 on: the
    calculation blocks written afterwards leave these cells alone. *)
Theorem convert_calcium_file_writes_series :
  forall (in_sheet : Worksheet) (run_label : string)
    (out out' : list output) (sheet : OutSheet),
    convert_calcium_file sqrt base_elements peak_type post_std_time_to_search
      in_sheet run_label out = Ok (sheet, out') ->
    exists (rd : ratio_dict) (labels : list label_entry),
      get_raw_data in_sheet run_label out = Ok (rd, labels, out') /\
      sheet 1%Z 1%Z = Some (OutText "Time (sec)") /\
      forall (n : nat) (kv : string * list segment),
        nth_error rd n = Some kv ->
        sheet 1%Z (Z.of_nat n + 3)%Z = Some (OutText (fst kv)) /\
        forall (m : nat) (v : TimeValuePair),
          nth_error (flatten_segments (snd kv)) m = Some v ->
          sheet (2 + Z.of_nat m)%Z (Z.of_nat n + 3)%Z
            = Some (OutNumber (value v)).
Proof.
  intros in_sheet run_label out out' sheet H.
  destruct (convert_calcium_file_ok _ _ _ _ _ H)
    as (rd & labels & s1 & s2 & Hraw & Hlab & Hdata & Hcalc).
  exists rd, labels. split; [exact Hraw|].
  destruct (write_data_to_outsheet_spec _ _ _ Hdata) as (_ & Htime & Hread & _).
  destruct (write_all_treatments_spec _ _ _ _ _ _ _ _ _ Hcalc ltac:(lia))
    as (Hframe & _ & _).
  unfold CALCULATIONS_START_COL in Hframe.
  split; [rewrite Hframe by lia; exact Htime|].
  intros n kv Hn.
  assert (Hlt : (n < List.length rd)%nat)
    by (apply nth_error_Some; congruence).
  destruct (Hread n kv Hn) as [Hname Hvals].
  split; [rewrite Hframe by lia; exact Hname|].
  intros m v Hm. rewrite Hframe by lia. apply Hvals. exact Hm.
Qed.

(** X24.  After a successful conversion, for the region in position [n]
    and each of its treatments, [k] treatments of the region coming
    before it: rows [3 + 7k] to [3 + 7k + 5] of column [num_regions + n +
    5] hold the region's label, the peak, the base, the standard
    deviation, the area and the delta computed for that treatment, the
    delta being peak minus base; beside "peak" to "delta" in the header
    column [num_regions + 4].  Blocks written later do not overwrite
    them. *)
Theorem convert_calcium_file_writes_metrics :
  forall (in_sheet : Worksheet) (run_label : string)
    (out out' : list output) (sheet : OutSheet),
    convert_calcium_file sqrt base_elements peak_type post_std_time_to_search
      in_sheet run_label out = Ok (sheet, out') ->
    exists (rd : ratio_dict) (labels : list label_entry),
      get_raw_data in_sheet run_label out = Ok (rd, labels, out') /\
      forall (n : nat) (kv : string * list segment)
        (pre : list segment) (t : TreatmentData) (post : list segment),
        nth_error rd n = Some kv ->
        snd kv = pre ++ Treatment t :: post ->
        header_written sheet (Z.of_nat (List.length rd))
          (count_treatments pre) /\
        metrics_written sqrt base_elements peak_type post_std_time_to_search
          sheet (Z.of_nat (List.length rd)) (Z.of_nat n)
          (count_treatments pre) (fst kv) t.
Proof.
  intros in_sheet run_label out out' sheet H.
  destruct (convert_calcium_file_ok _ _ _ _ _ H)
    as (rd & labels & s1 & s2 & Hraw & Hlab & Hdata & Hcalc).
  exists rd, labels. split; [exact Hraw|].
  destruct (write_all_treatments_spec _ _ _ _ _ _ _ _ _ Hcalc ltac:(lia))
    as (_ & _ & Hread).
  intros n kv pre t post Hn Heq.
  destruct (Hread n kv pre t post Hn Heq) as [Hhead Hmet].
  rewrite Z.add_0_l in Hmet. split; [exact Hhead | exact Hmet].
Qed.

(** X25.  After a successful conversion, column 2 of the output sheet
    holds each label on the row it has in the input sheet, and column 1
    holds, from row 2 on, the times of the series of the last region of
    the dictionary: each region writes its times over those of the region
    before it. *)
Theorem convert_calcium_file_writes_labels_and_times :
  forall (in_sheet : Worksheet) (run_label : string)
    (out out' : list output) (sheet : OutSheet),
    convert_calcium_file sqrt base_elements peak_type post_std_time_to_search
      in_sheet run_label out = Ok (sheet, out') ->
    exists (rd : ratio_dict) (labels : list label_entry),
      get_raw_data in_sheet run_label out = Ok (rd, labels, out') /\
      (forall p : LabelIndexPair,
          In (LabelObject p) labels ->
          sheet (index p) 2%Z = Some (OutText (label p))) /\
      (forall (pre : ratio_dict) (kv : string * list segment)
         (m : nat) (v : TimeValuePair),
          rd = pre ++ [kv] ->
          nth_error (flatten_segments (snd kv)) m = Some v ->
          sheet (2 + Z.of_nat m)%Z 1%Z = Some (OutNumber (time v))).
Proof.
  intros in_sheet run_label out out' sheet H.
  destruct (convert_calcium_file_ok _ _ _ _ _ H)
    as (rd & labels & s1 & s2 & Hraw & Hlab & Hdata & Hcalc).
  exists rd, labels. split; [exact Hraw|].
  destruct (get_raw_data_walks _ _ _ _ _ _ Hraw)
    as (tc & sr & er & found & o1 & _ & Hl & -> & _).
  destruct (search_for_treatment_labels_inv _ _ _ _ Hl)
    as (col & _ & _ & _ & Hord & _).
  destruct (write_treatment_labels_spec _ _ _ _ Hlab Hord) as (_ & _ & Hread).
  destruct (write_data_to_outsheet_spec _ _ _ Hdata) as (Hf2 & _ & _ & Htimes).
  destruct (write_all_treatments_spec _ _ _ _ _ _ _ _ _ Hcalc ltac:(lia))
    as (Hf3 & _ & _).
  unfold CALCULATIONS_START_COL, TREATMENT_LABEL_COLUMN in *.
  split.
  - intros p Hin. apply in_map_iff in Hin. destruct Hin as (q & Hq & Hin).
    inversion Hq; subst q.
    rewrite Hf3 by lia. rewrite Hf2 by lia. apply Hread. exact Hin.
  - intros pre kv m v Heq Hm. rewrite Hf3 by lia.
    apply (Htimes pre kv m v Heq Hm).
Qed.

End ConvertTheorems.

Lemma two_regions_converted :
  convert_calcium_file (fun q => q) 2 1 300 sheet_two_regions "A" [] =
    Ok (two_regions_sheet, []).
Proof. vm_compute. reflexivity. Qed.

Lemma convert_calcium_file_writes_series_witness :
  exists (rd : ratio_dict) (labels : list label_entry),
    get_raw_data sheet_two_regions "A" [] = Ok (rd, labels, []) /\
    two_regions_sheet 1%Z 1%Z = Some (OutText "Time (sec)") /\
    forall (n : nat) (kv : string * list segment),
      nth_error rd n = Some kv ->
      two_regions_sheet 1%Z (Z.of_nat n + 3)%Z = Some (OutText (fst kv)) /\
      forall (m : nat) (v : TimeValuePair),
        nth_error (flatten_segments (snd kv)) m = Some v ->
        two_regions_sheet (2 + Z.of_nat m)%Z (Z.of_nat n + 3)%Z
          = Some (OutNumber (value v)).
Proof.
  apply (convert_calcium_file_writes_series (fun q => q) 2 1 300
           sheet_two_regions "A" [] [] two_regions_sheet).
  exact two_regions_converted.
Defined.

Lemma convert_calcium_file_writes_metrics_witness :
  exists (rd : ratio_dict) (labels : list label_entry),
    get_raw_data sheet_two_regions "A" [] = Ok (rd, labels, []) /\
    forall (n : nat) (kv : string * list segment)
      (pre : list segment) (t : TreatmentData) (post : list segment),
      nth_error rd n = Some kv ->
      snd kv = pre ++ Treatment t :: post ->
      header_written two_regions_sheet (Z.of_nat (List.length rd))
        (count_treatments pre) /\
      metrics_written (fun q => q) 2 1 300
        two_regions_sheet (Z.of_nat (List.length rd)) (Z.of_nat n)
        (count_treatments pre) (fst kv) t.
Proof.
  apply (convert_calcium_file_writes_metrics (fun q => q) 2 1 300
           sheet_two_regions "A" [] [] two_regions_sheet).
  exact two_regions_converted.
Defined.

Lemma convert_calcium_file_writes_labels_and_times_witness :
  exists (rd : ratio_dict) (labels : list label_entry),
    get_raw_data sheet_two_regions "A" [] = Ok (rd, labels, []) /\
    (forall p : LabelIndexPair,
        In (LabelObject p) labels ->
        two_regions_sheet (index p) 2%Z = Some (OutText (label p))) /\
    (forall (pre : ratio_dict) (kv : string * list segment)
       (m : nat) (v : TimeValuePair),
        rd = pre ++ [kv] ->
        nth_error (flatten_segments (snd kv)) m = Some v ->
        two_regions_sheet (2 + Z.of_nat m)%Z 1%Z = Some (OutNumber (time v))).
Proof.
  apply (convert_calcium_file_writes_labels_and_times (fun q => q) 2 1 300
           sheet_two_regions "A" [] [] two_regions_sheet).
  exact two_regions_converted.
Defined.

(* ================================================================== *)
(** * File names                                                       *)
(* ================================================================== *)

Lemma string_length_app (a b : string) :
  String.length (a ++ b) = (String.length a + String.length b)%nat.
Proof.
  induction a as [|c a IH]; simpl; [reflexivity | now rewrite IH].
Qed.

Lemma string_forall_app (p : ascii -> bool) (a b : string) :
  string_forall p (a ++ b) = string_forall p a && string_forall p b.
Proof.
  induction a as [|c a IH]; simpl; [reflexivity |].
  rewrite IH. now rewrite andb_assoc.
Qed.

Lemma str_take_app (a b : string) : str_take (String.length a) (a ++ b) = a.
Proof.
  induction a as [|c a IH]; simpl.
  - destruct b; reflexivity.
  - now rewrite IH.
Qed.

Lemma str_drop_app (a b : string) : str_drop (String.length a) (a ++ b) = b.
Proof.
  induction a as [|c a IH]; simpl; [destruct b; reflexivity | exact IH].
Qed.

Lemma str_take_0 (s : string) : str_take 0 s = EmptyString.
Proof. destruct s; reflexivity. Qed.

Lemma str_drop_0 (s : string) : str_drop 0 s = s.
Proof. destruct s; reflexivity. Qed.

Lemma rfind_from_app (c : ascii) (a b : string) :
  forall i found,
    rfind_from c (a ++ b) i found
    = rfind_from c b (i + Z.of_nat (String.length a))
        (rfind_from c a i found).
Proof.
  induction a as [|x a IH]; intros i found.
  - simpl. now rewrite Z.add_0_r.
  - cbn [append rfind_from String.length]. rewrite IH.
    f_equal. lia.
Qed.

Lemma rfind_from_lacks (c : ascii) (s : string) :
  lacks_char c s = true ->
  forall i found, rfind_from c s i found = found.
Proof.
  unfold lacks_char.
  induction s as [|x s IH]; intros H i found; [reflexivity |].
  simpl in H. apply andb_true_iff in H as [Hx Hs].
  cbn [rfind_from]. apply negb_true_iff in Hx. rewrite Hx.
  now apply IH.
Qed.

(** The last occurrence of a character. *)
Lemma rfind_last (c : ascii) (a b : string) :
  lacks_char c b = true ->
  rfind c (a ++ String c b) = Z.of_nat (String.length a).
Proof.
  intros Hb. unfold rfind. rewrite rfind_from_app.
  cbn [rfind_from]. rewrite Ascii.eqb_refl.
  rewrite rfind_from_lacks by exact Hb. lia.
Qed.

Lemma rfind_absent (c : ascii) (s : string) :
  lacks_char c s = true -> rfind c s = (-1)%Z.
Proof. intros H. unfold rfind. now apply rfind_from_lacks. Qed.

Lemma rstrip_app_char (c : ascii) (a : string) :
  rstrip c (a ++ String c EmptyString) = rstrip c a.
Proof.
  induction a as [|x a IH].
  - simpl. now rewrite Ascii.eqb_refl.
  - cbn [append rstrip]. now rewrite IH.
Qed.

Lemma rstrip_no_end (c : ascii) (a : string) :
  ends_with c a = false -> rstrip c a = a.
Proof.
  induction a as [|x a IH]; intros H; [reflexivity |].
  cbn [rstrip]. destruct a as [|y a].
  - simpl in H. simpl. now rewrite H.
  - rewrite IH by exact H. reflexivity.
Qed.

Lemma ends_with_not_all (c : ascii) (a : string) :
  a <> EmptyString -> ends_with c a = false ->
  string_forall (Ascii.eqb c) a = false.
Proof.
  induction a as [|x a IH]; intros Hne H; [congruence |].
  destruct a as [|y a].
  - simpl in H. simpl. rewrite Ascii.eqb_sym, H. reflexivity.
  - change (string_forall (Ascii.eqb c) (String x (String y a)))
      with (Ascii.eqb c x && string_forall (Ascii.eqb c) (String y a)).
    rewrite (IH ltac:(discriminate) H).
    apply andb_false_r.
Qed.

Lemma lacks_char_no_prefix (c : ascii) (s : string) :
  lacks_char c s = true -> String.prefix (String c EmptyString) s = false.
Proof.
  unfold lacks_char. destruct s as [|x s]; intros H; [reflexivity |].
  simpl in H. apply andb_true_iff in H as [Hx _].
  apply negb_true_iff in Hx.
  simpl. destruct (ascii_dec c x) as [->|Hn]; [| reflexivity].
  now rewrite Ascii.eqb_refl in Hx.
Qed.

(** [os.path.split] of a path whose last component holds no separator. *)
Lemma os_path_split_tail (dir name : string) :
  lacks_char "/" name = true ->
  snd (os_path_split (dir ++ String "/" name)) = name.
Proof.
  intros Hn. unfold os_path_split. cbn [snd].
  rewrite (rfind_last "/" dir name Hn).
  replace (Z.to_nat (Z.of_nat (String.length dir) + 1))
    with (String.length (dir ++ String "/" EmptyString))
    by (rewrite string_length_app; simpl; lia).
  replace (dir ++ String "/" name)%string
    with ((dir ++ String "/" EmptyString) ++ name)%string
    by (now rewrite string_app_assoc).
  apply str_drop_app.
Qed.

Lemma os_path_split_bare (name : string) :
  lacks_char "/" name = true ->
  os_path_split name = (EmptyString, name).
Proof.
  intros Hn. unfold os_path_split.
  rewrite (rfind_absent "/" name Hn). cbn [Z.add Z.to_nat Z.opp].
  change (Z.to_nat (-1 + 1)) with O.
  rewrite str_take_0, str_drop_0. reflexivity.
Qed.

Lemma os_path_split_dir (dir name : string) :
  dir <> EmptyString -> ends_with "/" dir = false ->
  lacks_char "/" name = true ->
  os_path_split (dir ++ String "/" name) = (dir, name).
Proof.
  intros Hne Hend Hn. unfold os_path_split.
  rewrite (rfind_last "/" dir name Hn).
  replace (Z.to_nat (Z.of_nat (String.length dir) + 1))
    with (String.length (dir ++ String "/" EmptyString))
    by (rewrite string_length_app; simpl; lia).
  replace (dir ++ String "/" name)%string
    with ((dir ++ String "/" EmptyString) ++ name)%string
    by (now rewrite string_app_assoc).
  rewrite str_take_app, str_drop_app.
  assert (Hnonempty : String.eqb (dir ++ String "/" EmptyString) EmptyString
                      = false).
  { destruct dir; reflexivity. }
  rewrite Hnonempty, string_forall_app.
  rewrite (ends_with_not_all "/" dir Hne Hend).
  cbn [negb andb].
  rewrite rstrip_app_char, rstrip_no_end by exact Hend.
  reflexivity.
Qed.

(** [parse_data_name] on a base name of the expected length. *)
Lemma parse_data_name_base (d : string) (sep r : ascii) (rest : string) :
  String.length d = 10%nat ->
  (5 <= String.length rest)%nat ->
  forall file,
    snd (os_path_split file) = (d ++ String sep (String r rest))%string ->
    parse_data_name file = Ok (mkNameArgs d (String r EmptyString)).
Proof.
  intros Hd Hrest file Hfile.
  assert (Hlen : (String.length (d ++ String sep (String r rest)) <? 17)%nat
                 = false).
  { apply Nat.ltb_ge. rewrite string_length_app, Hd. simpl. lia. }
  assert (Hget : String.get 11 (d ++ String sep (String r rest)) = Some r).
  { change 11%nat with (1 + 10)%nat. rewrite <- Hd.
    rewrite <- (append_correct2 d (String sep (String r rest)) 1).
    reflexivity. }
  assert (Htake : str_take 10 (d ++ String sep (String r rest)) = d).
  { rewrite <- Hd. apply str_take_app. }
  unfold parse_data_name. cbv zeta. rewrite Hfile.
  change (String.length "XXXX_XX_XX" + String.length "_"
          + String.length "Y" + String.length ".xlsx")%nat with 17%nat.
  change (String.length "XXXX_XX_XX" + String.length "_")%nat with 11%nat.
  change (String.length "XXXX_XX_XX") with 10%nat.
  rewrite Hlen, Hget, Htake. reflexivity.
Qed.

(** X26.  [parse_data_name] looks at the last component of the path only:
    when that component is ten characters, one more character, the run
    character and at least five further characters, the date is the ten
    characters and the run the character at position 11, whatever directory
    comes before and whatever the characters are (neither the shape of the
    date, nor the divider, nor the extension is checked). *)
Theorem parse_data_name_reads_base_name :
  forall (dir d : string) (sep r : ascii) (rest : string),
    lacks_char "/" (d ++ String sep (String r rest)) = true ->
    String.length d = 10%nat ->
    (5 <= String.length rest)%nat ->
    parse_data_name (dir ++ String "/" (d ++ String sep (String r rest)))
    = Ok (mkNameArgs d (String r EmptyString))
    /\ parse_data_name (d ++ String sep (String r rest))
       = Ok (mkNameArgs d (String r EmptyString)).
Proof.
  intros dir d sep r rest Hn Hd Hrest. split.
  - apply (parse_data_name_base d sep r rest Hd Hrest).
    now apply os_path_split_tail.
  - apply (parse_data_name_base d sep r rest Hd Hrest).
    now rewrite os_path_split_bare.
Qed.

Lemma parse_data_name_reads_base_name_witness :
  lacks_char "/" ("2020_01_31" ++ String "_" (String "B" ".xlsx")) = true
  /\ parse_data_name
       ("/data/runs" ++ String "/"
          ("2020_01_31" ++ String "_" (String "B" ".xlsx")))
     = Ok (mkNameArgs "2020_01_31" "B").
Proof.
  split; [reflexivity |].
  apply (parse_data_name_reads_base_name
           "/data/runs" "2020_01_31" "_" "B" ".xlsx");
    [reflexivity | reflexivity | simpl; lia].
Defined.

Lemma parse_data_name_short (file : string) :
  (String.length (snd (os_path_split file)) < 17)%nat ->
  parse_data_name file = Raise SystemExit.
Proof.
  intros H. unfold parse_data_name. cbv zeta.
  change (String.length "XXXX_XX_XX" + String.length "_"
          + String.length "Y" + String.length ".xlsx")%nat with 17%nat.
  apply Nat.ltb_lt in H. rewrite H. reflexivity.
Qed.

(** X27.  A path whose last component has fewer than 17 characters makes
    [parse_data_name] exit, however long the directory part is; in
    particular every path that ends with the separator does. *)
Theorem parse_data_name_short_name_exits :
  forall (dir name : string),
    lacks_char "/" name = true ->
    (String.length name < 17)%nat ->
    parse_data_name (dir ++ String "/" name) = Raise SystemExit
    /\ parse_data_name name = Raise SystemExit
    /\ parse_data_name (dir ++ "/") = Raise SystemExit.
Proof.
  intros dir name Hn Hlen. split; [| split].
  - apply parse_data_name_short. now rewrite os_path_split_tail.
  - apply parse_data_name_short. now rewrite os_path_split_bare.
  - apply parse_data_name_short.
    rewrite (os_path_split_tail dir EmptyString eq_refl). simpl. lia.
Qed.

Lemma parse_data_name_short_name_exits_witness :
  parse_data_name
    ("/data/2020_01_31_B_runs" ++ String "/" "2020_1_31_B.xlsx")
  = Raise SystemExit.
Proof.
  apply (parse_data_name_short_name_exits
           "/data/2020_01_31_B_runs" "2020_1_31_B.xlsx");
    [reflexivity | simpl; lia].
Defined.

(** [os.path.splitext] of a path whose last component is [stem.ext]; [pre]
    is the path up to and including the last separator, or empty. *)
Lemma os_path_splitext_stem (pre stem ext : string) :
  (rfind "/" (pre ++ stem ++ String "." ext) + 1)%Z
  = Z.of_nat (String.length pre) ->
  string_forall (Ascii.eqb ".") stem = false ->
  lacks_char "." ext = true ->
  os_path_splitext (pre ++ stem ++ String "." ext)
  = ((pre ++ stem)%string, String "." ext).
Proof.
  intros Hsep Hstem Hext. unfold os_path_splitext.
  assert (Hdot : rfind "." (pre ++ stem ++ String "." ext)
                 = Z.of_nat (String.length (pre ++ stem))).
  { rewrite <- string_app_assoc. now apply rfind_last. }
  rewrite Hdot, Hsep, Nat2Z.id.
  rewrite str_drop_app.
  replace (Z.to_nat (Z.of_nat (String.length (pre ++ stem))
                     - Z.of_nat (String.length pre)))
    with (String.length stem)
    by (rewrite string_length_app; lia).
  rewrite str_take_app, Hstem.
  replace (rfind "/" (pre ++ stem ++ String "." ext)
           <? Z.of_nat (String.length (pre ++ stem)))%Z with true.
  2:{ symmetry. apply Z.ltb_lt. rewrite string_length_app.
      destruct stem; [discriminate |]. simpl String.length. lia. }
  cbn [andb negb]. rewrite Nat2Z.id.
  rewrite <- string_app_assoc.
  now rewrite str_take_app, str_drop_app.
Qed.

(** X28.  [generate_outfilename] puts "_analysis" between the stem and the
    extension of the last component and keeps the directory: for a last
    component [stem.ext], where [stem] has a character other than "." and
    [ext] has no "." (and neither has a separator), with or without a
    directory in front (one that does not end with the separator). *)
Theorem generate_outfilename_inserts_suffix :
  forall (dir stem ext : string),
    dir <> EmptyString -> ends_with "/" dir = false ->
    lacks_char "/" stem = true ->
    string_forall (Ascii.eqb ".") stem = false ->
    lacks_char "/" ext = true ->
    lacks_char "." ext = true ->
    generate_outfilename (dir ++ "/" ++ stem ++ "." ++ ext)
    = (dir ++ "/" ++ stem ++ "_analysis" ++ "." ++ ext)%string
    /\ generate_outfilename (stem ++ "." ++ ext)
       = (stem ++ "_analysis" ++ "." ++ ext)%string.
Proof.
  intros dir stem ext Hne Hend Hstem Hdots Hext Hextdot.
  assert (Hlast : lacks_char "/" (stem ++ String "." ext) = true).
  { unfold lacks_char in *. rewrite string_forall_app.
    cbn [string_forall]. rewrite Hstem, Hext. reflexivity. }
  unfold generate_outfilename. split.
  - change (dir ++ "/" ++ stem ++ "." ++ ext)%string
      with (dir ++ String "/" (stem ++ String "." ext))%string.
    replace (dir ++ String "/" (stem ++ String "." ext))%string
      with ((dir ++ String "/" EmptyString) ++ stem ++ String "." ext)%string
      by (now rewrite string_app_assoc).
    rewrite os_path_splitext_stem; [| | exact Hdots | exact Hextdot].
    2:{ rewrite string_app_assoc. cbn [append].
        rewrite (rfind_last "/" dir _ Hlast).
        rewrite string_length_app. simpl. lia. }
    rewrite string_app_assoc. cbn [append].
    rewrite (os_path_split_dir dir stem Hne Hend Hstem).
    unfold os_path_join.
    rewrite (lacks_char_no_prefix "/" stem Hstem).
    assert (Hd : String.eqb dir EmptyString = false)
      by (destruct dir; [congruence | reflexivity]).
    rewrite Hd, Hend. cbn [orb].
    now rewrite !string_app_assoc.
  - change (stem ++ "." ++ ext)%string
      with (EmptyString ++ stem ++ String "." ext)%string.
    rewrite os_path_splitext_stem; [| | exact Hdots | exact Hextdot].
    2:{ cbn [append]. now rewrite (rfind_absent "/" _ Hlast). }
    cbn [append].
    rewrite (os_path_split_bare stem Hstem).
    unfold os_path_join.
    rewrite (lacks_char_no_prefix "/" stem Hstem).
    cbn [String.eqb orb append].
    rewrite ?string_app_assoc. reflexivity.
Qed.

Lemma generate_outfilename_inserts_suffix_witness :
  generate_outfilename ("/data/runs" ++ "/" ++ "2020_01_31_B" ++ "." ++ "xlsx")
  = "/data/runs/2020_01_31_B_analysis.xlsx"%string.
Proof.
  apply (proj1 (generate_outfilename_inserts_suffix
                  "/data/runs" "2020_01_31_B" "xlsx"
                  ltac:(discriminate) eq_refl eq_refl eq_refl eq_refl
                  eq_refl)).
Defined.
